(** * Oncology research agent: scoring, review gate, retrieval, orchestration
      and persistence

    A shallow embedding of the decision logic of the Python sources

      - [agents/clinical_reasoner.py]  (module [ClinicalReasoner])
      - [agents/doctor_agent.py]       (module [DoctorAgent])
      - [agents/literature_agent.py]   (module [LiteratureAgent])
      - [agents/analysis_agent.py]     (module [AnalysisAgent])
      - [tools/risk_calculator.py]     (module [RiskCalculator])
      - [tools/pubmed_tool.py]         (module [PubmedTool])
      - [tools/scholar_tool.py]        (module [ScholarTool])
      - [agents/supervisor.py]         (module [Supervisor])
      - [memory/memory_service.py]     (module [MemoryService])
      - [memory/approval_workflow.py]  (module [ApprovalWorkflow])
      - [main.py]                      (module [Main])

    and of [json.dumps] and [json.loads] of the standard library as the
    memory service calls them (module [Json]).

    The clients of the search tools, the survival analysis, the builtins
    that format numbers and texts, the console and the clock are outside
    these files; each is a variable of the section that calls it.  A call
    that may raise returns a [Py.result].

    Python [float]s are IEEE 754 binary64 numbers and are modelled by Rocq's
    primitive floats; Python [int]s are unbounded and are modelled by [Z];
    Python [str] is [string], the bytes of the text in UTF-8; [dict]s with a
    fixed set of optional keys are records of optional fields, and [dict]s
    with free keys are [gmap]s. *)

From Stdlib Require Import Floats ZArith Lia.
From Stdlib Require DecimalString DecimalZ DecimalPos DecimalFacts.
From stdpp Require Import gmap strings list pretty.

Set Warnings "-inexact-float,-register-all".

Open Scope Z_scope.

(** ** Python values shared by all modules *)

Module Py.

(** A raised exception: its class name and [str(exc)]. *)
Record exn := Exn { exn_class : string; exn_str : string }.

(** The outcome of a call that may raise. *)
Inductive result (A : Type) : Type :=
| Return (a : A)
| Raise (e : exn).
Arguments Return {A} a.
Arguments Raise {A} e.

Definition bind {A B} (r : result A) (k : A -> result B) : result B :=
  match r with
  | Return a => k a
  | Raise e => Raise e
  end.

(** [try: body except Exception as e: handler(e)] *)
Definition try_except {A} (body : result A) (handler : exn -> result A)
  : result A :=
  match body with
  | Return a => Return a
  | Raise e => handler e
  end.

(** [d.get(key, default)] on an optional key. *)
Definition get {A} (field : option A) (default : A) : A :=
  match field with
  | Some a => a
  | None => default
  end.

(** Comparison operators on [float]: [a < b], [a > b], [a >= b]. *)
Definition flt (a b : float) : bool := PrimFloat.ltb a b.
Definition fgt (a b : float) : bool := PrimFloat.ltb b a.
Definition fge (a b : float) : bool := PrimFloat.leb b a.

(** Truthiness of a [float]: zero of either sign is falsy, NaN is truthy. *)
Definition truthy (x : float) : bool := negb (PrimFloat.eqb x 0%float).

(** [print(text)].  [console] is what standard output does with a text:
    [None] when it writes it, [Some e] when it raises [e], as a console does
    that cannot encode the text; its answer is taken to depend on the text
    alone.  A call that returns gives the text it has written. *)
Definition print (console : string -> option exn) (text : string)
  : result (list string) :=
  match console text with
  | None => Return [text]
  | Some e => Raise e
  end.

End Py.

Notation "x <- r ;; k" := (Py.bind r (fun x => k))
  (at level 100, r at next level, right associativity).

(** ** [agents/clinical_reasoner.py] *)

Module ClinicalReasoner.

(** The [evidence] dict.  A key that is absent is [None] here.  For the two
    medians the source reads [evidence.get(k, 0) or 0], which sends an
    absent key, a stored [None] and a stored zero to the same value, so one
    [option] covers the first two. *)
Record Evidence := {
  p_value : option float;
  total_papers : option Z;
  median_pembrolizumab : option float;
  median_nivolumab : option float
}.

(** The spec's strength labels and grade codes, with the text the source
    stores for each. *)
Inductive Strength := Strong | Moderate | Weak.
Inductive Grade := G1A | G1B | G2C.

Definition strength_text (s : Strength) : string :=
  match s with
  | Strong => "Strong recommendation"
  | Moderate => "Moderate recommendation"
  | Weak => "Weak recommendation"
  end.

Definition grade_text (g : Grade) : string :=
  match g with
  | G1A => "1A"
  | G1B => "1B"
  | G2C => "2C"
  end.

(** The returned dict.  The [rationale] entry, a formatted echo of the
    three inputs, is left out: no decision reads it. *)
Record Recommendation := {
  recommendation : string;
  confidence_score : float;
  strength_of_recommendation : string;
  grade : string
}.

Definition recommendation_text : string :=
  "Pembrolizumab is preferred over nivolumab as first-line therapy in advanced melanoma".

(** [x or 0] for an optional median. *)
Definition or_zero (x : option float) : float :=
  match x with
  | Some v => if Py.truthy v then v else 0%float
  | None => 0%float
  end.

(** Lines 16-27: the tier chosen from the three numbers. *)
Definition tier (p_value : float) (papers_found : Z) (median_os_diff : float)
  : float * Strength * Grade :=
  if Py.flt p_value 0.01 && (10 <=? papers_found) && Py.fge median_os_diff 12
  then (0.94%float, Strong, G1A)
  else if Py.flt p_value 0.05 && (8 <=? papers_found)
  then (0.87%float, Moderate, G1B)
  else (0.62%float, Weak, G2C).

(** Lines 16-35: the returned dict as a function of the three numbers
    read from the evidence (the spec's [score]). *)
Definition score (p_value : float) (papers_found : Z) (median_os_diff : float)
  : Recommendation :=
  let '(confidence, strength, grade) :=
    tier p_value papers_found median_os_diff in
  {| recommendation := recommendation_text;
     confidence_score := confidence;
     strength_of_recommendation := strength_text strength;
     grade := grade_text grade |}.

(** Line 13: the difference of the arm medians, absent medians read as 0. *)
Definition median_diff (evidence : Evidence) : float :=
  (or_zero (median_pembrolizumab evidence)
   - or_zero (median_nivolumab evidence))%float.

Definition generate_recommendation (evidence : Evidence) : Recommendation :=
  let p_value := Py.get (p_value evidence) 1.0%float in
  let papers_found := Py.get (total_papers evidence) 0 in
  let median_os_diff := median_diff evidence in
  score p_value papers_found median_os_diff.

End ClinicalReasoner.

(** ** [agents/doctor_agent.py] *)

Module DoctorAgent.

(** The [ai_output] dict: each of the three keys may be absent. *)
Record AiOutput := {
  recommendation : option string;
  confidence_score : option float;
  p_value : option float
}.

(** The spec's decision labels, with the text the source stores. *)
Inductive Decision := Approve | Modify.

Definition decision_text (d : Decision) : string :=
  match d with
  | Approve => "approve"
  | Modify => "modify"
  end.

(** The returned [review] dict. *)
Record Review := {
  doctor_decision : string;
  doctor_name : string;
  timestamp : string;
  review_confidence_score : float;
  comment : string;
  final_recommendation : string
}.

Definition comment_low_confidence : string :=
  "Confidence too low. Recommend reducing pembrolizumab dose or adding corticosteroid prophylaxis.".
Definition comment_weak_evidence : string :=
  "Evidence not strong enough for first-line recommendation. Suggest clinical trial enrollment.".
Definition comment_approve : string :=
  "Strong evidence and acceptable safety profile. Proceed with recommendation.".

Definition reviewer_name : string :=
  "Dr. Sarah Johnson, MD â€“ Medical Oncology".
Definition review_timestamp : string := "2025-11-27 14:32".

(** Lines 25-33: the decision and its comment. *)
Definition decide_review (confidence : float) (ai_output : AiOutput)
  : Decision * string :=
  if Py.flt confidence 0.70 then (Modify, comment_low_confidence)
  else if Py.fgt (Py.get (p_value ai_output) 1.0%float) 0.05
  then (Modify, comment_weak_evidence)
  else (Approve, comment_approve).

(** [ai_output["recommendation"]]: a missing key raises [KeyError]. *)
Definition subscript_recommendation (ai_output : AiOutput)
  : Py.result string :=
  match recommendation ai_output with
  | Some text => Py.Return text
  | None => Py.Raise (Py.Exn "KeyError" "'recommendation'")
  end.

Section Review.

(** Python's builtin [round(number, ndigits)]. *)
Variable round : float -> Z -> float.

Definition review_recommendation (ai_output : AiOutput)
  : Py.result Review :=
  let confidence := Py.get (confidence_score ai_output) 0.87%float in
  let '(decision, comment) := decide_review confidence ai_output in
  final <- (if String.eqb (decision_text decision) "approve"
            then subscript_recommendation ai_output
            else Py.Return comment) ;;
  Py.Return
    {| doctor_decision := decision_text decision;
       doctor_name := reviewer_name;
       timestamp := review_timestamp;
       review_confidence_score := round confidence 3;
       comment := comment;
       final_recommendation := final |}.

(** The review dict for a decision, its comment and its final text. *)
Definition review_dict (confidence : float) (d : Decision)
    (comment final : string) : Review :=
  {| doctor_decision := decision_text d;
     doctor_name := reviewer_name;
     timestamp := review_timestamp;
     review_confidence_score := round confidence 3;
     comment := comment;
     final_recommendation := final |}.

(** The gate seen as the spec's [review(recommendationText, confidence,
    pValue)]: all three keys present. *)
Definition review (recommendationText : string) (confidence pValue : float)
  : Py.result Review :=
  review_recommendation
    {| recommendation := Some recommendationText;
       confidence_score := Some confidence;
       p_value := Some pValue |}.

End Review.

End DoctorAgent.

(** ** [agents/literature_agent.py] *)

Module LiteratureAgent.

(** A paper is a [dict] from field names to values. *)
Inductive value :=
| VNone
| VInt (z : Z)
| VStr (s : string)
| VList (l : list string).

Abbreviation paper := (gmap string value).

(** What a search tool returns: a dict of which [query] reads the keys
    ["status"] and ["papers"], either of which may be absent. *)
Record SourceResult := {
  source_status : option string;
  source_papers : option (list paper)
}.

(** The dict returned on the normal path. *)
Record Found := {
  query_echo : string;
  total_found : Z;
  papers : list paper;
  sources_used : list string;
  pubmed_count : Z;
  scholar_count : Z;
  model_used : string;
  analysis : string
}.

(** The dict returned by the exception handler. *)
Record Failed := {
  error : string;
  failed_query : string
}.

Inductive Result :=
| Success (r : Found)
| Error (r : Failed).

(** [result["status"]] *)
Definition status (r : Result) : string :=
  match r with
  | Success _ => "success"
  | Error _ => "error"
  end.

(** [result.get("total_found")], [result.get("papers")],
    [result.get("query")] *)
Definition get_total_found (r : Result) : option Z :=
  match r with
  | Success f => Some (total_found f)
  | Error _ => None
  end.

Definition get_papers (r : Result) : option (list paper) :=
  match r with
  | Success f => Some (papers f)
  | Error _ => None
  end.

Definition get_query (r : Result) : string :=
  match r with
  | Success f => query_echo f
  | Error f => failed_query f
  end.

(** [len(l)] *)
Definition len {A} (l : list A) : Z := Z.of_nat (length l).

(** [r.get("papers", []) if r.get("status") == "success" else []] *)
Definition papers_of (r : SourceResult) : list paper :=
  if decide (source_status r = Some "success")
  then Py.get (source_papers r) []
  else [].

(** [{"source": "PubMed", **p}]: the keys of [p] are written after the
    tag, so a ["source"] entry of [p] itself would win. *)
Definition tag_pubmed (p : paper) : paper :=
  p ∪ {[ "source" := VStr "PubMed" ]}.

Definition no_results : string :=
  "No publications found matching the query criteria.".

Definition summary_tail : string :=
  " covering recent advances in the specified research area (2023-2025).".

Definition _generate_summary (pubmed_count scholar_count : Z) : string :=
  let parts : list string := [] in
  let parts :=
    if 0 <? pubmed_count
    then parts ++ [pretty pubmed_count +:+ " publications from PubMed"]
    else parts in
  let parts :=
    if 0 <? scholar_count
    then parts ++ [pretty scholar_count +:+ " from Google Scholar"]
    else parts in
  match parts with
  | [] => no_results
  | _ => "Retrieved " +:+ String.concat " and " parts +:+ summary_tail
  end.

Section Query.

(** [self.model_name] *)
Variable model_name : string.

(** The two search tools, [search_pubmed(query, max_results, min_year)]
    and [search_scholar(query, max_results)]: what each call returns, or
    the exception it lets escape. *)
Variable search_pubmed : string -> Z -> Z -> Py.result SourceResult.
Variable search_scholar : string -> Z -> Py.result SourceResult.

(** Lines 57-87: the aggregation of what the two tools returned. *)
Definition found (user_query : string)
    (pubmed_result scholar_result : SourceResult) : Found :=
  let pubmed_papers := papers_of pubmed_result in
  let scholar_papers := papers_of scholar_result in
  let all_papers := map tag_pubmed pubmed_papers ++ scholar_papers in
  let summary :=
    _generate_summary (len pubmed_papers) (len scholar_papers) in
  {| query_echo := user_query;
     total_found := len all_papers;
     papers := take 20 all_papers;
     sources_used := ["PubMed"; "Google Scholar"];
     pubmed_count := len pubmed_papers;
     scholar_count := len scholar_papers;
     model_used := model_name;
     analysis := summary |}.

(** Lines 41-87: the body of the [try]. *)
Definition query_body (user_query : string) : Py.result Result :=
  pubmed_result <- search_pubmed user_query 12 2023 ;;
  scholar_result <- search_scholar user_query 6 ;;
  Py.Return (Success (found user_query pubmed_result scholar_result)).

(** Lines 40-95: the [try] with its handler, which returns the error dict. *)
Definition query (user_query : string) : Py.result Result :=
  Py.try_except (query_body user_query)
    (fun exc =>
       Py.Return
         (Error {| error := Py.exn_str exc; failed_query := user_query |})).

End Query.

End LiteratureAgent.

(** ** [agents/analysis_agent.py] *)

Module AnalysisAgent.

(** The success dict of [tools.stats_tool.perform_survival_analysis]. *)
Record Survival := {
  tool_figure_path : string;
  tool_p_value : float;
  tool_median_pembrolizumab : option float;
  tool_median_nivolumab : option float;
  interpretation : string;
  test_statistic : float
}.

(** What the tool returns: the success dict, or a dict whose status is not
    ["success"] and whose ["error"] key may be absent. *)
Inductive ToolResult :=
| ToolSuccess (s : Survival)
| ToolError (error : option string).

(** The agent's success dict. *)
Record Analysed := {
  summary : string;
  figure_path : string;
  p_value : float;
  median_pembrolizumab : option float;
  median_nivolumab : option float
}.

Inductive Result :=
| Success (a : Analysed)
| Error (message : string).

Definition status (r : Result) : string :=
  match r with
  | Success _ => "success"
  | Error _ => "error"
  end.

(** [result.get("p_value")] and the two medians; for a median an absent key
    and a stored [None] both read as [None]. *)
Definition get_p_value (r : Result) : option float :=
  match r with
  | Success a => Some (p_value a)
  | Error _ => None
  end.

Definition get_median_pembrolizumab (r : Result) : option float :=
  match r with
  | Success a => median_pembrolizumab a
  | Error _ => None
  end.

Definition get_median_nivolumab (r : Result) : option float :=
  match r with
  | Success a => median_nivolumab a
  | Error _ => None
  end.

Section Analyze.

(** What this call of [perform_survival_analysis()] returns; the tool
    catches every exception itself. *)
Variable perform_survival_analysis : ToolResult.

(** The summary text formatted from the tool's numbers (lines 38-51). *)
Variable format_summary : Survival -> string.

Definition analyze_survival : Result :=
  match perform_survival_analysis with
  | ToolError error =>
      Error (Py.get error "Unknown analysis error")
  | ToolSuccess result =>
      Success
        {| summary := format_summary result;
           figure_path := tool_figure_path result;
           p_value := tool_p_value result;
           median_pembrolizumab := tool_median_pembrolizumab result;
           median_nivolumab := tool_median_nivolumab result |}
  end.

End Analyze.

End AnalysisAgent.

(** ** [tools/risk_calculator.py] *)

Module RiskCalculator.

Definition calculate_irae_risk : gmap string string :=
  list_to_map
    [ ("any_grade_irae", "58%");
      ("grade_3_4_irae", "18%");
      ("endocrine_irae", "42%");
      ("pneumonitis", "7%");
      ("colitis", "4%");
      ("hepatitis", "6%");
      ("recommendation",
       "Initiate thyroid function monitoring at baseline and every 6 weeks") ].

End RiskCalculator.

(** ** [agents/supervisor.py] *)

Module Supervisor.

(** The dict returned by [process_query]. *)
Record Report := {
  literature : LiteratureAgent.Result;
  analysis : AnalysisAgent.Result;
  recommendation : ClinicalReasoner.Recommendation;
  doctor_review : DoctorAgent.Review;
  risk_profile : gmap string string
}.

(** Lines 46-51: the evidence handed to the scorer.  All four keys are
    always written. *)
Definition evidence_of (lit_result : LiteratureAgent.Result)
    (analysis_result : AnalysisAgent.Result) : ClinicalReasoner.Evidence :=
  {| ClinicalReasoner.p_value :=
       Some (Py.get (AnalysisAgent.get_p_value analysis_result) 1.0%float);
     ClinicalReasoner.total_papers :=
       Some (Py.get (LiteratureAgent.get_total_found lit_result) 0);
     ClinicalReasoner.median_pembrolizumab :=
       AnalysisAgent.get_median_pembrolizumab analysis_result;
     ClinicalReasoner.median_nivolumab :=
       AnalysisAgent.get_median_nivolumab analysis_result |}.

(** Lines 55-59: the dict handed to the review gate. *)
Definition ai_output_of (evidence : ClinicalReasoner.Evidence)
    (recommendation : ClinicalReasoner.Recommendation)
  : DoctorAgent.AiOutput :=
  {| DoctorAgent.recommendation :=
       Some (ClinicalReasoner.recommendation recommendation);
     DoctorAgent.confidence_score :=
       Some (ClinicalReasoner.confidence_score recommendation);
     DoctorAgent.p_value := ClinicalReasoner.p_value evidence |}.

Definition nl : string := String (Ascii.ascii_of_nat 10) "".

(** [s * n] *)
Fixpoint repeat_text (s : string) (n : nat) : string :=
  match n with
  | O => ""
  | S k => s +:+ repeat_text s k
  end.

Definition double_bar : string := repeat_text "═" 70.
Definition single_bar : string := repeat_text "-" 70.

(** [src == "PubMed"] *)
Definition is_pubmed (src : LiteratureAgent.value) : bool :=
  match src with
  | LiteratureAgent.VStr s => String.eqb s "PubMed"
  | _ => false
  end.

(** [risk_profile[key]] *)
Definition risk_item (risk_profile : gmap string string) (key : string)
  : Py.result string :=
  match risk_profile !! key with
  | Some v => Py.Return v
  | None => Py.Raise (Py.Exn "KeyError" key)
  end.

Section Workflow.

Variable model_name : string.
Variable search_pubmed : string -> Z -> Z -> Py.result LiteratureAgent.SourceResult.
Variable search_scholar : string -> Z -> Py.result LiteratureAgent.SourceResult.
Variable perform_survival_analysis : AnalysisAgent.ToolResult.
Variable format_summary : AnalysisAgent.Survival -> string.
Variable round : float -> Z -> float.

(** [repr] of a list of texts, [list(text)], [format(x, ".1%")] and
    [text.upper()]. *)
Variable repr_list : list string -> string.
Variable chars : string -> list string.
Variable format_percent : float -> string.
Variable upper : string -> string.

(** The rationale text of a recommendation, formatted from its evidence
    ([clinical_reasoner.py], line 34). *)
Variable format_rationale : ClinicalReasoner.Evidence -> string.

(** Standard output. *)
Variable console : string -> option Py.exn.

(** A value inside an f-string. *)
Definition format_value (v : LiteratureAgent.value) : string :=
  match v with
  | LiteratureAgent.VNone => "None"
  | LiteratureAgent.VInt z => pretty z
  | LiteratureAgent.VStr s => s
  | LiteratureAgent.VList l => repr_list l
  end.

(** [x[:3]] and [len(x)] for the value under ["authors"]: a list or a text
    has them, [None] and an integer raise [TypeError]. *)
Definition first_three (v : LiteratureAgent.value)
  : Py.result (list string) :=
  match v with
  | LiteratureAgent.VList l => Py.Return (take 3 l)
  | LiteratureAgent.VStr s => Py.Return (take 3 (chars s))
  | LiteratureAgent.VNone =>
      Py.Raise (Py.Exn "TypeError" "'NoneType' object is not subscriptable")
  | LiteratureAgent.VInt _ =>
      Py.Raise (Py.Exn "TypeError" "'int' object is not subscriptable")
  end.

Definition value_len (v : LiteratureAgent.value) : Py.result Z :=
  match v with
  | LiteratureAgent.VList l => Py.Return (LiteratureAgent.len l)
  | LiteratureAgent.VStr s => Py.Return (LiteratureAgent.len (chars s))
  | LiteratureAgent.VNone =>
      Py.Raise (Py.Exn "TypeError" "object of type 'NoneType' has no len()")
  | LiteratureAgent.VInt _ =>
      Py.Raise (Py.Exn "TypeError" "object of type 'int' has no len()")
  end.

(** Lines 87-96: the body of the loop for paper number [i], with the texts
    it has printed. *)
Definition format_paper (i : Z) (paper : LiteratureAgent.paper)
  : Py.result (list string) :=
  let src := Py.get (paper !! "source") (LiteratureAgent.VStr "Unknown") in
  let year := Py.get (paper !! "year") (LiteratureAgent.VStr "N/A") in
  title <- (match paper !! "title" with
            | Some t => Py.Return t
            | None => Py.Raise (Py.Exn "KeyError" "'title'")
            end) ;;
  out1 <- Py.print console
            (nl +:+ "[" +:+ pretty i +:+ "] " +:+ format_value title) ;;
  out2 <- Py.print console
            ("    Source: " +:+ format_value src +:+ " | Year: "
             +:+ format_value year) ;;
  if is_pubmed src
  then
    listed <- first_three
                (Py.get (paper !! "authors")
                   (LiteratureAgent.VList ["Unknown"])) ;;
    count <- value_len
               (Py.get (paper !! "authors") (LiteratureAgent.VList [])) ;;
    let authors := String.concat ", " listed in
    let authors := if 3 <? count then authors +:+ " et al." else authors in
    out3 <- Py.print console ("    Authors: " +:+ authors) ;;
    out4 <- Py.print console
              ("    Journal: "
               +:+ format_value
                     (Py.get (paper !! "journal")
                        (LiteratureAgent.VStr "N/A"))
               +:+ " | PMID: "
               +:+ format_value
                     (Py.get (paper !! "pmid")
                        (LiteratureAgent.VStr "N/A"))) ;;
    Py.Return (out1 ++ out2 ++ out3 ++ out4)
  else Py.Return (out1 ++ out2).

(** [for i, paper in enumerate(papers, i)] *)
Fixpoint format_papers (i : Z) (papers : list LiteratureAgent.paper)
  : Py.result (list string) :=
  match papers with
  | [] => Py.Return []
  | paper :: rest =>
      lines <- format_paper i paper ;;
      more <- format_papers (i + 1) rest ;;
      Py.Return (lines ++ more)
  end.

(** A run of calls of [print], in order: the first that raises ends it. *)
Fixpoint print_all (texts : list string) : Py.result (list string) :=
  match texts with
  | [] => Py.Return []
  | text :: rest =>
      out <- Py.print console text ;;
      more <- print_all rest ;;
      Py.Return (out ++ more)
  end.

(** Lines 75-101, for the success dict. *)
Definition _format_literature_output (result : LiteratureAgent.Found)
  : Py.result (list string) :=
  head <- print_all
    [ nl +:+ double_bar;
      "LITERATURE SEARCH RESULTS";
      double_bar;
      nl +:+ "Query          : " +:+ LiteratureAgent.query_echo result;
      "Total papers   : " +:+ pretty (LiteratureAgent.total_found result);
      "Sources        : PubMed ("
      +:+ pretty (LiteratureAgent.pubmed_count result)
      +:+ "), Google Scholar ("
      +:+ pretty (LiteratureAgent.scholar_count result) +:+ ")";
      nl +:+ single_bar;
      "TOP PUBLICATIONS";
      single_bar ] ;;
  body <- format_papers 1 (take 6 (LiteratureAgent.papers result)) ;;
  tail <- print_all
    [ nl +:+ single_bar;
      "SEARCH SUMMARY";
      single_bar;
      LiteratureAgent.analysis result;
      "" ] ;;
  Py.Return (head ++ body ++ tail).

(** Lines 103-122.  [rationale] is the entry of the recommendation that the
    record leaves out. *)
Definition _display_clinical_report (rationale : string)
    (recommendation : ClinicalReasoner.Recommendation)
    (doctor_review : DoctorAgent.Review) (risk_profile : gmap string string)
  : Py.result (list string) :=
  head <- print_all
    [ nl +:+ double_bar;
      "CLINICAL DECISION SUPPORT REPORT";
      double_bar;
      nl +:+ "Recommendation      : "
      +:+ DoctorAgent.final_recommendation doctor_review;
      "Strength            : "
      +:+ ClinicalReasoner.strength_of_recommendation recommendation
      +:+ " (GRADE " +:+ ClinicalReasoner.grade recommendation +:+ ")";
      "Confidence Score    : "
      +:+ format_percent (ClinicalReasoner.confidence_score recommendation);
      "Rationale           : " +:+ rationale;
      nl +:+ "Physician Review    : "
      +:+ upper (DoctorAgent.doctor_decision doctor_review);
      "Reviewing Physician : " +:+ DoctorAgent.doctor_name doctor_review;
      "Comment             : " +:+ DoctorAgent.comment doctor_review ] ;;
  irae <- risk_item risk_profile "grade_3_4_irae" ;;
  out_irae <- Py.print console
                (nl +:+ "Adverse Event Risk  : Grade 3–4 irAE: " +:+ irae) ;;
  advice <- risk_item risk_profile "recommendation" ;;
  tail <- print_all [ "Monitoring Advice   : " +:+ advice; double_bar ] ;;
  Py.Return (head ++ out_irae ++ tail).

(** [process_query] (lines 29-73): the dict it returns, with the texts it
    has printed on the way. *)
Definition process_query (query : string)
  : Py.result (list string * Report) :=
  lit_result <-
    LiteratureAgent.query model_name search_pubmed search_scholar query ;;
  out_literature <-
    (match lit_result with
     | LiteratureAgent.Success found => _format_literature_output found
     | LiteratureAgent.Error _ => Py.Return []
     end) ;;
  out_banner <- print_all
    [ nl +:+ double_bar; "STATISTICAL SURVIVAL ANALYSIS"; double_bar ] ;;
  let analysis_result :=
    AnalysisAgent.analyze_survival perform_survival_analysis
      format_summary in
  out_analysis <-
    (match analysis_result with
     | AnalysisAgent.Success a =>
         Py.print console (AnalysisAgent.summary a)
     | AnalysisAgent.Error _ => Py.Return []
     end) ;;
  let evidence := evidence_of lit_result analysis_result in
  let recommendation :=
    ClinicalReasoner.generate_recommendation evidence in
  doctor_review <-
    DoctorAgent.review_recommendation round
      (ai_output_of evidence recommendation) ;;
  let risk_profile := RiskCalculator.calculate_irae_risk in
  out_report <-
    _display_clinical_report (format_rationale evidence) recommendation
      doctor_review risk_profile ;;
  Py.Return
    (out_literature ++ out_banner ++ out_analysis ++ out_report,
     {| literature := lit_result;
        analysis := analysis_result;
        recommendation := recommendation;
        doctor_review := doctor_review;
        risk_profile := risk_profile |}).

(** The four stages of lines 32-63 taken by themselves, Retrieve, Analyze,
    Score and Review: the report as a function of what the tools return,
    without the console output between them. *)
Definition stages (query : string) : Py.result Report :=
  lit_result <-
    LiteratureAgent.query model_name search_pubmed search_scholar query ;;
  let analysis_result :=
    AnalysisAgent.analyze_survival perform_survival_analysis
      format_summary in
  let evidence := evidence_of lit_result analysis_result in
  let recommendation :=
    ClinicalReasoner.generate_recommendation evidence in
  doctor_review <-
    DoctorAgent.review_recommendation round
      (ai_output_of evidence recommendation) ;;
  let risk_profile := RiskCalculator.calculate_irae_risk in
  Py.Return
    {| literature := lit_result;
       analysis := analysis_result;
       recommendation := recommendation;
       doctor_review := doctor_review;
       risk_profile := risk_profile |}.

End Workflow.

End Supervisor.

(** ** [memory/memory_service.py] *)

Module MemoryService.

(** A findings payload, structured data as JSON has it: [None], a boolean,
    an integer, a float, a text, a list of such values, or a [dict] from
    texts to such values, which keeps its insertion order.  Values that
    [json.dumps] rewrites or refuses, a tuple or an object of a class, are
    outside the type. *)
Inductive json :=
| JNull
| JBool (b : bool)
| JInt (z : Z)
| JFloat (x : float)
| JStr (s : string)
| JList (l : list json)
| JDict (d : list (string * json)).

(** An instant, as read from [datetime.utcnow()]. *)
Definition datetime := Z.

(** A mapped [ResearchMemory] object, a row of table [research_memory].
    [id] is [None] until the row has been inserted. *)
Record ResearchMemory := {
  id : option Z;
  session_id : string;
  query : string;
  cancer_type : string;
  findings : option string;
  timestamp : datetime
}.

(** The SQLAlchemy session together with the table behind it: the rows
    that are committed, and the objects added since the last commit or
    rollback, oldest first. *)
Record Session := {
  table : list ResearchMemory;
  pending : list ResearchMemory
}.

(** Service methods run in the session and may raise; what they did to
    the session before raising stays done. *)
Definition M (A : Type) : Type := Session -> Py.result A * Session.

Definition ret {A} (a : A) : M A := fun s => (Py.Return a, s).
Definition raise {A} (e : Py.exn) : M A := fun s => (Py.Raise e, s).
Definition lift {A} (r : Py.result A) : M A := fun s => (r, s).

Definition bind {A B} (c : M A) (k : A -> M B) : M B :=
  fun s =>
    match c s with
    | (Py.Return a, s') => k a s'
    | (Py.Raise e, s') => (Py.Raise e, s')
    end.

Definition try_except {A} (body : M A) (handler : Py.exn -> M A) : M A :=
  fun s =>
    match body s with
    | (Py.Return a, s') => (Py.Return a, s')
    | (Py.Raise e, s') => handler e s'
    end.

Notation "x <~ c ;; k" := (bind c (fun x => k))
  (at level 100, c at next level, right associativity).

(** The key given to a new row: one more than the largest key in use, which
    is what the storage engine gives while the keys in use are positive and
    below its largest key; a store that only this service has written holds
    the keys 1, 2, 3, ... *)
Definition max_id (rows : list ResearchMemory) : Z :=
  foldr (fun r m => Z.max (Py.get (id r) 0) m) 0 rows.

Definition with_id (i : Z) (r : ResearchMemory) : ResearchMemory :=
  {| id := Some i;
     session_id := session_id r;
     query := query r;
     cancer_type := cancer_type r;
     findings := findings r;
     timestamp := timestamp r |}.

Definition insert_row (rows : list ResearchMemory) (r : ResearchMemory)
  : list ResearchMemory :=
  rows ++ [with_id (max_id rows + 1) r].

(** [session.add(entry)] *)
Definition add (entry : ResearchMemory) : M unit :=
  fun s => (Py.Return tt,
            {| table := table s; pending := pending s ++ [entry] |}).

(** [session.commit()].  [fault] is what the storage engine does with this
    commit: [None] when it goes through, [Some e] when it fails with [e],
    and then the table keeps its rows while the session keeps its pending
    objects until it is rolled back. *)
Definition commit (fault : option Py.exn) : M unit :=
  fun s =>
    match fault with
    | Some e => (Py.Raise e, s)
    | None =>
        (Py.Return tt,
         {| table := foldl insert_row (table s) (pending s);
            pending := [] |})
    end.

(** [session.rollback()]: it discards what is pending and undoes nothing
    that a commit has written.  The rollback itself is taken to go
    through. *)
Definition rollback : M unit :=
  fun s => (Py.Return tt, {| table := table s; pending := [] |}).

(** [entry.id] read after the commit, for the entry added last.  The commit
    has expired the attributes of the entry, so the read loads the row
    again; [fault] is what the storage engine does with that load: [None]
    when it goes through, [Some e] when it fails with [e]. *)
Definition entry_id (fault : option Py.exn) : M (option Z) :=
  fun s =>
    match fault with
    | Some e => (Py.Raise e, s)
    | None => (Py.Return (last (table s) ≫= id), s)
    end.

(** What both save methods do with the entry they have built: add it,
    commit and read its id, and on an exception roll back and raise it
    again. *)
Definition write (commit_fault refresh_fault : option Py.exn)
    (entry : ResearchMemory) : M (option Z) :=
  try_except
    (_ <~ add entry ;; _ <~ commit commit_fault ;; entry_id refresh_fault)
    (fun e => _ <~ rollback ;; raise e).

(** The dict returned by [get_session]. *)
Record SessionView := {
  view_id : option Z;
  view_query : string;
  view_cancer_type : string;
  view_findings : json;
  view_timestamp : datetime
}.

(** [bool(entry.findings)] *)
Definition truthy (text : option string) : bool :=
  match text with
  | None => false
  | Some t => negb (String.eqb t "")
  end.

Section Service.

(** [json.dumps(obj, ensure_ascii=False)] and [json.loads(text)]. *)
Variable json_dumps : json -> Py.result string.
Variable json_loads : string -> Py.result json.

(** [datetime.isoformat()] *)
Variable isoformat : datetime -> string.

(** [now] is the value of [datetime.utcnow()] at the call. *)
Definition save_research (commit_fault refresh_fault : option Py.exn)
    (now : datetime) (session_id query cancer_type : string)
    (findings : json) : M (option Z) :=
  try_except
    (text <~ lift (json_dumps findings) ;;
     let entry :=
       {| id := None;
          session_id := session_id;
          query := query;
          cancer_type := cancer_type;
          findings := Some text;
          timestamp := now |} in
     _ <~ add entry ;;
     _ <~ commit commit_fault ;;
     entry_id refresh_fault)
    (fun e => _ <~ rollback ;; raise e).

(** [now_record] and [now_entry] are the two readings of the clock. *)
Definition save_doctor_review (commit_fault refresh_fault : option Py.exn)
    (now_record now_entry : datetime)
    (session_id decision doctor_name comment : string)
  : M (option Z) :=
  try_except
    (let record :=
       JDict [ ("decision", JStr decision);
               ("doctor", JStr doctor_name);
               ("comment", JStr comment);
               ("timestamp", JStr (isoformat now_record)) ] in
     text <~ lift (json_dumps record) ;;
     let entry :=
       {| id := None;
          session_id := session_id;
          query := "Physician Review";
          cancer_type := "clinical_decision";
          findings := Some text;
          timestamp := now_entry |} in
     _ <~ add entry ;;
     _ <~ commit commit_fault ;;
     entry_id refresh_fault)
    (fun e => _ <~ rollback ;; raise e).

(** [query(ResearchMemory).filter_by(session_id=...).first()]: the
    matching row stored first.  Between two calls of the service the
    session holds no pending object, so the query reads the table. *)
Definition first_by_session_id (sid : string) (s : Session)
  : option ResearchMemory :=
  head (filter (fun r => session_id r = sid) (table s)).

Definition get_session (sid : string) : M (option SessionView) :=
  fun s =>
    match first_by_session_id sid s with
    | Some entry =>
        let loaded :=
          if truthy (findings entry)
          then json_loads (Py.get (findings entry) "")
          else Py.Return (JDict []) in
        (v <- loaded ;;
         Py.Return (Some
           {| view_id := id entry;
              view_query := query entry;
              view_cancer_type := cancer_type entry;
              view_findings := v;
              view_timestamp := timestamp entry |}), s)
    | None => (Py.Return None, s)
    end.

End Service.

End MemoryService.

(** ** [tools/pubmed_tool.py] *)

Module PubmedTool.

(** [article.publication_date] when it is truthy: a date object, which has a
    [year], or a text; [str(pub_date)] is kept for both. *)
Inductive PubDate :=
| DateObject (year : Z) (str : string)
| DateText (str : string).

Definition date_str (d : PubDate) : string :=
  match d with
  | DateObject _ s => s
  | DateText s => s
  end.

(** An author entry: whether it has the attributes [lastname] and
    [firstname], and what the subscripts [author['lastname']] and
    [author['firstname']] give, as text, or raise. *)
Record Author := {
  has_lastname : bool;
  has_firstname : bool;
  item_lastname : Py.result string;
  item_firstname : Py.result string
}.

(** An article of the client.  Reading an attribute may raise; a value that
    is [None] reads as [None] here.  [authors] is [None] when the article
    has no such attribute. *)
Record Article := {
  publication_date : Py.result (option PubDate);
  authors : option (list Author);
  title : Py.result (option string);
  abstract : Py.result (option string);
  pubmed_id : Py.result (option string);
  journal : Py.result (option string)
}.

(** [x or default] for an optional text. *)
Definition or_text (x : option string) (default : string) : string :=
  match x with
  | Some t => if String.eqb t "" then default else t
  | None => default
  end.

(** [bool(pub_date)]: a date object is truthy, a text unless it is empty. *)
Definition date_truthy (d : option PubDate) : bool :=
  match d with
  | Some (DateObject _ _) => true
  | Some (DateText s) => negb (String.eqb s "")
  | None => false
  end.

(** [s.split('\n')[0]]: the text before the first line feed. *)
Fixpoint first_line (s : string) : string :=
  match s with
  | EmptyString => EmptyString
  | String c rest =>
      if Ascii.eqb c (Ascii.ascii_of_nat 10) then EmptyString
      else String c (first_line rest)
  end.

(** Lines 71-76: the names of the listed authors. *)
Definition author_name (a : Author) : Py.result (option string) :=
  if has_lastname a && has_firstname a
  then
    last <- item_lastname a ;;
    first <- item_firstname a ;;
    Py.Return (Some (last +:+ " " +:+ first))
  else Py.Return None.

Fixpoint author_names (l : list Author) : Py.result (list string) :=
  match l with
  | [] => Py.Return []
  | a :: rest =>
      name <- author_name a ;;
      names <- author_names rest ;;
      Py.Return (match name with
                 | Some n => n :: names
                 | None => names
                 end)
  end.

(** The result dict; [error_message] and [search_params] are each present
    in one of the two forms only. *)
Record Result := {
  status : string;
  papers : list LiteratureAgent.paper;
  total_found : Z;
  query_echo : string;
  error_message : option string;
  search_params : option (Z * Z)
}.

Section Search.

(** [int(text[:4])], with the [ValueError] it may raise. *)
Variable year_of_text : string -> Py.result Z.

(** The client: [PubMed(...).query(search_query, max_results)] and the
    iteration over what it yields, which fetches the articles; either may
    raise. *)
Variable pubmed_query : string -> Z -> Py.result (list Article).

(** Lines 60-87: the body of the inner [try], for one article. *)
Definition parse_article (article : Article)
  : Py.result LiteratureAgent.paper :=
  pub_date <- publication_date article ;;
  year <- (if date_truthy pub_date
           then match pub_date with
                | Some (DateObject y _) => Py.Return (LiteratureAgent.VInt y)
                | Some (DateText s) =>
                    y <- year_of_text s ;;
                    Py.Return (LiteratureAgent.VInt y)
                | None => Py.Return LiteratureAgent.VNone
                end
           else Py.Return LiteratureAgent.VNone) ;;
  names <- (match authors article with
            | Some (a :: l) => author_names (take 5 (a :: l))
            | _ => Py.Return []
            end) ;;
  title <- title article ;;
  abstract <- abstract article ;;
  pubmed_id <- pubmed_id article ;;
  journal <- journal article ;;
  Py.Return
    (list_to_map
       [ ("title", LiteratureAgent.VStr (or_text title "No title available"));
         ("authors",
          LiteratureAgent.VList
            (match names with [] => ["Unknown"] | _ => names end));
         ("abstract",
          LiteratureAgent.VStr (or_text abstract "No abstract available"));
         ("pmid",
          LiteratureAgent.VStr
            (match pubmed_id with
             | Some t => if String.eqb t "" then "Unknown" else first_line t
             | None => "Unknown"
             end));
         ("publication_date",
          LiteratureAgent.VStr
            (if date_truthy pub_date
             then match pub_date with
                  | Some d => date_str d
                  | None => "Unknown"
                  end
             else "Unknown"));
         ("year", year);
         ("journal", LiteratureAgent.VStr (or_text journal "Unknown")) ]).

(** Lines 57-93: the loop; an article whose parsing raises is skipped. *)
Definition parse_articles (articles : list Article)
  : list LiteratureAgent.paper :=
  foldl (fun papers article =>
           match parse_article article with
           | Py.Return paper => papers ++ [paper]
           | Py.Raise _ => papers
           end)
    [] articles.

(** Lines 46-107: the body of the outer [try]. *)
Definition search_body (query : string) (max_results min_year : Z)
  : Py.result Result :=
  let search_query := query +:+ " AND " +:+ pretty min_year +:+ ":2025[dp]" in
  results <- pubmed_query search_query max_results ;;
  let papers := parse_articles results in
  Py.Return
    {| status := "success";
       papers := papers;
       total_found := LiteratureAgent.len papers;
       query_echo := query;
       error_message := None;
       search_params := Some (max_results, min_year) |}.

(** Lines 45-118: the [try] with its handler. *)
Definition search_pubmed (query : string) (max_results min_year : Z)
  : Py.result Result :=
  Py.try_except (search_body query max_results min_year)
    (fun e =>
       Py.Return
         {| status := "error";
            papers := [];
            total_found := 0;
            query_echo := query;
            error_message :=
              Some ("PubMed search failed: " +:+ Py.exn_str e);
            search_params := None |}).

(** The dict as [LiteratureAgent.query] reads it. *)
Definition as_source (r : Result) : LiteratureAgent.SourceResult :=
  {| LiteratureAgent.source_status := Some (status r);
     LiteratureAgent.source_papers := Some (papers r) |}.

End Search.

End PubmedTool.

(** ** [tools/scholar_tool.py] *)

Module ScholarTool.

(** The link of a result's title: its text and its [href], if it has one.
    Texts are as [get_text(strip=True)] gives them. *)
Record TitleTag := {
  tag_text : string;
  href : option string
}.

(** What the three selectors find in one result block of the page. *)
Record Item := {
  title_tag : option TitleTag;
  snippet : option string;
  info : option string
}.

(** The response of [requests.get]: its status code, and the result blocks
    that the parser selects from its text when asked to. *)
Record Response := {
  status_code : Z;
  select_items : Py.result (list Item)
}.

(** The result dict.  [total_found] is set on success only; ["message"] and
    ["error"] in one error form each. *)
Record Result := {
  status : string;
  papers : list LiteratureAgent.paper;
  total_found : option Z;
  message : option string;
  error : option string
}.

(** [l[:n]] *)
Definition slice_to {A} (n : Z) (l : list A) : list A :=
  if 0 <=? n then take (Z.to_nat n) l
  else take (length l - Z.to_nat (- n)) l.

(** [s.split(sep)] for a separator of one ASCII character. *)
Fixpoint split_on (sep : Ascii.ascii) (s : string) : list string :=
  match s with
  | EmptyString => [EmptyString]
  | String c rest =>
      if Ascii.eqb c sep then EmptyString :: split_on sep rest
      else match split_on sep rest with
           | part :: parts => String c part :: parts
           | [] => [String c EmptyString]
           end
  end.

Definition dash : Ascii.ascii := Ascii.ascii_of_nat 45.

Section Search.

(** The builtins [str.strip()], [str.isdigit()] and [int(text)], the last
    with the [ValueError] it may raise. *)
Variable strip : string -> string.
Variable isdigit : string -> bool.
Variable int_of : string -> Py.result Z.

(** [requests.get(url, params, headers, timeout)] for a query. *)
Variable http_get : string -> Py.result Response.

(** Lines 64-69: the first part of the info text that reads as a year from
    2023 to 2025, and 2024 when there is none. *)
Fixpoint find_year (parts : list string) : Py.result string :=
  match parts with
  | [] => Py.Return "2024"
  | part :: rest =>
      let part := strip part in
      if isdigit part
      then
        n <- int_of part ;;
        if (2023 <=? n) && (n <=? 2025) then Py.Return part
        else find_year rest
      else find_year rest
  end.

(** Lines 51-78: one result block; [None] when it has no title link. *)
Definition parse_item (item : Item)
  : Py.result (option LiteratureAgent.paper) :=
  match title_tag item with
  | None => Py.Return None
  | Some tag =>
      let title := tag_text tag in
      let link := Py.get (href tag) "" in
      let snippet_text := Py.get (snippet item) "No abstract available" in
      let info_text := Py.get (info item) "" in
      year <- find_year (split_on dash info_text) ;;
      Py.Return (Some
        (list_to_map
           [ ("title", LiteratureAgent.VStr title);
             ("link", LiteratureAgent.VStr link);
             ("snippet", LiteratureAgent.VStr snippet_text);
             ("year", LiteratureAgent.VStr year);
             ("source", LiteratureAgent.VStr "Google Scholar");
             ("info", LiteratureAgent.VStr info_text) ]))
  end.

(** Lines 50-78: the loop; it stops at the first block that raises. *)
Fixpoint parse_items (items : list Item)
  : Py.result (list LiteratureAgent.paper) :=
  match items with
  | [] => Py.Return []
  | item :: rest =>
      parsed <- parse_item item ;;
      papers <- parse_items rest ;;
      Py.Return (match parsed with
                 | Some paper => paper :: papers
                 | None => papers
                 end)
  end.

(** Lines 26-86: the body of the [try]. *)
Definition search_body (query : string) (max_results : Z)
  : Py.result Result :=
  response <- http_get query ;;
  if negb (status_code response =? 200)
  then
    Py.Return
      {| status := "error";
         papers := [];
         total_found := None;
         message := Some ("HTTP " +:+ pretty (status_code response));
         error := None |}
  else
    items <- select_items response ;;
    papers <- parse_items (slice_to max_results items) ;;
    Py.Return
      {| status := "success";
         papers := papers;
         total_found := Some (LiteratureAgent.len papers);
         message := None;
         error := None |}.

(** Lines 25-94: the [try] with its handler. *)
Definition search_scholar (query : string) (max_results : Z)
  : Py.result Result :=
  Py.try_except (search_body query max_results)
    (fun e =>
       Py.Return
         {| status := "error";
            papers := [];
            total_found := None;
            message := None;
            error := Some (Py.exn_str e) |}).

(** The dict as [LiteratureAgent.query] reads it. *)
Definition as_source (r : Result) : LiteratureAgent.SourceResult :=
  {| LiteratureAgent.source_status := Some (status r);
     LiteratureAgent.source_papers := Some (papers r) |}.

End Search.

End ScholarTool.

(** ** The literature agent with its two tools *)

Module Wired.

Section Wired.

Variable year_of_text : string -> Py.result Z.
Variable pubmed_query : string -> Z -> Py.result (list PubmedTool.Article).
Variable strip : string -> string.
Variable isdigit : string -> bool.
Variable int_of : string -> Py.result Z.
Variable http_get : string -> Py.result ScholarTool.Response.

Definition search_pubmed (query : string) (max_results min_year : Z)
  : Py.result LiteratureAgent.SourceResult :=
  r <- PubmedTool.search_pubmed year_of_text pubmed_query query max_results
         min_year ;;
  Py.Return (PubmedTool.as_source r).

Definition search_scholar (query : string) (max_results : Z)
  : Py.result LiteratureAgent.SourceResult :=
  r <- ScholarTool.search_scholar strip isdigit int_of http_get query
         max_results ;;
  Py.Return (ScholarTool.as_source r).

(** [LiteratureAgent.query] calling the tools of this repository. *)
Definition query (model_name user_query : string)
  : Py.result LiteratureAgent.Result :=
  LiteratureAgent.query model_name search_pubmed search_scholar user_query.

End Wired.

End Wired.

(** The keys of the papers of each tool. *)
Definition pubmed_keys : gset string :=
  {[ "title"; "authors"; "abstract"; "pmid"; "publication_date"; "year";
     "journal" ]}.

Definition scholar_keys : gset string :=
  {[ "title"; "link"; "snippet"; "year"; "source"; "info" ]}.

(** A year text the Scholar tool accepts. *)
Definition accepted_year (isdigit : string -> bool)
    (int_of : string -> Py.result Z) (year : string) : Prop :=
  year = "2024"
  \/ (isdigit year = true
      /\ exists n, int_of year = Py.Return n /\ 2023 <= n <= 2025).

(** ** Runs of the persistence service

    A process uses the service through its three methods; a run is the list
    of the calls it makes, in order, on the one session they share. *)

Module ServiceRun.

Section Run.

Variable json_dumps : MemoryService.json -> Py.result string.
Variable json_loads : string -> Py.result MemoryService.json.
Variable isoformat : MemoryService.datetime -> string.

Inductive call :=
| SaveResearch (commit_fault refresh_fault : option Py.exn)
    (now : MemoryService.datetime)
    (session_id query cancer_type : string) (findings : MemoryService.json)
| SaveDoctorReview (commit_fault refresh_fault : option Py.exn)
    (now_record now_entry : MemoryService.datetime)
    (session_id decision doctor_name comment : string)
| GetSession (session_id : string).

(** The session a call leaves behind. *)
Definition after (c : call) (s : MemoryService.Session)
  : MemoryService.Session :=
  match c with
  | SaveResearch fault refresh now sid query cancer_type findings =>
      (MemoryService.save_research json_dumps fault refresh now sid query
         cancer_type findings s).2
  | SaveDoctorReview fault refresh now_record now_entry sid decision doctor
      comment =>
      (MemoryService.save_doctor_review json_dumps isoformat fault refresh
         now_record now_entry sid decision doctor comment s).2
  | GetSession sid => (MemoryService.get_session json_loads sid s).2
  end.

Definition after_all (calls : list call) (s : MemoryService.Session)
  : MemoryService.Session :=
  foldl (fun s c => after c s) s calls.

(** The session identifier a call writes under, if it writes. *)
Definition written_session (c : call) : option string :=
  match c with
  | SaveResearch _ _ _ sid _ _ _ => Some sid
  | SaveDoctorReview _ _ _ _ sid _ _ _ => Some sid
  | GetSession _ => None
  end.

End Run.

End ServiceRun.

(** The rows of a table are keyed 1, 2, 3, ... in the order they stand. *)
Definition numbered (rows : list MemoryService.ResearchMemory) : Prop :=
  forall (i : nat) r,
    rows !! i = Some r -> MemoryService.id r = Some (Z.of_nat i + 1).

(** ** The [json] module of the Python library

    [json.dumps(obj, ensure_ascii=False)] and [json.loads(text)], as the
    service calls them, on the values of [MemoryService.json].  A text is
    its UTF-8 bytes: with [ensure_ascii=False] the encoder escapes only the
    quote, the backslash and the control characters, and writes every other
    character as it is.  The limits of an interpreter (its recursion depth,
    the number of digits of an integer) are not part of the model. *)

Module Json.

Import MemoryService.

Definition code (c : Ascii.ascii) : N := Ascii.N_of_ascii c.

Definition char_of (n : N) : Ascii.ascii := Ascii.ascii_of_N n.

Definition quote : Ascii.ascii := char_of 34.
Definition backslash : Ascii.ascii := char_of 92.

(** *** The encoder *)

Definition hex_char (n : N) : Ascii.ascii :=
  if (n <? 10)%N then char_of (48 + n) else char_of (87 + n).

(** The replacement of one character: the short escapes, [\u00xx] for the
    other control characters, the character itself otherwise. *)
Definition escape_char (c : Ascii.ascii) : string :=
  let n := code c in
  if (n =? 34)%N then String backslash (String quote "")
  else if (n =? 92)%N then String backslash (String backslash "")
  else if (n =? 10)%N then String backslash "n"
  else if (n =? 13)%N then String backslash "r"
  else if (n =? 9)%N then String backslash "t"
  else if (n =? 8)%N then String backslash "b"
  else if (n =? 12)%N then String backslash "f"
  else if (n <? 32)%N
  then String backslash
         (String (char_of 117) (String (char_of 48) (String (char_of 48)
            (String (hex_char (n / 16)) (String (hex_char (n mod 16)) "")))))
  else String c "".

Fixpoint escape (s : string) : string :=
  match s with
  | EmptyString => EmptyString
  | String c rest => escape_char c +:+ escape rest
  end.

(** A text between quotes. *)
Definition encode_str (s : string) : string :=
  String quote (escape s +:+ String quote "").

(** [int.__repr__] *)
Definition int_repr (z : Z) : string :=
  DecimalString.NilZero.string_of_int (Z.to_int z).

Section Encoder.

(** [float.__repr__] *)
Variable float_repr : float -> string.

Definition encode_float (x : float) : string :=
  if PrimFloat.is_nan x then "NaN"
  else if PrimFloat.eqb x PrimFloat.infinity then "Infinity"
  else if PrimFloat.eqb x PrimFloat.neg_infinity then "-Infinity"
  else float_repr x.

(** The items of a list or of a dict, joined by a comma and a space. *)
Fixpoint encode (v : json) : string :=
  match v with
  | JNull => "null"
  | JBool true => "true"
  | JBool false => "false"
  | JInt z => int_repr z
  | JFloat x => encode_float x
  | JStr s => encode_str s
  | JList l =>
      "[" +:+ String.concat ", " (map encode l) +:+ "]"
  | JDict d =>
      "{" +:+ String.concat ", "
                (map (fun kv => encode_str kv.1 +:+ ": " +:+ encode kv.2) d)
      +:+ "}"
  end.

Definition dumps (v : json) : Py.result string := Py.Return (encode v).

End Encoder.

(** *** The decoder *)

Definition is_ws (c : Ascii.ascii) : bool :=
  let n := code c in
  (n =? 32)%N || (n =? 9)%N || (n =? 10)%N || (n =? 13)%N.

Fixpoint skip_ws (s : string) : string :=
  match s with
  | String c rest => if is_ws c then skip_ws rest else s
  | EmptyString => EmptyString
  end.

Definition is_digit (c : Ascii.ascii) : bool :=
  (48 <=? code c)%N && (code c <=? 57)%N.

Definition hex_digit (c : Ascii.ascii) : option N :=
  let n := code c in
  if (48 <=? n)%N && (n <=? 57)%N then Some (n - 48)%N
  else if (97 <=? n)%N && (n <=? 102)%N then Some (n - 87)%N
  else if (65 <=? n)%N && (n <=? 70)%N then Some (n - 55)%N
  else None.

(** The UTF-8 bytes of a code point; a surrogate that stands alone is
    written like any code point of its range. *)
Definition utf8 (cp : N) : string :=
  if (cp <? 128)%N then String (char_of cp) ""
  else if (cp <? 2048)%N
  then String (char_of (192 + cp / 64))
         (String (char_of (128 + cp mod 64)) "")
  else if (cp <? 65536)%N
  then String (char_of (224 + cp / 4096))
         (String (char_of (128 + (cp / 64) mod 64))
            (String (char_of (128 + cp mod 64)) ""))
  else String (char_of (240 + cp / 262144))
         (String (char_of (128 + (cp / 4096) mod 64))
            (String (char_of (128 + (cp / 64) mod 64))
               (String (char_of (128 + cp mod 64)) ""))).

(** The character a short escape stands for. *)
Definition simple_escape (c : Ascii.ascii) : option Ascii.ascii :=
  let n := code c in
  if (n =? 34)%N then Some quote
  else if (n =? 92)%N then Some backslash
  else if (n =? 47)%N then Some (char_of 47)
  else if (n =? 98)%N then Some (char_of 8)
  else if (n =? 102)%N then Some (char_of 12)
  else if (n =? 110)%N then Some (char_of 10)
  else if (n =? 114)%N then Some (char_of 13)
  else if (n =? 116)%N then Some (char_of 9)
  else None.

Definition is_high (cp : N) : bool := (55296 <=? cp)%N && (cp <=? 56319)%N.
Definition is_low (cp : N) : bool := (56320 <=? cp)%N && (cp <=? 57343)%N.

Definition join_surrogates (hi lo : N) : N :=
  (65536 + (hi - 55296) * 1024 + (lo - 56320))%N.

(** Where the scanner of a text stands: between characters, after a
    backslash, inside the four digits of a [\u] escape, and the same three
    after a [\u] escape that gave a high surrogate, which a low surrogate
    may follow. *)
Inductive scan_state :=
| Plain
| Escape
| Hex (digits : nat) (value : N)
| High (hi : N)
| HighEscape (hi : N)
| HighHex (hi : N) (digits : nat) (value : N).

Definition emit (out : string) (r : option (string * string))
  : option (string * string) :=
  match r with
  | Some (text, rest) => Some (out +:+ text, rest)
  | None => None
  end.

(** [scanstring], strict: the text up to the closing quote and what follows
    the quote, or [None] for a text that is not closed, holds a control
    character or an escape that is not one. *)
Fixpoint scanstring (st : scan_state) (s : string)
  : option (string * string) :=
  match s with
  | EmptyString => None
  | String c rest =>
      match st with
      | Plain =>
          if (code c =? 34)%N then Some (EmptyString, rest)
          else if (code c =? 92)%N then scanstring Escape rest
          else if (code c <? 32)%N then None
          else emit (String c "") (scanstring Plain rest)
      | Escape =>
          match simple_escape c with
          | Some b => emit (String b "") (scanstring Plain rest)
          | None =>
              if (code c =? 117)%N then scanstring (Hex 0 0) rest else None
          end
      | Hex digits value =>
          match hex_digit c with
          | None => None
          | Some d =>
              let value := (16 * value + d)%N in
              match digits with
              | 3%nat =>
                  if is_high value then scanstring (High value) rest
                  else emit (utf8 value) (scanstring Plain rest)
              | _ => scanstring (Hex (S digits) value) rest
              end
          end
      | High hi =>
          if (code c =? 34)%N then Some (utf8 hi, rest)
          else if (code c =? 92)%N then scanstring (HighEscape hi) rest
          else if (code c <? 32)%N then None
          else emit (utf8 hi +:+ String c "") (scanstring Plain rest)
      | HighEscape hi =>
          match simple_escape c with
          | Some b => emit (utf8 hi +:+ String b "") (scanstring Plain rest)
          | None =>
              if (code c =? 117)%N then scanstring (HighHex hi 0 0) rest
              else None
          end
      | HighHex hi digits value =>
          match hex_digit c with
          | None => None
          | Some d =>
              let value := (16 * value + d)%N in
              match digits with
              | 3%nat =>
                  if is_low value
                  then emit (utf8 (join_surrogates hi value))
                         (scanstring Plain rest)
                  else if is_high value
                  then emit (utf8 hi) (scanstring (High value) rest)
                  else emit (utf8 hi +:+ utf8 value) (scanstring Plain rest)
              | _ => scanstring (HighHex hi (S digits) value) rest
              end
          end
      end
  end.

(** The digits at the head of a text, and what follows them. *)
Fixpoint span_digits (s : string) : string * string :=
  match s with
  | String c rest =>
      if is_digit c
      then let '(digits, rest') := span_digits rest in (String c digits, rest')
      else (EmptyString, s)
  | EmptyString => (EmptyString, EmptyString)
  end.

(** The three groups of the number pattern, an integer, a fraction and an
    exponent, of which the last two may be absent, and what follows the
    number. *)
Record number_match := {
  integer : string;
  frac : string;
  exp : string;
  after_number : string
}.

(** The integer group: an optional minus sign, then a zero, or a digit
    that is not zero and the digits after it. *)
Definition match_integer (s : string) : option (string * string) :=
  let '(sign, s) :=
    match s with
    | String c rest => if (code c =? 45)%N then ("-", rest) else ("", s)
    | EmptyString => ("", s)
    end in
  match s with
  | String c rest =>
      if (code c =? 48)%N then Some (sign +:+ "0", rest)
      else if is_digit c
      then let '(digits, rest') := span_digits rest in
           Some (sign +:+ String c digits, rest')
      else None
  | EmptyString => None
  end.

(** The fraction group, which may be absent: a point and one digit or
    more. *)
Definition match_frac (s : string) : string * string :=
  match s with
  | String c rest =>
      if (code c =? 46)%N
      then match span_digits rest with
           | (EmptyString, _) => (EmptyString, s)
           | (digits, rest') => (String c digits, rest')
           end
      else (EmptyString, s)
  | EmptyString => (EmptyString, s)
  end.

(** The exponent group, which may be absent: the letter e of either case,
    an optional sign and one digit or more. *)
Definition match_exp (s : string) : string * string :=
  match s with
  | String c rest =>
      if (code c =? 101)%N || (code c =? 69)%N
      then
        let '(sign, rest1) :=
          match rest with
          | String c1 rest1 =>
              if (code c1 =? 45)%N || (code c1 =? 43)%N
              then (String c1 "", rest1)
              else (EmptyString, rest)
          | EmptyString => (EmptyString, rest)
          end in
        match span_digits rest1 with
        | (EmptyString, _) => (EmptyString, s)
        | (digits, rest') => (String c (sign +:+ digits), rest')
        end
      else (EmptyString, s)
  | EmptyString => (EmptyString, s)
  end.

Definition match_number (s : string) : option number_match :=
  match match_integer s with
  | None => None
  | Some (i, s1) =>
      let '(f, s2) := match_frac s1 in
      let '(e, s3) := match_exp s2 in
      Some {| integer := i; frac := f; exp := e; after_number := s3 |}
  end.

(** [int(text)] for the text of an integer group. *)
Definition int_of_text (text : string) : Z :=
  match DecimalString.NilZero.int_of_string text with
  | Some d => Z.of_int d
  | None => 0
  end.

(** [text[:len(prefix)] == prefix], and the text after the prefix. *)
Fixpoint strip_prefix (prefix s : string) : option string :=
  match prefix with
  | EmptyString => Some s
  | String p prefix' =>
      match s with
      | String c rest =>
          if Ascii.eqb p c then strip_prefix prefix' rest else None
      | EmptyString => None
      end
  end.

(** [dict(pairs)]: a key that comes again keeps its place and takes the new
    value. *)
Fixpoint assign (key : string) (v : json) (d : list (string * json))
  : list (string * json) :=
  match d with
  | [] => [(key, v)]
  | (k, old) :: rest =>
      if String.eqb k key then (k, v) :: rest
      else (k, old) :: assign key v rest
  end.

Definition dict_of_pairs (pairs : list (string * json))
  : list (string * json) :=
  foldl (fun d kv => assign kv.1 kv.2 d) [] pairs.

Section Decoder.

(** [float(text)] for the text of a number with a fraction or an exponent. *)
Variable float_of_text : string -> float.

(** The [JSONDecodeError] raised for a document that cannot be decoded; its
    message names the place. *)
Variable decode_error : string -> Py.exn.

(** The items of an array after its bracket, from the first value on. *)
Fixpoint array_items (scan : string -> option (json * string)) (fuel : nat)
    (s : string) : option (list json * string) :=
  match fuel with
  | O => None
  | S fuel =>
      match scan s with
      | None => None
      | Some (v, rest) =>
          match skip_ws rest with
          | String c rest1 =>
              if (code c =? 93)%N then Some ([v], rest1)
              else if (code c =? 44)%N
              then match array_items scan fuel (skip_ws rest1) with
                   | Some (vs, rest2) => Some (v :: vs, rest2)
                   | None => None
                   end
              else None
          | EmptyString => None
          end
      end
  end.

(** The pairs of an object, from the text of the first key on. *)
Fixpoint object_items (scan : string -> option (json * string)) (fuel : nat)
    (s : string) : option (list (string * json) * string) :=
  match fuel with
  | O => None
  | S fuel =>
      match scanstring Plain s with
      | None => None
      | Some (key, rest) =>
          match skip_ws rest with
          | String c rest1 =>
              if (code c =? 58)%N
              then
                match scan (skip_ws rest1) with
                | None => None
                | Some (v, rest2) =>
                    match skip_ws rest2 with
                    | String c2 rest3 =>
                        if (code c2 =? 125)%N
                        then Some ([(key, v)], rest3)
                        else if (code c2 =? 44)%N
                        then
                          match skip_ws rest3 with
                          | String c3 rest4 =>
                              if (code c3 =? 34)%N
                              then
                                match object_items scan fuel rest4 with
                                | Some (pairs, rest5) =>
                                    Some ((key, v) :: pairs, rest5)
                                | None => None
                                end
                              else None
                          | EmptyString => None
                          end
                        else None
                    | EmptyString => None
                    end
                end
              else None
          | EmptyString => None
          end
      end
  end.

(** A number, or one of the three constants that are not numbers. *)
Definition scan_number (s : string) : option (json * string) :=
  match match_number s with
  | Some m =>
      match frac m, exp m with
      | EmptyString, EmptyString =>
          Some (JInt (int_of_text (integer m)), after_number m)
      | _, _ =>
          Some (JFloat (float_of_text (integer m +:+ frac m +:+ exp m)),
                after_number m)
      end
  | None =>
      match strip_prefix "NaN" s with
      | Some rest => Some (JFloat PrimFloat.nan, rest)
      | None =>
          match strip_prefix "Infinity" s with
          | Some rest => Some (JFloat PrimFloat.infinity, rest)
          | None =>
              match strip_prefix "-Infinity" s with
              | Some rest => Some (JFloat PrimFloat.neg_infinity, rest)
              | None => None
              end
          end
      end
  end.

(** [scan_once]: the value at the head of the text and what follows it.
    [fuel] bounds the depth of the values and the number of items of each;
    the length of the text is enough. *)
Fixpoint scan_once (fuel : nat) (s : string) : option (json * string) :=
  match fuel with
  | O => None
  | S fuel =>
      match s with
      | EmptyString => None
      | String c rest =>
          if (code c =? 34)%N
          then match scanstring Plain rest with
               | Some (text, rest1) => Some (JStr text, rest1)
               | None => None
               end
          else if (code c =? 123)%N
          then match skip_ws rest with
               | String c1 rest1 =>
                   if (code c1 =? 125)%N then Some (JDict [], rest1)
                   else if (code c1 =? 34)%N
                   then match object_items (scan_once fuel) fuel rest1 with
                        | Some (pairs, rest2) =>
                            Some (JDict (dict_of_pairs pairs), rest2)
                        | None => None
                        end
                   else None
               | EmptyString => None
               end
          else if (code c =? 91)%N
          then match skip_ws rest with
               | String c1 rest1 =>
                   if (code c1 =? 93)%N then Some (JList [], rest1)
                   else match array_items (scan_once fuel) fuel
                                (String c1 rest1) with
                        | Some (vs, rest2) => Some (JList vs, rest2)
                        | None => None
                        end
               | EmptyString => None
               end
          else
            match strip_prefix "null" s with
            | Some rest1 => Some (JNull, rest1)
            | None =>
                match strip_prefix "true" s with
                | Some rest1 => Some (JBool true, rest1)
                | None =>
                    match strip_prefix "false" s with
                    | Some rest1 => Some (JBool false, rest1)
                    | None => scan_number s
                    end
                end
            end
      end
  end.

(** [json.loads]: one value, with blanks before and after it and nothing
    else. *)
Definition loads (doc : string) : Py.result json :=
  match scan_once (S (String.length doc)) (skip_ws doc) with
  | Some (v, rest) =>
      match skip_ws rest with
      | EmptyString => Py.Return v
      | _ => Py.Raise (decode_error doc)
      end
  | None => Py.Raise (decode_error doc)
  end.

End Decoder.

(** What follows a value in a text that the encoder writes: nothing, a
    comma, or a closing bracket or brace. *)
Definition follows_value (rest : string) : bool :=
  match rest with
  | EmptyString => true
  | String c _ => (code c =? 44)%N || (code c =? 93)%N || (code c =? 125)%N
  end.

(** The first character of a text is a digit or a minus sign. *)
Definition starts_number (text : string) : bool :=
  match text with
  | EmptyString => false
  | String c _ => is_digit c || (code c =? 45)%N
  end.

Section Values.

Variable float_repr : float -> string.
Variable float_of_text : string -> float.

(** A text that is a number with a fraction or an exponent, and nothing
    else. *)
Definition float_token (text : string) : bool :=
  match match_number text with
  | Some m =>
      String.eqb (after_number m) ""
      && negb (String.eqb (frac m) "" && String.eqb (exp m) "")
  | None => false
  end.

(** What Python promises of a float that is a number: [repr] writes it as
    such a text, and [float] reads that text back as the same float. *)
Definition float_read_back (x : float) : Prop :=
  PrimFloat.is_nan x = false ->
  PrimFloat.eqb x PrimFloat.infinity = false ->
  PrimFloat.eqb x PrimFloat.neg_infinity = false ->
  float_token (float_repr x) = true
  /\ float_of_text (float_repr x) = x.

(** A payload as Python holds it: a dict holds each of its keys once, and
    its floats are read back as they were written. *)
Fixpoint python_value (v : json) : Prop :=
  match v with
  | JFloat x => float_read_back x
  | JList l =>
      (fix all (l : list json) : Prop :=
         match l with
         | [] => True
         | v :: rest => python_value v /\ all rest
         end) l
  | JDict d =>
      NoDup (map fst d)
      /\ (fix all (d : list (string * json)) : Prop :=
            match d with
            | [] => True
            | kv :: rest => python_value kv.2 /\ all rest
            end) d
  | _ => True
  end.

End Values.

End Json.

(** A paper the console can print: it has a title, and when its source is
    PubMed its authors, if any, are a list or a text. *)
Definition printable (paper : LiteratureAgent.paper) : Prop :=
  is_Some (paper !! "title")
  /\ (paper !! "source" = Some (LiteratureAgent.VStr "PubMed") ->
      paper !! "authors" <> Some LiteratureAgent.VNone
      /\ forall z, paper !! "authors" <> Some (LiteratureAgent.VInt z)).

(** ** [memory/approval_workflow.py] *)

Module ApprovalWorkflow.

Section Workflow.

Variable json_dumps : MemoryService.json -> Py.result string.
Variable isoformat : MemoryService.datetime -> string.

(** The module-level [memory] service shares its session with every other
    instance of the service in the process. *)
Definition log_doctor_approval (commit_fault refresh_fault : option Py.exn)
    (now_record now_entry : MemoryService.datetime)
    (session_id decision doctor : string) : MemoryService.M unit :=
  MemoryService.bind
    (MemoryService.save_doctor_review json_dumps isoformat commit_fault
       refresh_fault now_record now_entry session_id decision doctor
       "Approved via Doctor-in-the-Loop system")
    (fun _ => MemoryService.ret tt).

End Workflow.

End ApprovalWorkflow.

(** ** [main.py] *)

Module Main.

(** [bool(s)] for an optional [str]: [None] and the empty text are falsy. *)
Definition str_truthy (s : option string) : bool :=
  match s with
  | Some t => negb (String.eqb t "")
  | None => false
  end.

(** [LiteratureAgent.__init__] ([literature_agent.py], lines 22-28), the one
    constructor under [OncologySupervisor.__init__] that can raise; it reads
    the same environment variable as [main]. *)
Definition supervisor_init (api_key : option string) : Py.result unit :=
  if str_truthy api_key then Py.Return tt
  else Py.Raise (Py.Exn "ValueError" "GOOGLE_API_KEY is required").

(** How [main] ends: on line 29-30 after the configuration error, on line 64
    after both writes, or on lines 66-68 after printing the error caught. *)
Inductive Outcome :=
| NotConfigured
| Archived
| Failed (e : Py.exn).

Definition query : string :=
  "pembrolizumab AND melanoma AND (2024/01/01:2025/12/31[PDAT])".

(** [d.get(key)] of a number, as a JSON value. *)
Definition json_of_int (x : option Z) : MemoryService.json :=
  match x with
  | Some z => MemoryService.JInt z
  | None => MemoryService.JNull
  end.

Definition json_of_float (x : option float) : MemoryService.json :=
  match x with
  | Some v => MemoryService.JFloat v
  | None => MemoryService.JNull
  end.

(** Lines 55-61: the findings saved for a run. *)
Definition findings_of (result : Supervisor.Report) : MemoryService.json :=
  MemoryService.JDict
    [ ("total_papers",
       json_of_int
         (LiteratureAgent.get_total_found (Supervisor.literature result)));
      ("p_value",
       json_of_float
         (AnalysisAgent.get_p_value (Supervisor.analysis result)));
      ("grade",
       MemoryService.JStr
         (ClinicalReasoner.grade (Supervisor.recommendation result)));
      ("physician_decision",
       MemoryService.JStr
         (DoctorAgent.doctor_decision (Supervisor.doctor_review result)));
      ("confidence",
       MemoryService.JFloat
         (ClinicalReasoner.confidence_score
            (Supervisor.recommendation result))) ].

(** The texts of lines 23-25 and 29. *)
Definition bar_78 : string := Supervisor.repeat_text "═" 78.

Definition banner : string :=
  "ONCOLOGY RESEARCH AGENT – Clinical Decision Support System".

Definition not_configured_text : string :=
  "ERROR: Please configure a valid GOOGLE_API_KEY in the .env file.".

Section Main.

(** [os.getenv("GOOGLE_API_KEY")] and ["your_api_key" in api_key.lower()]. *)
Variable api_key : option string.
Variable mentions_placeholder : string -> bool.

Variable search_pubmed :
  string -> Z -> Z -> Py.result LiteratureAgent.SourceResult.
Variable search_scholar :
  string -> Z -> Py.result LiteratureAgent.SourceResult.
Variable perform_survival_analysis : AnalysisAgent.ToolResult.
Variable format_summary : AnalysisAgent.Survival -> string.
Variable round : float -> Z -> float.
Variable json_dumps : MemoryService.json -> Py.result string.
Variable isoformat : MemoryService.datetime -> string.

(** The builtins behind the console output of the run and the rationale
    text, and standard output, as in [Supervisor]. *)
Variable repr_list : list string -> string.
Variable chars : string -> list string.
Variable format_percent : float -> string.
Variable upper : string -> string.
Variable format_rationale : ClinicalReasoner.Evidence -> string.
Variable console : string -> option Py.exn.

(** What the storage engine does with the commit of the approval and with
    the read of its id, with the commit of the session and with the read of
    its id, and the readings of the clock. *)
Variable approval_fault approval_refresh : option Py.exn.
Variable session_fault session_refresh : option Py.exn.
Variable now_record now_entry now_session : MemoryService.datetime.

(** [print(text)] in the session monad. *)
Definition say (text : string) : MemoryService.M unit :=
  MemoryService.lift (_ <- Py.print console text ;; Py.Return tt).

(** Line 28: [not api_key or "your_api_key" in api_key.lower()]. *)
Definition not_configured : bool :=
  match api_key with
  | Some key => negb (str_truthy api_key) || mentions_placeholder key
  | None => true
  end.

(** Line 41: [supervisor.process_query(query)], of which [main] keeps the
    dict. *)
Definition run_supervisor : Py.result Supervisor.Report :=
  printed_and_result <-
    Supervisor.process_query "gemini-2.5-flash" search_pubmed search_scholar
      perform_survival_analysis format_summary round repr_list chars
      format_percent upper format_rationale console query ;;
  Py.Return printed_and_result.2.

(** Lines 40-62: the body of the [try]. *)
Definition main_body : MemoryService.M unit :=
  MemoryService.bind
    (MemoryService.lift run_supervisor)
    (fun result =>
       MemoryService.bind
         (if String.eqb
               (DoctorAgent.doctor_decision (Supervisor.doctor_review result))
               "approve"
          then ApprovalWorkflow.log_doctor_approval json_dumps isoformat
                 approval_fault approval_refresh now_record now_entry
                 "melanoma_clinical_review_2025" "approved"
                 (DoctorAgent.doctor_name (Supervisor.doctor_review result))
          else MemoryService.ret tt)
         (fun _ =>
            MemoryService.bind
              (MemoryService.save_research json_dumps session_fault
                 session_refresh now_session "melanoma_workflow_2025" query
                 "melanoma" (findings_of result))
              (fun _ => MemoryService.ret tt))).

(** Lines 39-70: the [try] around a body, with its handler, which prints
    the error it has caught, and the line printed after the [try]. *)
Definition guarded (body : MemoryService.M unit) : MemoryService.M Outcome :=
  MemoryService.bind
    (MemoryService.try_except
       (MemoryService.bind body (fun _ => MemoryService.ret Archived))
       (fun e =>
          MemoryService.bind (say ("Error: " +:+ Py.exn_str e))
            (fun _ => MemoryService.ret (Failed e))))
    (fun outcome =>
       MemoryService.bind
         (say (Supervisor.nl
               +:+ "Clinical decision support process completed."
               +:+ Supervisor.nl))
         (fun _ => MemoryService.ret outcome)).

(** Lines 22-70.  The banner is printed before the key is checked and the
    supervisor is constructed before the [try]. *)
Definition main : MemoryService.M Outcome :=
  MemoryService.bind (say bar_78) (fun _ =>
  MemoryService.bind (say banner) (fun _ =>
  MemoryService.bind (say bar_78) (fun _ =>
  if not_configured
  then
    MemoryService.bind (say not_configured_text) (fun _ =>
    MemoryService.ret NotConfigured)
  else
    MemoryService.bind (MemoryService.lift (supervisor_init api_key))
      (fun _ =>
    MemoryService.bind
      (say (Supervisor.nl +:+ "Initiating clinical evidence review: "
            +:+ query +:+ Supervisor.nl))
      (fun _ => guarded main_body))))).

End Main.

End Main.

(** ** Conditions named in the statements below *)

(** The two conditions of lines 16 and 20 of [clinical_reasoner.py], as
    propositions. *)
Definition first_tier (pValue : float) (paperCount : Z)
    (medianDiffMonths : float) : Prop :=
  Py.flt pValue 0.01 = true /\ 10 <= paperCount
  /\ Py.fge medianDiffMonths 12 = true.

Definition second_tier (pValue : float) (paperCount : Z) : Prop :=
  Py.flt pValue 0.05 = true /\ 8 <= paperCount.

(** The entries the two save methods build from the serialised text. *)
Definition research_entry (now : MemoryService.datetime)
    (session_id query cancer_type text : string)
  : MemoryService.ResearchMemory :=
  {| MemoryService.id := None;
     MemoryService.session_id := session_id;
     MemoryService.query := query;
     MemoryService.cancer_type := cancer_type;
     MemoryService.findings := Some text;
     MemoryService.timestamp := now |}.

Definition review_entry (now : MemoryService.datetime)
    (session_id text : string) : MemoryService.ResearchMemory :=
  research_entry now session_id "Physician Review" "clinical_decision" text.

Definition review_record (isoformat : MemoryService.datetime -> string)
    (now : MemoryService.datetime) (decision doctor_name comment : string)
  : MemoryService.json :=
  MemoryService.JDict
    [ ("decision", MemoryService.JStr decision);
      ("doctor", MemoryService.JStr doctor_name);
      ("comment", MemoryService.JStr comment);
      ("timestamp", MemoryService.JStr (isoformat now)) ].

(** A session between two calls of the service: nothing is pending. *)
Definition idle (rows : list MemoryService.ResearchMemory)
  : MemoryService.Session :=
  {| MemoryService.table := rows; MemoryService.pending := [] |}.

(** ** Example inputs *)

Module Examples.

(** *** Two search tools *)

Definition paper_a : LiteratureAgent.paper :=
  {[ "title" := LiteratureAgent.VStr "Pembrolizumab in melanoma" ]}.

Definition paper_b : LiteratureAgent.paper :=
  {[ "title" := LiteratureAgent.VStr "Adjuvant immunotherapy" ]}
  ∪ {[ "source" := LiteratureAgent.VStr "Google Scholar" ]}.

Definition pubmed_one (query : string) (max_results min_year : Z)
  : Py.result LiteratureAgent.SourceResult :=
  Py.Return {| LiteratureAgent.source_status := Some "success";
               LiteratureAgent.source_papers := Some [paper_a] |}.

Definition scholar_one (query : string) (max_results : Z)
  : Py.result LiteratureAgent.SourceResult :=
  Py.Return {| LiteratureAgent.source_status := Some "success";
               LiteratureAgent.source_papers := Some [paper_b] |}.

(** A PubMed tool that lets an exception escape, and a Scholar tool that
    reports an error. *)
Definition pubmed_raises (query : string) (max_results min_year : Z)
  : Py.result LiteratureAgent.SourceResult :=
  Py.Raise (Py.Exn "ConnectionError" "connection refused").

Definition scholar_blocked (query : string) (max_results : Z)
  : Py.result LiteratureAgent.SourceResult :=
  Py.Return {| LiteratureAgent.source_status := Some "error";
               LiteratureAgent.source_papers := Some [] |}.

(** [round] on the numbers of the examples, which have at most three
    decimals. *)
Definition round_id (x : float) (ndigits : Z) : float := x.

(** *** A codec for payloads that are flat dicts of integers

    It writes such a dict the way [json.dumps] does, and reads a text back by
    looking it up among the payloads it is told about. *)

Definition dquote : string := String (Ascii.ascii_of_nat 34) "".

Definition dumps_entry (kv : string * MemoryService.json) : option string :=
  match kv.2 with
  | MemoryService.JInt z => Some (dquote +:+ kv.1 +:+ dquote +:+ ": " +:+ pretty z)
  | _ => None
  end.

Definition dumps (v : MemoryService.json) : Py.result string :=
  match v with
  | MemoryService.JDict d =>
      match mapM dumps_entry d with
      | Some parts => Py.Return ("{" +:+ String.concat ", " parts +:+ "}")
      | None => Py.Raise (Py.Exn "TypeError" "not a flat dict of integers")
      end
  | _ => Py.Raise (Py.Exn "TypeError" "not a flat dict of integers")
  end.

Fixpoint loads_among (known : list MemoryService.json) (text : string)
  : Py.result MemoryService.json :=
  match known with
  | [] => Py.Raise (Py.Exn "JSONDecodeError" "unknown text")
  | v :: rest =>
      match dumps v with
      | Py.Return t => if String.eqb t text then Py.Return v
                       else loads_among rest text
      | Py.Raise _ => loads_among rest text
      end
  end.

(** The findings of a first and of a second run. *)
Definition findings_1 : MemoryService.json :=
  MemoryService.JDict [("total_papers", MemoryService.JInt 12)].
Definition findings_2 : MemoryService.json :=
  MemoryService.JDict [("total_papers", MemoryService.JInt 0)].

Definition loads : string -> Py.result MemoryService.json :=
  loads_among [findings_1; findings_2].

(** The texts [dumps] writes for the two payloads. *)
Definition text_1 : string :=
  "{" +:+ dquote +:+ "total_papers" +:+ dquote +:+ ": 12}".
Definition text_2 : string :=
  "{" +:+ dquote +:+ "total_papers" +:+ dquote +:+ ": 0}".

(** What [query] returns for the two tools above. *)
Definition found_two : LiteratureAgent.Found :=
  {| LiteratureAgent.query_echo := "pembrolizumab melanoma";
     LiteratureAgent.total_found := 2;
     LiteratureAgent.papers :=
       [ <["source" := LiteratureAgent.VStr "PubMed"]> paper_a; paper_b ];
     LiteratureAgent.sources_used := ["PubMed"; "Google Scholar"];
     LiteratureAgent.pubmed_count := 1;
     LiteratureAgent.scholar_count := 1;
     LiteratureAgent.model_used := "gemini-2.5-flash";
     LiteratureAgent.analysis :=
       "Retrieved 1 publications from PubMed and 1 from Google Scholar covering recent advances in the specified research area (2023-2025)." |}.

(** A stored row of another session. *)
Definition other_row : MemoryService.ResearchMemory :=
  {| MemoryService.id := Some 7;
     MemoryService.session_id := "lung_workflow_2025";
     MemoryService.query := "nivolumab AND lung";
     MemoryService.cancer_type := "lung";
     MemoryService.findings := Some text_2;
     MemoryService.timestamp := 1700000000 |}.

(** *** Consoles *)

(** A console that prints every text, and one that has only the ASCII
    characters: it refuses a text with any other byte in it. *)
Definition console_utf8 (text : string) : option Py.exn := None.

Definition is_ascii (text : string) : bool :=
  forallb (fun c => (Ascii.nat_of_ascii c <? 128)%nat)
    (String.list_ascii_of_string text).

Definition cannot_encode : Py.exn :=
  Py.Exn "UnicodeEncodeError" "'ascii' codec can't encode characters".

Definition console_ascii (text : string) : option Py.exn :=
  if is_ascii text then None else Some cannot_encode.

(** *** The float texts of the examples

    [repr] and [float] on the floats that the examples hold, the three
    confidence scores and two p-values. *)
Definition float_repr (x : float) : string :=
  if PrimFloat.eqb x 0.94 then "0.94"
  else if PrimFloat.eqb x 0.87 then "0.87"
  else if PrimFloat.eqb x 0.62 then "0.62"
  else if PrimFloat.eqb x 0.03 then "0.03"
  else if PrimFloat.eqb x 0.003 then "0.003"
  else "0.0".

Definition float_of_text (text : string) : float :=
  if String.eqb text "0.94" then 0.94
  else if String.eqb text "0.87" then 0.87
  else if String.eqb text "0.62" then 0.62
  else if String.eqb text "0.03" then 0.03
  else if String.eqb text "0.003" then 0.003
  else 0.

Definition decode_error (doc : string) : Py.exn :=
  Py.Exn "JSONDecodeError" "Expecting value".

(** [json.dumps] and [json.loads] with them. *)
Definition json_dumps : MemoryService.json -> Py.result string :=
  Json.dumps float_repr.

Definition json_loads : string -> Py.result MemoryService.json :=
  Json.loads float_of_text decode_error.

(** The findings of a run that was approved, with a list inside. *)
Definition findings_approved : MemoryService.json :=
  MemoryService.JDict
    [ ("total_papers", MemoryService.JInt 9);
      ("p_value", MemoryService.JFloat 0.03);
      ("grade", MemoryService.JStr "1B");
      ("physician_decision", MemoryService.JStr "approve");
      ("confidence", MemoryService.JFloat 0.87);
      ("sources",
       MemoryService.JList
         [ MemoryService.JStr "PubMed"; MemoryService.JStr "Google Scholar";
           MemoryService.JNull; MemoryService.JBool true ]) ].

(** A failure of the storage engine. *)
Definition database_locked : Py.exn :=
  Py.Exn "OperationalError" "database is locked".

(** *** Runs whose stages fail or whose papers cannot be printed *)

Definition paper_untitled : LiteratureAgent.paper :=
  {[ "link" := LiteratureAgent.VStr "https://example.org/untitled" ]}.

Definition scholar_untitled (query : string) (max_results : Z)
  : Py.result LiteratureAgent.SourceResult :=
  Py.Return {| LiteratureAgent.source_status := Some "success";
               LiteratureAgent.source_papers := Some [paper_untitled] |}.

(** A PubMed tool whose one paper holds [None] for its authors. *)
Definition paper_no_authors : LiteratureAgent.paper :=
  {[ "title" := LiteratureAgent.VStr "Nivolumab in melanoma" ]}
  ∪ {[ "authors" := LiteratureAgent.VNone ]}.

Definition pubmed_no_authors (query : string) (max_results min_year : Z)
  : Py.result LiteratureAgent.SourceResult :=
  Py.Return {| LiteratureAgent.source_status := Some "success";
               LiteratureAgent.source_papers := Some [paper_no_authors] |}.

Definition analysis_failed : AnalysisAgent.ToolResult :=
  AnalysisAgent.ToolError (Some "no display").

Definition summary_stub (s : AnalysisAgent.Survival) : string :=
  AnalysisAgent.interpretation s.

(** The builtins of the console on the texts and numbers of the examples:
    [repr] of a list of texts without quotes in them, the characters and the
    upper case of an ASCII text, and the three confidence scores as
    percentages. *)
Definition repr_list (l : list string) : string :=
  "[" +:+ String.concat ", " (map (fun s => "'" +:+ s +:+ "'") l) +:+ "]".

Definition chars (s : string) : list string :=
  map (fun c => String c "") (String.list_ascii_of_string s).

Definition format_percent (x : float) : string :=
  if PrimFloat.eqb x 0.94 then "94.0%"
  else if PrimFloat.eqb x 0.87 then "87.0%"
  else "62.0%".

Definition upper_ascii (c : Ascii.ascii) : Ascii.ascii :=
  let n := Ascii.nat_of_ascii c in
  if (97 <=? n)%nat && (n <=? 122)%nat then Ascii.ascii_of_nat (n - 32)
  else c.

Definition upper (s : string) : string :=
  String.string_of_list_ascii
    (map upper_ascii (String.list_ascii_of_string s)).

Definition rationale_stub (evidence : ClinicalReasoner.Evidence) : string :=
  "Based on the evidence of the run".

(** The run of the orchestrator with the given tools and console. *)
Definition run
    (search_pubmed :
       string -> Z -> Z -> Py.result LiteratureAgent.SourceResult)
    (search_scholar : string -> Z -> Py.result LiteratureAgent.SourceResult)
    (perform_survival_analysis : AnalysisAgent.ToolResult)
    (console : string -> option Py.exn) (query : string)
  : Py.result (list string * Supervisor.Report) :=
  Supervisor.process_query "gemini-2.5-flash" search_pubmed search_scholar
    perform_survival_analysis summary_stub round_id repr_list chars
    format_percent upper rationale_stub console query.

End Examples.

(** The row of an approval logged by [main], and the row of its session. *)
Definition approval_row (now_entry : MemoryService.datetime) (text : string)
  : MemoryService.ResearchMemory :=
  review_entry now_entry "melanoma_clinical_review_2025" text.

Definition session_row (now_session : MemoryService.datetime) (text : string)
  : MemoryService.ResearchMemory :=
  research_entry now_session "melanoma_workflow_2025" Main.query "melanoma"
    text.

(** The record of an approval logged by [main]. *)
Definition approval_record (isoformat : MemoryService.datetime -> string)
    (now_record : MemoryService.datetime) (doctor : string)
  : MemoryService.json :=
  review_record isoformat now_record "approved" doctor
    "Approved via Doctor-in-the-Loop system".

(** The first six papers of a search, when it found any, can each be
    printed. *)
Definition prints_papers (lit : Py.result LiteratureAgent.Result) : Prop :=
  match lit with
  | Py.Return (LiteratureAgent.Success found) =>
      Forall printable (take 6 (LiteratureAgent.papers found))
  | _ => True
  end.
(** ** Further conditions on evidence *)

(** A median that is absent, or present and not below zero. *)
Definition not_negative (median : option float) : Prop :=
  match median with
  | Some v => Py.flt v 0 = false
  | None => True
  end.

(** [a <= b] on floats, as a proposition. *)
Definition fle (a b : float) : Prop := PrimFloat.leb a b = true.

(** ** Further concrete inputs *)

Module MoreExamples.

(** *** Evidence *)

(** Evidence of a run whose analysis failed, and evidence of a run in which
    the pembrolizumab median was not reached. *)
Definition evidence_without_p_value : ClinicalReasoner.Evidence :=
  {| ClinicalReasoner.p_value := None;
     ClinicalReasoner.total_papers := Some 14;
     ClinicalReasoner.median_pembrolizumab := None;
     ClinicalReasoner.median_nivolumab := None |}.

Definition evidence_unreached : ClinicalReasoner.Evidence :=
  {| ClinicalReasoner.p_value := Some 0.003%float;
     ClinicalReasoner.total_papers := Some 14;
     ClinicalReasoner.median_pembrolizumab := None;
     ClinicalReasoner.median_nivolumab := Some 11.5%float |}.

(** *** A codec for flat dicts

    It writes a dict of numbers, texts and nulls the way [json.dumps] does
    for texts of plain letters; of the floats it knows the three confidence
    scores.  It reads a text back by looking it up among the payloads it is
    told about. *)

Definition float_text (x : float) : option string :=
  if PrimFloat.eqb x 0.94 then Some "0.94"
  else if PrimFloat.eqb x 0.87 then Some "0.87"
  else if PrimFloat.eqb x 0.62 then Some "0.62"
  else None.

Definition dumps_value (v : MemoryService.json) : option string :=
  match v with
  | MemoryService.JNull => Some "null"
  | MemoryService.JBool b => Some (if b then "true" else "false")
  | MemoryService.JInt z => Some (pretty z)
  | MemoryService.JFloat x => float_text x
  | MemoryService.JStr s => Some (Examples.dquote +:+ s +:+ Examples.dquote)
  | _ => None
  end.

Definition dumps_entry (kv : string * MemoryService.json) : option string :=
  match dumps_value kv.2 with
  | Some text =>
      Some (Examples.dquote +:+ kv.1 +:+ Examples.dquote +:+ ": " +:+ text)
  | None => None
  end.

Definition dumps (v : MemoryService.json) : Py.result string :=
  match v with
  | MemoryService.JDict d =>
      match mapM dumps_entry d with
      | Some parts => Py.Return ("{" +:+ String.concat ", " parts +:+ "}")
      | None => Py.Raise (Py.Exn "TypeError" "not a flat dict")
      end
  | _ => Py.Raise (Py.Exn "TypeError" "not a flat dict")
  end.

Fixpoint loads_among (known : list MemoryService.json) (text : string)
  : Py.result MemoryService.json :=
  match known with
  | [] => Py.Raise (Py.Exn "JSONDecodeError" "unknown text")
  | v :: rest =>
      match dumps v with
      | Py.Return t => if String.eqb t text then Py.Return v
                       else loads_among rest text
      | Py.Raise _ => loads_among rest text
      end
  end.

(** The clock reading as the decimal text of its seconds. *)
Definition isoformat (t : MemoryService.datetime) : string := pretty t.

(** A review, and the text [dumps] writes for it. *)
Definition review_1 : MemoryService.json :=
  review_record isoformat 1764253920 "modified" "Dr. Lee"
    "Reduce dose".

Definition review_text_1 : string :=
  "{" +:+ Examples.dquote +:+ "decision" +:+ Examples.dquote +:+ ": "
  +:+ Examples.dquote +:+ "modified" +:+ Examples.dquote +:+ ", "
  +:+ Examples.dquote +:+ "doctor" +:+ Examples.dquote +:+ ": "
  +:+ Examples.dquote +:+ "Dr. Lee" +:+ Examples.dquote +:+ ", "
  +:+ Examples.dquote +:+ "comment" +:+ Examples.dquote +:+ ": "
  +:+ Examples.dquote +:+ "Reduce dose" +:+ Examples.dquote +:+ ", "
  +:+ Examples.dquote +:+ "timestamp" +:+ Examples.dquote +:+ ": "
  +:+ Examples.dquote +:+ "1764253920" +:+ Examples.dquote +:+ "}".

Definition loads : string -> Py.result MemoryService.json :=
  loads_among [review_1; Examples.findings_2].

(** What [get_session] returns for the stored row of the other session. *)
Definition other_view : MemoryService.SessionView :=
  {| MemoryService.view_id := Some 7;
     MemoryService.view_query := "nivolumab AND lung";
     MemoryService.view_cancer_type := "lung";
     MemoryService.view_findings := Examples.findings_2;
     MemoryService.view_timestamp := 1700000000 |}.

(** Findings saved again under the identifier of the stored row, and a
    review saved under another. *)
Definition save_again : ServiceRun.call :=
  ServiceRun.SaveResearch None None 1764253920 "lung_workflow_2025"
    "pembrolizumab AND lung" "lung" Examples.findings_1.

Definition save_review : ServiceRun.call :=
  ServiceRun.SaveDoctorReview None None 1764253920 1764253921
    "melanoma_clinical_review_2025" "modified" "Dr. Lee" "Reduce dose".

(** *** Configured runs of [main]

    The two tools of [Examples] return one paper each and the analysis
    fails, so the recommendation is graded 2C and modified; or the PubMed
    tool returns eight papers and the analysis gives a p-value of 0.03, so
    the recommendation is graded 1B and approved; or the Scholar tool
    returns a paper without a title. *)

Definition no_placeholder (key : string) : bool := false.

Definition pubmed_eight (query : string) (max_results min_year : Z)
  : Py.result LiteratureAgent.SourceResult :=
  Py.Return {| LiteratureAgent.source_status := Some "success";
               LiteratureAgent.source_papers :=
                 Some (replicate 8 Examples.paper_a) |}.

Definition analysis_significant : AnalysisAgent.ToolResult :=
  AnalysisAgent.ToolSuccess
    {| AnalysisAgent.tool_figure_path := "outputs/survival_curve.png";
       AnalysisAgent.tool_p_value := 0.03;
       AnalysisAgent.tool_median_pembrolizumab := Some 24.5%float;
       AnalysisAgent.tool_median_nivolumab := Some 18.25%float;
       AnalysisAgent.interpretation := "Significant difference";
       AnalysisAgent.test_statistic := 4.71 |}.

(** The run of the orchestrator and the search of the approved run. *)
Definition run_approved : Py.result (list string * Supervisor.Report) :=
  Supervisor.process_query "gemini-2.5-flash" pubmed_eight
    Examples.scholar_one analysis_significant Examples.summary_stub
    Examples.round_id Examples.repr_list Examples.chars
    Examples.format_percent Examples.upper Examples.rationale_stub
    Examples.console_utf8 Main.query.

Definition search_approved : Py.result LiteratureAgent.Result :=
  LiteratureAgent.query "gemini-2.5-flash" pubmed_eight
    Examples.scholar_one Main.query.

(** [main] with a key, the tools, the analysis and the console given, the
    codec of [Json] and three readings of the clock. *)
Definition main_with
    (search_pubmed :
       string -> Z -> Z -> Py.result LiteratureAgent.SourceResult)
    (search_scholar : string -> Z -> Py.result LiteratureAgent.SourceResult)
    (perform_survival_analysis : AnalysisAgent.ToolResult)
    (console : string -> option Py.exn)
    (approval_fault approval_refresh session_fault session_refresh
       : option Py.exn)
  : MemoryService.M Main.Outcome :=
  Main.main (Some "AIzaSyExampleKey") no_placeholder search_pubmed
    search_scholar perform_survival_analysis Examples.summary_stub
    Examples.round_id Examples.json_dumps isoformat Examples.repr_list
    Examples.chars Examples.format_percent Examples.upper
    Examples.rationale_stub console approval_fault approval_refresh
    session_fault session_refresh 1764253920 1764253921 1764253922.

Definition main := main_with Examples.pubmed_one Examples.scholar_one
                     Examples.analysis_failed Examples.console_utf8.

Definition main_approved := main_with pubmed_eight Examples.scholar_one
                              analysis_significant Examples.console_utf8.

(** The texts [json.dumps] writes for the approval record and for the
    findings of the two runs. *)
Definition approval_text : string :=
  "{" +:+ Examples.dquote +:+ "decision" +:+ Examples.dquote +:+ ": "
  +:+ Examples.dquote +:+ "approved" +:+ Examples.dquote +:+ ", "
  +:+ Examples.dquote +:+ "doctor" +:+ Examples.dquote +:+ ": "
  +:+ Examples.dquote +:+ DoctorAgent.reviewer_name +:+ Examples.dquote
  +:+ ", "
  +:+ Examples.dquote +:+ "comment" +:+ Examples.dquote +:+ ": "
  +:+ Examples.dquote +:+ "Approved via Doctor-in-the-Loop system"
  +:+ Examples.dquote +:+ ", "
  +:+ Examples.dquote +:+ "timestamp" +:+ Examples.dquote +:+ ": "
  +:+ Examples.dquote +:+ "1764253920" +:+ Examples.dquote +:+ "}".

Definition findings_text : string :=
  "{" +:+ Examples.dquote +:+ "total_papers" +:+ Examples.dquote +:+ ": 2, "
  +:+ Examples.dquote +:+ "p_value" +:+ Examples.dquote +:+ ": null, "
  +:+ Examples.dquote +:+ "grade" +:+ Examples.dquote +:+ ": "
  +:+ Examples.dquote +:+ "2C" +:+ Examples.dquote +:+ ", "
  +:+ Examples.dquote +:+ "physician_decision" +:+ Examples.dquote +:+ ": "
  +:+ Examples.dquote +:+ "modify" +:+ Examples.dquote +:+ ", "
  +:+ Examples.dquote +:+ "confidence" +:+ Examples.dquote +:+ ": 0.62}".

Definition findings_text_approved : string :=
  "{" +:+ Examples.dquote +:+ "total_papers" +:+ Examples.dquote +:+ ": 9, "
  +:+ Examples.dquote +:+ "p_value" +:+ Examples.dquote +:+ ": 0.03, "
  +:+ Examples.dquote +:+ "grade" +:+ Examples.dquote +:+ ": "
  +:+ Examples.dquote +:+ "1B" +:+ Examples.dquote +:+ ", "
  +:+ Examples.dquote +:+ "physician_decision" +:+ Examples.dquote +:+ ": "
  +:+ Examples.dquote +:+ "approve" +:+ Examples.dquote +:+ ", "
  +:+ Examples.dquote +:+ "confidence" +:+ Examples.dquote +:+ ": 0.87}".

(** The search and the run of [main] with the untitled paper. *)
Definition found_untitled : LiteratureAgent.Found :=
  {| LiteratureAgent.query_echo := Main.query;
     LiteratureAgent.total_found := 2;
     LiteratureAgent.papers :=
       [LiteratureAgent.tag_pubmed Examples.paper_a;
        Examples.paper_untitled];
     LiteratureAgent.sources_used := ["PubMed"; "Google Scholar"];
     LiteratureAgent.pubmed_count := 1;
     LiteratureAgent.scholar_count := 1;
     LiteratureAgent.model_used := "gemini-2.5-flash";
     LiteratureAgent.analysis :=
       LiteratureAgent.analysis Examples.found_two |}.

Definition main_untitled := main_with Examples.pubmed_one
                              Examples.scholar_untitled
                              Examples.analysis_failed Examples.console_utf8.

(** *** A PubMed client with one article *)

Definition author_1 : PubmedTool.Author :=
  {| PubmedTool.has_lastname := true;
     PubmedTool.has_firstname := true;
     PubmedTool.item_lastname := Py.Return "Robert";
     PubmedTool.item_firstname := Py.Return "Caroline" |}.

Definition article_1 : PubmedTool.Article :=
  {| PubmedTool.publication_date :=
       Py.Return (Some (PubmedTool.DateObject 2024 "2024-05-01"));
     PubmedTool.authors := Some [author_1];
     PubmedTool.title := Py.Return (Some "Pembrolizumab in melanoma");
     PubmedTool.abstract := Py.Return None;
     PubmedTool.pubmed_id := Py.Return (Some "38000001");
     PubmedTool.journal := Py.Return (Some "J Clin Oncol") |}.

(** An article whose title cannot be read. *)
Definition article_broken : PubmedTool.Article :=
  {| PubmedTool.publication_date := Py.Return None;
     PubmedTool.authors := None;
     PubmedTool.title :=
       Py.Raise (Py.Exn "AttributeError" "no attribute title");
     PubmedTool.abstract := Py.Return None;
     PubmedTool.pubmed_id := Py.Return None;
     PubmedTool.journal := Py.Return None |}.

Definition pubmed_client (search_query : string) (max_results : Z)
  : Py.result (list PubmedTool.Article) :=
  Py.Return [article_broken; article_1].

(** No article above has a text for its date. *)
Definition year_of_text (text : string) : Py.result Z :=
  Py.Raise (Py.Exn "ValueError" "invalid literal for int()").

Definition pubmed_paper_1 : LiteratureAgent.paper :=
  list_to_map
    [ ("title", LiteratureAgent.VStr "Pembrolizumab in melanoma");
      ("authors", LiteratureAgent.VList ["Robert Caroline"]);
      ("abstract", LiteratureAgent.VStr "No abstract available");
      ("pmid", LiteratureAgent.VStr "38000001");
      ("publication_date", LiteratureAgent.VStr "2024-05-01");
      ("year", LiteratureAgent.VInt 2024);
      ("journal", LiteratureAgent.VStr "J Clin Oncol") ].

Definition pubmed_result_1 : PubmedTool.Result :=
  {| PubmedTool.status := "success";
     PubmedTool.papers := [pubmed_paper_1];
     PubmedTool.total_found := 1;
     PubmedTool.query_echo := "pembrolizumab melanoma";
     PubmedTool.error_message := None;
     PubmedTool.search_params := Some (12, 2023) |}.

(** *** A Scholar page with one result *)

Definition item_1 : ScholarTool.Item :=
  {| ScholarTool.title_tag :=
       Some {| ScholarTool.tag_text := "Adjuvant immunotherapy";
               ScholarTool.href := Some "https://example.org/adjuvant" |};
     ScholarTool.snippet := Some "Adjuvant therapy improves survival";
     ScholarTool.info := Some "J Doe-2025-example.org" |}.

Definition http_one (query : string) : Py.result ScholarTool.Response :=
  Py.Return {| ScholarTool.status_code := 200;
               ScholarTool.select_items := Py.Return [item_1] |}.

(** The builtins on texts of ASCII characters without blanks around
    them. *)
Definition strip (s : string) : string := s.

Definition is_digit (c : Ascii.ascii) : bool :=
  (48 <=? Ascii.nat_of_ascii c)%nat && (Ascii.nat_of_ascii c <=? 57)%nat.

Definition isdigit (s : string) : bool :=
  negb (String.eqb s "") && forallb is_digit (String.list_ascii_of_string s).

Definition int_of (s : string) : Py.result Z :=
  if isdigit s
  then Py.Return
         (fold_left
            (fun n c => 10 * n + Z.of_nat (Ascii.nat_of_ascii c) - 48)
            (String.list_ascii_of_string s) 0)
  else Py.Raise (Py.Exn "ValueError" "invalid literal for int()").

Definition scholar_paper_1 : LiteratureAgent.paper :=
  list_to_map
    [ ("title", LiteratureAgent.VStr "Adjuvant immunotherapy");
      ("link", LiteratureAgent.VStr "https://example.org/adjuvant");
      ("snippet", LiteratureAgent.VStr "Adjuvant therapy improves survival");
      ("year", LiteratureAgent.VStr "2025");
      ("source", LiteratureAgent.VStr "Google Scholar");
      ("info", LiteratureAgent.VStr "J Doe-2025-example.org") ].

Definition scholar_result_1 : ScholarTool.Result :=
  {| ScholarTool.status := "success";
     ScholarTool.papers := [scholar_paper_1];
     ScholarTool.total_found := Some 1;
     ScholarTool.message := None;
     ScholarTool.error := None |}.

End MoreExamples.
(** * Properties *)

(** ** Order of binary64 numbers

    [a < b] on floats is the comparison of the two numbers as IEEE values;
    it is transitive and asymmetric, NaN being below and above nothing. *)

Section FloatOrder.

Import SpecFloat.

Lemma SFcompare_Lt_trans (a b c : spec_float) :
  SFcompare a b = Some Lt -> SFcompare b c = Some Lt ->
  SFcompare a c = Some Lt.
Proof.
  destruct a as [sa|sa| |sa ma ea], b as [sb|sb| |sb mb eb],
    c as [sc|sc| |sc mc ec];
    simpl; try discriminate; try reflexivity;
    repeat match goal with s : bool |- _ => destruct s end;
    simpl; try discriminate; try reflexivity.
  all: fold (Pos.compare ma mb); fold (Pos.compare mb mc);
    fold (Pos.compare ma mc).
  all: destruct (Z.compare_spec ea eb), (Z.compare_spec eb ec),
    (Z.compare_spec ea ec);
    try lia; try discriminate; try reflexivity; subst.
  all: destruct (Pos.compare_spec ma mb), (Pos.compare_spec mb mc),
    (Pos.compare_spec ma mc);
    simpl; try lia; try discriminate; try reflexivity.
Qed.

Lemma SFcompare_Lt_asym (a b : spec_float) :
  SFcompare a b = Some Lt -> SFcompare b a <> Some Lt.
Proof.
  destruct a as [sa|sa| |sa ma ea], b as [sb|sb| |sb mb eb];
    simpl; try discriminate;
    repeat match goal with s : bool |- _ => destruct s end;
    simpl; try discriminate.
  all: fold (Pos.compare ma mb); fold (Pos.compare mb ma).
  all: destruct (Z.compare_spec ea eb), (Z.compare_spec eb ea);
    try lia; try discriminate; subst.
  all: destruct (Pos.compare_spec ma mb), (Pos.compare_spec mb ma);
    simpl; try lia; try discriminate.
Qed.

Lemma flt_trans (a b c : float) :
  Py.flt a b = true -> Py.flt b c = true -> Py.flt a c = true.
Proof.
  unfold Py.flt. rewrite !ltb_spec. unfold SFltb.
  destruct (SFcompare (Prim2SF a) (Prim2SF b)) as [[]|] eqn:Hab;
    try discriminate.
  destruct (SFcompare (Prim2SF b) (Prim2SF c)) as [[]|] eqn:Hbc;
    try discriminate.
  intros _ _. now rewrite (SFcompare_Lt_trans _ _ _ Hab Hbc).
Qed.

Lemma flt_asym (a b : float) : Py.flt a b = true -> Py.flt b a = false.
Proof.
  unfold Py.flt. rewrite !ltb_spec. unfold SFltb.
  destruct (SFcompare (Prim2SF a) (Prim2SF b)) as [[]|] eqn:Hab;
    try discriminate.
  intros _. pose proof (SFcompare_Lt_asym _ _ Hab) as H.
  destruct (SFcompare (Prim2SF b) (Prim2SF a)) as [[]|]; congruence.
Qed.

(** A p-value below 0.05 is not above 0.05, and so is one below 0.01. *)
Lemma below_alpha_not_above (p : float) :
  Py.flt p 0.05 = true -> Py.fgt p 0.05 = false.
Proof. apply flt_asym. Qed.

Lemma below_001_below_alpha (p : float) :
  Py.flt p 0.01 = true -> Py.flt p 0.05 = true.
Proof. intros H. apply (flt_trans p 0.01 0.05 H). reflexivity. Qed.

End FloatOrder.

(** ** The recommendation scorer *)

Section Scorer.

Import ClinicalReasoner.

Lemma first_tier_test pValue paperCount medianDiffMonths :
  first_tier pValue paperCount medianDiffMonths <->
  Py.flt pValue 0.01 && (10 <=? paperCount) && Py.fge medianDiffMonths 12
  = true.
Proof.
  unfold first_tier. rewrite !andb_true_iff, Z.leb_le. tauto.
Qed.

Lemma second_tier_test pValue paperCount :
  second_tier pValue paperCount <->
  Py.flt pValue 0.05 && (8 <=? paperCount) = true.
Proof.
  unfold second_tier. rewrite andb_true_iff, Z.leb_le. tauto.
Qed.

Lemma tier_cases pValue paperCount medianDiffMonths :
  (first_tier pValue paperCount medianDiffMonths
   /\ tier pValue paperCount medianDiffMonths = (0.94%float, Strong, G1A))
  \/ (~ first_tier pValue paperCount medianDiffMonths
      /\ second_tier pValue paperCount
      /\ tier pValue paperCount medianDiffMonths = (0.87%float, Moderate, G1B))
  \/ (~ first_tier pValue paperCount medianDiffMonths
      /\ ~ second_tier pValue paperCount
      /\ tier pValue paperCount medianDiffMonths = (0.62%float, Weak, G2C)).
Proof.
  rewrite first_tier_test, second_tier_test. unfold tier.
  destruct (Py.flt pValue 0.01 && (10 <=? paperCount)
            && Py.fge medianDiffMonths 12);
    [left; split; reflexivity|right].
  destruct (Py.flt pValue 0.05 && (8 <=? paperCount));
    [left|right]; repeat split; try reflexivity; discriminate.
Qed.


End Scorer.

(** ** The review gate *)

Section Gate.

Import DoctorAgent.

Variable round : float -> Z -> float.

Lemma review_unfold (text : string) (confidence pValue : float) :
  review round text confidence pValue =
  if Py.flt confidence 0.70
  then Py.Return (review_dict round confidence Modify comment_low_confidence
                    comment_low_confidence)
  else if Py.fgt pValue 0.05
  then Py.Return (review_dict round confidence Modify comment_weak_evidence
                    comment_weak_evidence)
  else Py.Return (review_dict round confidence Approve comment_approve text).
Proof.
  unfold review, review_recommendation, decide_review; simpl.
  destruct (Py.flt confidence 0.70); [reflexivity|].
  destruct (Py.fgt pValue 0.05); reflexivity.
Qed.

(** C2.  The gate is a function of (recommendationText, confidence, pValue).
    Its policy, in priority order: confidence < 0.70 gives Modify with the
    dose and monitoring comment; otherwise pValue > 0.05 gives Modify with the
    trial enrollment comment; otherwise Approve with the affirming comment.
    Confidence 0.65 gives Modify for every pValue, confidence 0.9 with pValue
    0.1 gives Modify, and confidence 0.9 with pValue 0.01 gives Approve. *)
Theorem review_policy (recommendationText : string)
    (confidence pValue : float) :
  let outcome := review round recommendationText confidence pValue in
  (Py.flt confidence 0.70 = true ->
     outcome = Py.Return (review_dict round confidence Modify
                 comment_low_confidence comment_low_confidence))
  /\ (Py.flt confidence 0.70 = false -> Py.fgt pValue 0.05 = true ->
     outcome = Py.Return (review_dict round confidence Modify
                 comment_weak_evidence comment_weak_evidence))
  /\ (Py.flt confidence 0.70 = false -> Py.fgt pValue 0.05 = false ->
     outcome = Py.Return (review_dict round confidence Approve
                 comment_approve recommendationText))
  /\ (forall p,
        review round recommendationText 0.65 p
        = Py.Return (review_dict round 0.65 Modify
            comment_low_confidence comment_low_confidence))
  /\ review round recommendationText 0.9 0.1
     = Py.Return (review_dict round 0.9 Modify
         comment_weak_evidence comment_weak_evidence)
  /\ review round recommendationText 0.9 0.01
     = Py.Return (review_dict round 0.9 Approve
         comment_approve recommendationText).
Proof.
  cbv zeta. rewrite review_unfold.
  repeat apply conj.
  - intros ->. reflexivity.
  - intros -> ->. reflexivity.
  - intros -> ->. reflexivity.
  - intros p. rewrite review_unfold. reflexivity.
  - rewrite review_unfold. reflexivity.
  - rewrite review_unfold. reflexivity.
Qed.


End Gate.

(** * Further properties *)

(** ** More on the order of binary64 numbers *)

Section FloatOrderMore.

Import SpecFloat.

Ltac sf_cases :=
  simpl; try discriminate; try reflexivity;
  repeat match goal with s : bool |- _ => destruct s end;
  simpl; try discriminate; try reflexivity.

Ltac fold_pos_compare :=
  repeat match goal with
  | |- context [Pos.compare_cont Eq ?x ?y] =>
      change (Pos.compare_cont Eq x y) with (Pos.compare x y)
  end.

Ltac cmp_cases :=
  repeat match goal with
  | |- context [Z.compare ?a ?b] => destruct (Z.compare_spec a b)
  | H : context [Z.compare ?a ?b] |- _ => destruct (Z.compare_spec a b)
  | |- context [Pos.compare ?a ?b] => destruct (Pos.compare_spec a b)
  | H : context [Pos.compare ?a ?b] |- _ => destruct (Pos.compare_spec a b)
  end; simpl in *; subst; try lia; try discriminate; try reflexivity;
  try (intros; congruence).

Lemma SFcompare_Eq_l (a b c : spec_float) (r : comparison) :
  SFcompare a b = Some Eq -> SFcompare b c = Some r -> SFcompare a c = Some r.
Proof.
  destruct a as [sa|sa| |sa ma ea], b as [sb|sb| |sb mb eb],
    c as [sc|sc| |sc mc ec]; sf_cases.
  all: fold_pos_compare; intros H1 H2;
    try (injection H1 as H1); try (injection H2 as H2); try f_equal;
    revert H1 H2; cmp_cases.
Qed.

Lemma SFcompare_Eq_r (a b c : spec_float) (r : comparison) :
  SFcompare a b = Some r -> SFcompare b c = Some Eq -> SFcompare a c = Some r.
Proof.
  destruct a as [sa|sa| |sa ma ea], b as [sb|sb| |sb mb eb],
    c as [sc|sc| |sc mc ec]; sf_cases.
  all: fold_pos_compare; intros H1 H2;
    try (injection H1 as H1); try (injection H2 as H2); try f_equal;
    revert H1 H2; cmp_cases.
Qed.

(** [SFcompare] read through [leb] and [ltb]. *)
Lemma fle_cases (a b : float) :
  fle a b <->
  SFcompare (Prim2SF a) (Prim2SF b) = Some Lt
  \/ SFcompare (Prim2SF a) (Prim2SF b) = Some Eq.
Proof.
  unfold fle. rewrite FloatAxioms.leb_spec. unfold SFleb.
  destruct (SFcompare (Prim2SF a) (Prim2SF b)) as [[]|]; split;
    intros H; try discriminate; auto; destruct H; discriminate.
Qed.

Lemma flt_cases (a b : float) :
  Py.flt a b = true <-> SFcompare (Prim2SF a) (Prim2SF b) = Some Lt.
Proof.
  unfold Py.flt. rewrite ltb_spec. unfold SFltb.
  destruct (SFcompare (Prim2SF a) (Prim2SF b)) as [[]|]; split;
    intros H; try discriminate; auto.
Qed.

Lemma fle_flt_trans (a b c : float) :
  fle a b -> Py.flt b c = true -> Py.flt a c = true.
Proof.
  intros Hab Hbc. apply fle_cases in Hab. apply flt_cases in Hbc.
  apply flt_cases. destruct Hab as [H|H].
  - eapply SFcompare_Lt_trans; eauto.
  - eapply SFcompare_Eq_l; eauto.
Qed.

Lemma fle_trans (a b c : float) : fle a b -> fle b c -> fle a c.
Proof.
  intros H1 H2. apply fle_cases in H1. apply fle_cases in H2.
  apply fle_cases. destruct H1 as [H1|H1], H2 as [H2|H2].
  - left. eapply SFcompare_Lt_trans; eauto.
  - left. eapply SFcompare_Eq_r; eauto.
  - left. eapply SFcompare_Eq_l; eauto.
  - right. eapply SFcompare_Eq_l; eauto.
Qed.

(** A NaN is below nothing and above nothing. *)
Lemma is_nan_Prim2SF (x : float) :
  PrimFloat.is_nan x = true -> Prim2SF x = S754_nan.
Proof.
  unfold PrimFloat.is_nan. rewrite FloatAxioms.eqb_spec. unfold SFeqb.
  destruct (Prim2SF x) as [s|s| |s m e]; simpl; try discriminate;
    try reflexivity.
  - destruct s; discriminate.
  - rewrite Z.compare_refl.
    change (Pos.compare_cont Eq m m) with (Pos.compare m m).
    rewrite Pos.compare_refl. destruct s; discriminate.
Qed.

Lemma flt_nan_l (x y : float) :
  PrimFloat.is_nan x = true -> Py.flt x y = false.
Proof.
  intros H. unfold Py.flt. rewrite ltb_spec, (is_nan_Prim2SF x H).
  reflexivity.
Qed.

Lemma flt_nan_r (x y : float) :
  PrimFloat.is_nan y = true -> Py.flt x y = false.
Proof.
  intros H. unfold Py.flt. rewrite ltb_spec, (is_nan_Prim2SF y H).
  unfold SFltb, SFcompare. destruct (Prim2SF x); reflexivity.
Qed.

End FloatOrderMore.

(** ** The JSON codec reads back what it writes *)

Section Texts.

Lemma text_app_assoc (s1 s2 s3 : string) :
  (s1 +:+ s2) +:+ s3 = s1 +:+ s2 +:+ s3.
Proof.
  induction s1 as [|c s1 IH]; [reflexivity|].
  change (String c ((s1 +:+ s2) +:+ s3) = String c (s1 +:+ s2 +:+ s3)).
  now f_equal.
Qed.

Lemma text_app_nil_r (s : string) : s +:+ "" = s.
Proof.
  induction s as [|c s IH]; [reflexivity|].
  change (String c (s +:+ "") = String c s). now f_equal.
Qed.

Lemma text_app_cons (c : Ascii.ascii) (s t : string) :
  String c s +:+ t = String c (s +:+ t).
Proof. reflexivity. Qed.

Lemma text_length_app (s t : string) :
  String.length (s +:+ t) = (String.length s + String.length t)%nat.
Proof.
  induction s as [|c s IH]; [reflexivity|].
  rewrite text_app_cons. simpl. now rewrite IH.
Qed.

End Texts.

Module JsonFacts.

Import MemoryService Json.

(** A character of a text is read back from its replacement. *)
Lemma scanstring_escape_char (c : Ascii.ascii) (tail : string) :
  scanstring Plain (escape_char c +:+ tail)
  = emit (String c "") (scanstring Plain tail).
Proof.
  destruct c as [[] [] [] [] [] [] [] []]; reflexivity.
Qed.

Lemma scanstring_escape (s rest : string) :
  scanstring Plain (escape s +:+ String quote rest) = Some (s, rest).
Proof.
  induction s as [|c s IH]; [reflexivity|].
  change (escape (String c s)) with (escape_char c +:+ escape s).
  rewrite text_app_assoc, scanstring_escape_char, IH. reflexivity.
Qed.

(** *** Numbers *)

Lemma follows_value_not_digit (c : Ascii.ascii) (rest : string) :
  follows_value (String c rest) = true ->
  is_digit c = false /\ (code c =? 46)%N = false
  /\ (code c =? 101)%N || (code c =? 69)%N = false
  /\ is_ws c = false.
Proof.
  destruct c as [[] [] [] [] [] [] [] []]; try discriminate;
    intros _; repeat apply conj; reflexivity.
Qed.

Lemma span_digits_follows (rest : string) :
  follows_value rest = true -> span_digits rest = (EmptyString, rest).
Proof.
  destruct rest as [|c rest]; [reflexivity|]. intros H.
  destruct (follows_value_not_digit c rest H) as (Hd & _).
  simpl. now rewrite Hd.
Qed.

Lemma span_digits_app (a rest : string) :
  follows_value rest = true ->
  span_digits (a +:+ rest)
  = ((span_digits a).1, (span_digits a).2 +:+ rest).
Proof.
  intros H. induction a as [|c a IH].
  - simpl. now rewrite span_digits_follows.
  - rewrite text_app_cons. simpl. destruct (is_digit c); [|reflexivity].
    rewrite IH. destruct (span_digits a). reflexivity.
Qed.

Lemma span_digits_parts (s : string) :
  (span_digits s).1 +:+ (span_digits s).2 = s.
Proof.
  induction s as [|c s IH]; [reflexivity|]. simpl.
  destruct (is_digit c); [|reflexivity].
  destruct (span_digits s) as [d r]. cbn [fst snd] in *.
  now rewrite text_app_cons, IH.
Qed.

Lemma match_integer_app (a rest : string) :
  follows_value rest = true ->
  match_integer (a +:+ rest)
  = match match_integer a with
    | Some (i, r) => Some (i, r +:+ rest)
    | None => None
    end.
Proof.
  intros H.
  assert (Hhead : forall sign b,
            match b +:+ rest with
            | String c rest0 =>
                if (code c =? 48)%N then Some (sign +:+ "0", rest0)
                else if is_digit c
                then let '(digits, rest') := span_digits rest0 in
                     Some (sign +:+ String c digits, rest')
                else None
            | EmptyString => None
            end
            = match
                match b with
                | String c rest0 =>
                    if (code c =? 48)%N then Some (sign +:+ "0", rest0)
                    else if is_digit c
                    then let '(digits, rest') := span_digits rest0 in
                         Some (sign +:+ String c digits, rest')
                    else None
                | EmptyString => None
                end
              with
              | Some (i, r) => Some (i, r +:+ rest)
              | None => None
              end).
  { intros sign [|c b].
    - simpl. destruct rest as [|c rest]; [reflexivity|].
      destruct (follows_value_not_digit c rest H) as (Hd & _).
      revert Hd. unfold is_digit.
      destruct c as [[] [] [] [] [] [] [] []]; try discriminate;
        reflexivity.
    - rewrite text_app_cons. destruct (code c =? 48)%N; [reflexivity|].
      destruct (is_digit c); [|reflexivity].
      rewrite span_digits_app by exact H.
      destruct (span_digits b). reflexivity. }
  unfold match_integer. destruct a as [|c a].
  - simpl (EmptyString +:+ rest).
    destruct rest as [|c rest]; [reflexivity|].
    destruct (follows_value_not_digit c rest H) as (Hd & _).
    revert Hd. unfold is_digit.
    destruct c as [[] [] [] [] [] [] [] []]; try discriminate; reflexivity.
  - rewrite text_app_cons. destruct (code c =? 45)%N.
    + apply (Hhead "-" a).
    + apply (Hhead "" (String c a)).
Qed.

Lemma match_frac_app (a rest : string) :
  follows_value rest = true ->
  match_frac (a +:+ rest) = ((match_frac a).1, (match_frac a).2 +:+ rest).
Proof.
  intros H. destruct a as [|c a].
  - simpl. destruct rest as [|c rest]; [reflexivity|].
    destruct (follows_value_not_digit c rest H) as (_ & Hp & _).
    simpl. now rewrite Hp.
  - rewrite text_app_cons. simpl.
    destruct (code c =? 46)%N; [|reflexivity].
    rewrite span_digits_app by exact H.
    destruct (span_digits a) as [[|d ds] r]; reflexivity.
Qed.

Lemma match_exp_app (a rest : string) :
  follows_value rest = true ->
  match_exp (a +:+ rest) = ((match_exp a).1, (match_exp a).2 +:+ rest).
Proof.
  intros H. destruct a as [|c a].
  - simpl. destruct rest as [|c rest]; [reflexivity|].
    destruct (follows_value_not_digit c rest H) as (_ & _ & He & _).
    simpl. now rewrite He.
  - rewrite text_app_cons. simpl.
    destruct ((code c =? 101)%N || (code c =? 69)%N); [|reflexivity].
    destruct a as [|c1 a].
    + change (EmptyString +:+ rest) with rest.
      destruct rest as [|c1 rest]; [reflexivity|].
      revert H. simpl.
      destruct c1 as [[] [] [] [] [] [] [] []]; try discriminate;
        reflexivity.
    + rewrite text_app_cons.
      destruct ((code c1 =? 45)%N || (code c1 =? 43)%N).
      * rewrite span_digits_app by exact H.
        destruct (span_digits a) as [[|d ds] r]; reflexivity.
      * rewrite <- text_app_cons, span_digits_app by exact H.
        destruct (span_digits (String c1 a)) as [[|d ds] r]; reflexivity.
Qed.

(** A number that is a whole text is read as the same number when a comma
    or a closing bracket follows it. *)
Lemma match_number_app (a rest : string) (m : number_match) :
  follows_value rest = true ->
  match_number a = Some m ->
  match_number (a +:+ rest)
  = Some {| integer := integer m; frac := frac m; exp := exp m;
            after_number := after_number m +:+ rest |}.
Proof.
  intros H. unfold match_number. rewrite match_integer_app by exact H.
  destruct (match_integer a) as [[i r]|]; [|discriminate].
  rewrite match_frac_app by exact H. destruct (match_frac r) as [f r1].
  cbn [fst snd]. rewrite match_exp_app by exact H.
  destruct (match_exp r1) as [e r2]. intros [= <-]. reflexivity.
Qed.

Lemma span_digits_uint (d : Decimal.uint) :
  span_digits (DecimalString.NilEmpty.string_of_uint d)
  = (DecimalString.NilEmpty.string_of_uint d, EmptyString).
Proof.
  induction d as [|d IH|d IH|d IH|d IH|d IH|d IH|d IH|d IH|d IH|d IH];
    [reflexivity|..]; simpl; rewrite IH; reflexivity.
Qed.

(** The digits of a positive number begin with a digit that is not zero. *)
Lemma to_uint_head (p : positive) :
  forall d, Pos.to_uint p <> Decimal.D0 d.
Proof.
  intros d Hd.
  assert (Hnorm : Decimal.unorm (Pos.to_uint p) = Pos.to_uint p).
  { pose proof (DecimalPos.Unsigned.to_of (Pos.to_uint p)) as H.
    rewrite DecimalPos.Unsigned.of_to in H. symmetry. exact H. }
  assert (Hnil : Decimal.nzhead (Pos.to_uint p) <> Decimal.Nil).
  { intros H. apply DecimalFacts.unorm_0 in H.
    rewrite Hnorm in H.
    exact (DecimalPos.Unsigned.to_uint_nonzero p H). }
  rewrite (DecimalFacts.unorm_nzhead _ Hnil) in Hnorm.
  apply (DecimalFacts.nzhead_nonzero (Pos.to_uint p) d).
  rewrite Hnorm. exact Hd.
Qed.

Lemma match_number_pos (p : positive) (sign : string) :
  sign = "" \/ sign = "-" ->
  match_number
    (sign +:+ DecimalString.NilEmpty.string_of_uint (Pos.to_uint p))
  = Some {| integer :=
              sign +:+ DecimalString.NilEmpty.string_of_uint (Pos.to_uint p);
            frac := ""; exp := ""; after_number := "" |}.
Proof.
  intros Hsign.
  pose proof (to_uint_head p) as Hhead.
  pose proof (DecimalPos.Unsigned.to_uint_nonnil p) as Hnil.
  destruct (Pos.to_uint p) as [|d|d|d|d|d|d|d|d|d|d];
    [now elim Hnil|now elim (Hhead d)|..];
    destruct Hsign as [-> | ->]; unfold match_number, match_integer; simpl;
    rewrite span_digits_uint; reflexivity.
Qed.

Lemma match_number_int (z : Z) :
  match_number (int_repr z)
  = Some {| integer := int_repr z; frac := ""; exp := "";
            after_number := "" |}.
Proof.
  unfold int_repr. destruct z as [|p|p].
  - reflexivity.
  - pose proof (match_number_pos p "" (or_introl eq_refl)) as H.
    pose proof (DecimalPos.Unsigned.to_uint_nonnil p) as Hnil.
    change (Z.to_int (Z.pos p)) with (Decimal.Pos (Pos.to_uint p)).
    unfold DecimalString.NilZero.string_of_int,
      DecimalString.NilZero.string_of_uint.
    destruct (Pos.to_uint p); [now elim Hnil|exact H..].
  - pose proof (match_number_pos p "-" (or_intror eq_refl)) as H.
    pose proof (DecimalPos.Unsigned.to_uint_nonnil p) as Hnil.
    change (Z.to_int (Z.neg p)) with (Decimal.Neg (Pos.to_uint p)).
    unfold DecimalString.NilZero.string_of_int,
      DecimalString.NilZero.string_of_uint.
    destruct (Pos.to_uint p); [now elim Hnil|exact H..].
Qed.

Lemma int_of_text_repr (z : Z) : int_of_text (int_repr z) = z.
Proof.
  unfold int_of_text, int_repr.
  rewrite DecimalString.NilZero.isi.
  - apply DecimalZ.of_to.
  - destruct z as [|p|p]; try discriminate.
    intros [= H]. exact (DecimalPos.Unsigned.to_uint_nonnil p H).
  - destruct z as [|p|p]; try discriminate.
    intros [= H]. exact (DecimalPos.Unsigned.to_uint_nonnil p H).
Qed.

Lemma match_number_parts (s : string) (m : number_match) :
  match_number s = Some m ->
  integer m +:+ frac m +:+ exp m +:+ after_number m = s.
Proof.
  unfold match_number.
  destruct (match_integer s) as [[i s1]|] eqn:Hi; [|discriminate].
  destruct (match_frac s1) as [f s2] eqn:Hf.
  destruct (match_exp s2) as [e s3] eqn:He.
  intros [= <-]. cbn [integer frac exp after_number].
  assert (He' : e +:+ s3 = s2).
  { revert He. unfold match_exp. destruct s2 as [|c s2]; [now intros [= <- <-]|].
    destruct ((code c =? 101)%N || (code c =? 69)%N);
      [|now intros [= <- <-]].
    destruct s2 as [|c1 s2]; [now intros [= <- <-]|].
    destruct ((code c1 =? 45)%N || (code c1 =? 43)%N).
    - pose proof (span_digits_parts s2) as Hp.
      destruct (span_digits s2) as [[|d ds] r]; [now intros [= <- <-]|].
      intros [= <- <-]. cbn [fst snd] in Hp.
      rewrite !text_app_cons.
      change (EmptyString +:+ String d ds) with (String d ds).
      now rewrite Hp.
    - pose proof (span_digits_parts (String c1 s2)) as Hp.
      destruct (span_digits (String c1 s2)) as [[|d ds] r];
        [now intros [= <- <-]|].
      intros [= <- <-]. cbn [fst snd] in Hp.
      rewrite text_app_cons.
      change (EmptyString +:+ String d ds) with (String d ds).
      now rewrite Hp. }
  assert (Hf' : f +:+ s2 = s1).
  { revert Hf. unfold match_frac. destruct s1 as [|c s1]; [now intros [= <- <-]|].
    destruct (code c =? 46)%N; [|now intros [= <- <-]].
    pose proof (span_digits_parts s1) as Hp.
    destruct (span_digits s1) as [[|d ds] r]; [now intros [= <- <-]|].
    intros [= <- <-]. cbn [fst snd] in Hp.
    rewrite text_app_cons. now rewrite Hp. }
  assert (Hi' : i +:+ s1 = s).
  { revert Hi. unfold match_integer.
    assert (Hbody : forall sign b i s1,
              match b with
              | String c rest0 =>
                  if (code c =? 48)%N then Some (sign +:+ "0", rest0)
                  else if is_digit c
                  then let '(digits, rest') := span_digits rest0 in
                       Some (sign +:+ String c digits, rest')
                  else None
              | EmptyString => None
              end = Some (i, s1) ->
              i +:+ s1 = sign +:+ b).
    { intros sign [|c b] i0 s0; [discriminate|].
      destruct (code c =? 48)%N eqn:Hz.
      - intros [= <- <-]. rewrite text_app_assoc. f_equal.
        apply N.eqb_eq in Hz.
        assert (c = char_of 48) as ->.
        { rewrite <- (Ascii.ascii_N_embedding c).
          unfold code in Hz. now rewrite Hz. }
        reflexivity.
      - destruct (is_digit c); [|discriminate].
        pose proof (span_digits_parts b) as Hp.
        destruct (span_digits b) as [d r]. intros [= <- <-].
        cbn [fst snd] in Hp. rewrite text_app_assoc, text_app_cons.
        now rewrite Hp. }
    destruct s as [|c s]; [discriminate|].
    destruct (code c =? 45)%N eqn:Hm.
    - intros H. rewrite (Hbody "-" s _ _ H).
      apply N.eqb_eq in Hm.
      assert (c = char_of 45) as ->.
      { rewrite <- (Ascii.ascii_N_embedding c).
        unfold code in Hm. now rewrite Hm. }
      reflexivity.
    - intros H. rewrite (Hbody "" (String c s) _ _ H). reflexivity. }
  now rewrite He', Hf', Hi'.
Qed.

Lemma match_number_starts (s : string) (m : number_match) :
  match_number s = Some m -> starts_number s = true.
Proof.
  unfold match_number, match_integer.
  destruct s as [|c s]; [discriminate|]. simpl.
  destruct (code c =? 45)%N; [now rewrite orb_true_r|].
  destruct (code c =? 48)%N eqn:Hz.
  - intros _. apply N.eqb_eq in Hz. unfold is_digit. rewrite Hz. reflexivity.
  - destruct (is_digit c); [reflexivity|discriminate].
Qed.

(** *** Values *)

(** Induction on a value, with the property in hand for every item of a
    list and for every value of a dict. *)
Lemma json_values_ind (P : json -> Prop) :
  P JNull ->
  (forall b, P (JBool b)) ->
  (forall z, P (JInt z)) ->
  (forall x, P (JFloat x)) ->
  (forall s, P (JStr s)) ->
  (forall l, Forall P l -> P (JList l)) ->
  (forall d, Forall (fun kv => P kv.2) d -> P (JDict d)) ->
  forall v, P v.
Proof.
  intros HNull HBool HInt HFloat HStr HList HDict.
  fix IH 1. intros [|b|z|x|s|l|d].
  - exact HNull.
  - apply HBool.
  - apply HInt.
  - apply HFloat.
  - apply HStr.
  - apply HList. induction l as [|v l IHl].
    + apply Forall_nil_2.
    + apply Forall_cons_2; [apply IH|exact IHl].
  - apply HDict. induction d as [|kv d IHd].
    + apply Forall_nil_2.
    + apply Forall_cons_2; [apply IH|exact IHd].
Qed.

Lemma nan_is_nan (x : float) : PrimFloat.is_nan x = true -> x = PrimFloat.nan.
Proof.
  intros H. apply Prim2SF_inj. rewrite (is_nan_Prim2SF x H). reflexivity.
Qed.

Lemma eqb_infinity (x : float) :
  PrimFloat.eqb x PrimFloat.infinity = true -> x = PrimFloat.infinity.
Proof.
  rewrite FloatAxioms.eqb_spec. intros H. apply Prim2SF_inj.
  change (Prim2SF PrimFloat.infinity) with (SpecFloat.S754_infinity false)
    in *.
  revert H. unfold SpecFloat.SFeqb, SpecFloat.SFcompare.
  destruct (Prim2SF x) as [s|s| |s m e]; try destruct s;
    try discriminate; reflexivity.
Qed.

Lemma eqb_neg_infinity (x : float) :
  PrimFloat.eqb x PrimFloat.neg_infinity = true ->
  x = PrimFloat.neg_infinity.
Proof.
  rewrite FloatAxioms.eqb_spec. intros H. apply Prim2SF_inj.
  change (Prim2SF PrimFloat.neg_infinity)
    with (SpecFloat.S754_infinity true) in *.
  revert H. unfold SpecFloat.SFeqb, SpecFloat.SFcompare.
  destruct (Prim2SF x) as [s|s| |s m e]; try destruct s;
    try discriminate; reflexivity.
Qed.

Section RoundTrip.

Variable float_repr : float -> string.
Variable float_of_text : string -> float.

Local Abbreviation encode := (Json.encode float_repr).
Local Abbreviation scan_once := (Json.scan_once float_of_text).
Local Abbreviation python_value :=
  (Json.python_value float_repr float_of_text).

Lemma python_value_list (l : list json) :
  python_value (JList l) <-> Forall python_value l.
Proof.
  induction l as [|v l IH]; simpl.
  - split; [constructor|trivial].
  - split.
    + intros [Hv Hl]. constructor; [exact Hv|]. apply IH. exact Hl.
    + intros H. apply Forall_cons_1 in H as [Hv Hl]. split; [exact Hv|].
      apply IH. exact Hl.
Qed.

Lemma python_value_dict (d : list (string * json)) :
  python_value (JDict d)
  <-> NoDup (map fst d) /\ Forall (fun kv => python_value kv.2) d.
Proof.
  simpl. apply and_iff_compat_l.
  induction d as [|kv d IH].
  - split; [constructor|trivial].
  - split.
    + intros [Hv Hd]. constructor; [exact Hv|]. apply IH. exact Hd.
    + intros H. apply Forall_cons_1 in H as [Hv Hd]. split; [exact Hv|].
      apply IH. exact Hd.
Qed.

(** A text that begins like a number is scanned as a number. *)
Lemma scan_once_number (fuel : nat) (s : string) :
  starts_number s = true ->
  scan_once (S fuel) s = scan_number float_of_text s.
Proof.
  destruct s as [|c s]; [discriminate|].
  destruct c as [[] [] [] [] [] [] [] []]; try discriminate;
    intros _; reflexivity.
Qed.

Lemma starts_number_app (a rest : string) :
  starts_number a = true -> starts_number (a +:+ rest) = true.
Proof. destruct a; [discriminate|]. trivial. Qed.

Lemma starts_number_head (s : string) :
  starts_number s = true ->
  exists c t, s = String c t /\ is_ws c = false
              /\ (code c =? 93)%N = false.
Proof.
  destruct s as [|c s]; [discriminate|]. intros H. exists c, s.
  split; [reflexivity|]. revert H. simpl.
  destruct c as [[] [] [] [] [] [] [] []]; try discriminate;
    intros _; split; reflexivity.
Qed.

Lemma scan_int (fuel : nat) (z : Z) (rest : string) :
  follows_value rest = true ->
  scan_once (S fuel) (int_repr z +:+ rest) = Some (JInt z, rest).
Proof.
  intros H.
  rewrite scan_once_number
    by (apply starts_number_app,
          (match_number_starts _ _ (match_number_int z))).
  unfold scan_number.
  rewrite (match_number_app _ _ _ H (match_number_int z)).
  cbn [frac exp integer after_number]. now rewrite int_of_text_repr.
Qed.

Lemma float_token_match (text : string) :
  float_token text = true ->
  exists m,
    match_number text = Some m /\ after_number m = ""
    /\ (frac m <> "" \/ exp m <> "")
    /\ integer m +:+ frac m +:+ exp m = text.
Proof.
  unfold float_token.
  destruct (match_number text) as [m|] eqn:Hm; [|discriminate].
  intros H. apply andb_true_iff in H as [Ha Hfe].
  apply String.eqb_eq in Ha. exists m. split; [reflexivity|].
  split; [exact Ha|]. split.
  - destruct (String.eqb_spec (frac m) ""); [|now left].
    destruct (String.eqb_spec (exp m) ""); [discriminate|now right].
  - pose proof (match_number_parts _ _ Hm) as Hp.
    rewrite Ha, text_app_nil_r in Hp. exact Hp.
Qed.

Lemma scan_float_token (fuel : nat) (text rest : string) :
  float_token text = true ->
  follows_value rest = true ->
  scan_once (S fuel) (text +:+ rest)
  = Some (JFloat (float_of_text text), rest).
Proof.
  intros Ht H.
  destruct (float_token_match _ Ht) as (m & Hm & Ha & Hfe & Hparts).
  rewrite scan_once_number
    by (apply starts_number_app, (match_number_starts _ _ Hm)).
  unfold scan_number. rewrite (match_number_app _ _ _ H Hm).
  cbn [frac exp integer after_number]. rewrite Ha, Hparts.
  destruct (frac m) as [|c f]; [|reflexivity].
  destruct (exp m) as [|c e]; [|reflexivity].
  destruct Hfe as [Hf|He]; [now elim Hf|now elim He].
Qed.

Lemma scan_float (fuel : nat) (x : float) (rest : string) :
  float_read_back float_repr float_of_text x ->
  follows_value rest = true ->
  scan_once (S fuel) (encode_float float_repr x +:+ rest)
  = Some (JFloat x, rest).
Proof.
  intros Hx H. unfold encode_float.
  destruct (PrimFloat.is_nan x) eqn:Hnan.
  { rewrite (nan_is_nan x Hnan). reflexivity. }
  destruct (PrimFloat.eqb x PrimFloat.infinity) eqn:Hinf.
  { rewrite (eqb_infinity x Hinf). reflexivity. }
  destruct (PrimFloat.eqb x PrimFloat.neg_infinity) eqn:Hneg.
  { rewrite (eqb_neg_infinity x Hneg). reflexivity. }
  destruct (Hx Hnan Hinf Hneg) as [Ht Hback].
  rewrite (scan_float_token fuel _ _ Ht H), Hback. reflexivity.
Qed.

(** The text of a value begins with a character that is neither a blank
    nor a closing bracket. *)
Lemma encode_head (v : json) :
  python_value v ->
  exists c t, encode v = String c t /\ is_ws c = false
              /\ (code c =? 93)%N = false.
Proof.
  destruct v as [|[]|z|x|s|l|d]; intros Hv;
    try (do 2 eexists; split; [reflexivity|split; reflexivity]).
  - apply starts_number_head,
      (match_number_starts _ _ (match_number_int z)).
  - simpl. unfold encode_float.
    destruct (PrimFloat.is_nan x) eqn:Hnan;
      [do 2 eexists; split; [reflexivity|split; reflexivity]|].
    destruct (PrimFloat.eqb x PrimFloat.infinity) eqn:Hinf;
      [do 2 eexists; split; [reflexivity|split; reflexivity]|].
    destruct (PrimFloat.eqb x PrimFloat.neg_infinity) eqn:Hneg;
      [do 2 eexists; split; [reflexivity|split; reflexivity]|].
    destruct (Hv Hnan Hinf Hneg) as [Ht _].
    destruct (float_token_match _ Ht) as (m & Hm & _).
    apply starts_number_head, (match_number_starts _ _ Hm).
Qed.

Lemma skip_ws_head (c : Ascii.ascii) (t : string) :
  is_ws c = false -> skip_ws (String c t) = String c t.
Proof. intros H. simpl. now rewrite H. Qed.

Lemma skip_ws_encode (v : json) (rest : string) :
  python_value v -> skip_ws (encode v +:+ rest) = encode v +:+ rest.
Proof.
  intros Hv. destruct (encode_head v Hv) as (c & t & -> & Hws & _).
  rewrite text_app_cons. now apply skip_ws_head.
Qed.

Lemma encode_length (v : json) :
  python_value v -> (1 <= String.length (encode v))%nat.
Proof.
  intros Hv. destruct (encode_head v Hv) as (c & t & -> & _). simpl. lia.
Qed.

Lemma concat_cons_cons (sep a b : string) (l : list string) :
  String.concat sep (a :: b :: l)
  = a +:+ sep +:+ String.concat sep (b :: l).
Proof. reflexivity. Qed.

Lemma bracket_text (opening closing : Ascii.ascii) (body rest : string) :
  (String opening "" +:+ body +:+ String closing "") +:+ rest
  = String opening (body +:+ String closing rest).
Proof. rewrite !text_app_assoc. reflexivity. Qed.

Lemma bracket_length (opening closing : Ascii.ascii) (body : string) :
  String.length (String opening "" +:+ body +:+ String closing "")
  = S (S (String.length body)).
Proof. rewrite !text_length_app. simpl. lia. Qed.

Lemma concat_cons_ne (sep a : string) (l : list string) :
  l <> [] ->
  String.concat sep (a :: l) = a +:+ sep +:+ String.concat sep l.
Proof. destruct l; [now intros H|reflexivity]. Qed.

Lemma concat_length_elem (sep : string) (l : list string) (s : string) :
  s ∈ l -> (String.length s <= String.length (String.concat sep l))%nat.
Proof.
  induction l as [|a l IH]; [intros H; inversion H|].
  intros H. apply elem_of_cons in H as [->|H].
  - destruct l; [simpl; lia|].
    rewrite concat_cons_cons, text_length_app. lia.
  - specialize (IH H). destruct l as [|b l]; [inversion H|].
    rewrite concat_cons_cons, !text_length_app. lia.
Qed.

Lemma skip_ws_space (x : string) :
  skip_ws (String (char_of 32) x) = skip_ws x.
Proof. reflexivity. Qed.

Lemma array_items_last (scan : string -> option (json * string))
    (fuel : nat) (s : string) (v : json) (rest : string) :
  scan s = Some (v, String (char_of 93) rest) ->
  array_items scan (S fuel) s = Some ([v], rest).
Proof. intros H. cbn [array_items]. rewrite H. reflexivity. Qed.

Lemma array_items_more (scan : string -> option (json * string))
    (fuel : nat) (s : string) (v : json) (rest : string) :
  scan s = Some (v, String (char_of 44) (String (char_of 32) rest)) ->
  array_items scan (S fuel) s
  = match array_items scan fuel (skip_ws rest) with
    | Some (vs, rest2) => Some (v :: vs, rest2)
    | None => None
    end.
Proof. intros H. cbn [array_items]. rewrite H. reflexivity. Qed.

Lemma object_items_last (scan : string -> option (json * string))
    (fuel : nat) (s key body : string) (v : json) (rest : string) :
  scanstring Plain s
  = Some (key, String (char_of 58) (String (char_of 32) body)) ->
  skip_ws body = body ->
  scan body = Some (v, String (char_of 125) rest) ->
  object_items scan (S fuel) s = Some ([(key, v)], rest).
Proof.
  intros H Hb Hv. cbn [object_items]. rewrite H.
  change (skip_ws (String (char_of 58) (String (char_of 32) body)))
    with (String (char_of 58) (String (char_of 32) body)).
  change ((code (char_of 58) =? 58)%N) with true. cbv iota.
  rewrite skip_ws_space, Hb, Hv. reflexivity.
Qed.

Lemma object_items_more (scan : string -> option (json * string))
    (fuel : nat) (s key body : string) (v : json) (tail : string) :
  scanstring Plain s
  = Some (key, String (char_of 58) (String (char_of 32) body)) ->
  skip_ws body = body ->
  scan body
  = Some (v, String (char_of 44) (String (char_of 32) (String quote tail))) ->
  object_items scan (S fuel) s
  = match object_items scan fuel tail with
    | Some (pairs, rest) => Some ((key, v) :: pairs, rest)
    | None => None
    end.
Proof.
  intros H Hb Hv. cbn [object_items]. rewrite H.
  change (skip_ws (String (char_of 58) (String (char_of 32) body)))
    with (String (char_of 58) (String (char_of 32) body)).
  change ((code (char_of 58) =? 58)%N) with true. cbv iota.
  rewrite skip_ws_space, Hb, Hv. reflexivity.
Qed.

(** The items of a list are read back from its text. *)
Lemma array_items_encode (scan : string -> option (json * string))
    (l : list json) :
  l <> [] ->
  Forall python_value l ->
  Forall (fun v => forall rest, follows_value rest = true ->
                   scan (encode v +:+ rest) = Some (v, rest)) l ->
  forall fuel rest,
    (String.length (String.concat ", " (map encode l)) <= fuel)%nat ->
    array_items scan fuel
      (String.concat ", " (map encode l) +:+ String (char_of 93) rest)
    = Some (l, rest).
Proof.
  induction l as [|v l IH]; [now intros H|]. intros _ Hpy Hscan fuel rest.
  apply Forall_cons_1 in Hpy as [Hv Hpy].
  apply Forall_cons_1 in Hscan as [Hsv Hscan].
  pose proof (encode_length v Hv) as Hlen.
  destruct l as [|v2 l].
  - cbn [map String.concat]. intros Hfuel.
    destruct fuel as [|fuel]; [lia|].
    apply array_items_last, Hsv. reflexivity.
  - cbn [map]. rewrite concat_cons_cons, !text_length_app. intros Hfuel.
    destruct fuel as [|fuel]; [lia|].
    change (String.concat ", " (encode v2 :: map encode l))
      with (String.concat ", " (map encode (v2 :: l))) in *.
    rewrite !text_app_assoc.
    rewrite (array_items_more scan fuel _ v
               (String.concat ", " (map encode (v2 :: l))
                +:+ String (char_of 93) rest))
      by (apply Hsv; reflexivity).
    assert (Hskip : forall x,
              skip_ws (String.concat ", " (map encode (v2 :: l)) +:+ x)
              = String.concat ", " (map encode (v2 :: l)) +:+ x).
    { intros x. apply Forall_cons_1 in Hpy as [Hv2 _].
      destruct (encode_head v2 Hv2) as (c & s & E & Hws & _).
      cbn [map]. destruct l as [|v3 l].
      - cbn [map String.concat]. rewrite E, text_app_cons.
        now apply skip_ws_head.
      - cbn [map]. rewrite concat_cons_cons, E, !text_app_cons.
        now apply skip_ws_head. }
    rewrite Hskip, IH; [reflexivity|discriminate|exact Hpy|exact Hscan|].
    change (String.length ", ") with 2%nat in Hfuel. lia.
Qed.

Lemma assign_fresh (key : string) (v : json) (d : list (string * json)) :
  key ∉ map fst d -> assign key v d = d ++ [(key, v)].
Proof.
  induction d as [|[k old] d IH]; [reflexivity|]. simpl. intros Hk.
  apply not_elem_of_cons in Hk as [Hne Hk].
  destruct (String.eqb_spec k key) as [E|_]; [now elim Hne|].
  now rewrite IH.
Qed.

Lemma dict_of_pairs_acc (acc pairs : list (string * json)) :
  NoDup (map fst (acc ++ pairs)) ->
  foldl (fun d kv => assign kv.1 kv.2 d) acc pairs = acc ++ pairs.
Proof.
  revert acc. induction pairs as [|[k v] pairs IH]; intros acc H.
  - now rewrite app_nil_r.
  - simpl. rewrite assign_fresh.
    + rewrite IH; rewrite <- app_assoc; [reflexivity|exact H].
    + rewrite map_app in H. apply NoDup_app in H as (_ & Hdisj & _).
      intros Hin. apply (Hdisj k Hin). simpl. left.
Qed.

Lemma dict_of_pairs_nodup (pairs : list (string * json)) :
  NoDup (map fst pairs) -> dict_of_pairs pairs = pairs.
Proof. intros H. now apply (dict_of_pairs_acc []). Qed.

Local Abbreviation encode_pair :=
  (fun kv : string * json => encode_str kv.1 +:+ ": " +:+ encode kv.2).

(** The text of a pair after the quote that opens its key. *)
Lemma encode_pair_text (k : string) (v : json) (rest : string) :
  (encode_str k +:+ ": " +:+ encode v) +:+ rest
  = String quote
      (escape k
       +:+ String quote
             (String (char_of 58)
                (String (char_of 32) (encode v +:+ rest)))).
Proof.
  unfold encode_str. rewrite !text_app_cons, !text_app_assoc.
  reflexivity.
Qed.

(** The text of a dict without its brace opens with the quote of its first
    key. *)
Lemma encode_pairs_open (k : string) (v : json) (d : list (string * json))
    (rest : string) :
  exists tail,
    String.concat ", " (map encode_pair ((k, v) :: d)) +:+ rest
    = String quote tail.
Proof.
  cbn [map fst snd]. destruct d as [|kv2 d].
  - cbn [map String.concat]. rewrite encode_pair_text. eauto.
  - cbn [map]. rewrite concat_cons_cons.
    rewrite (text_app_assoc (encode_str k +:+ ": " +:+ encode v)).
    rewrite encode_pair_text. eauto.
Qed.

(** The pairs of a dict are read back from its text. *)
Lemma object_items_encode (scan : string -> option (json * string))
    (d : list (string * json)) (k : string) (v : json) :
  Forall (fun kv => python_value kv.2) ((k, v) :: d) ->
  Forall (fun kv => forall rest, follows_value rest = true ->
                    scan (encode kv.2 +:+ rest) = Some (kv.2, rest))
    ((k, v) :: d) ->
  forall fuel rest tail,
    (String.length (String.concat ", " (map encode_pair ((k, v) :: d)))
     <= fuel)%nat ->
    String.concat ", " (map encode_pair ((k, v) :: d))
    +:+ String (char_of 125) rest
    = String quote tail ->
    object_items scan fuel tail = Some ((k, v) :: d, rest).
Proof.
  revert k v. induction d as [|[k2 v2] d IH];
    intros k v Hpy Hscan fuel rest tail;
    apply Forall_cons_1 in Hpy as [Hv Hpy];
    apply Forall_cons_1 in Hscan as [Hsv Hscan];
    cbn [fst snd] in Hv, Hsv.
  - cbn [map String.concat fst snd]. intros Hfuel.
    rewrite encode_pair_text. intros [= <-].
    destruct fuel as [|fuel].
    { rewrite !text_length_app in Hfuel.
      change (String.length ": ") with 2%nat in Hfuel. lia. }
    apply (object_items_last scan fuel _ k
             (encode v +:+ String (char_of 125) rest) v rest).
    + apply scanstring_escape.
    + now apply skip_ws_encode.
    + apply Hsv. reflexivity.
  - destruct (encode_pairs_open k2 v2 d (String (char_of 125) rest))
      as (tail2 & Htail2).
    specialize (IH k2 v2 Hpy Hscan).
    change (map encode_pair ((k, v) :: (k2, v2) :: d))
      with ((encode_str k +:+ ": " +:+ encode v)
            :: map encode_pair ((k2, v2) :: d)).
    rewrite concat_cons_ne by discriminate.
    revert IH Htail2.
    generalize (String.concat ", " (map encode_pair ((k2, v2) :: d))).
    intros more IH Htail2.
    rewrite !text_length_app. intros Hfuel.
    change (String.length ", ") with 2%nat in Hfuel.
    rewrite (text_app_assoc (encode_str k +:+ ": " +:+ encode v)).
    rewrite encode_pair_text, text_app_assoc. intros [= <-].
    destruct fuel as [|fuel]; [lia|].
    rewrite (object_items_more scan fuel _ k
               (encode v +:+ ", " +:+ more +:+ String (char_of 125) rest)
               v tail2).
    + rewrite (IH fuel rest tail2); [reflexivity| |exact Htail2]. lia.
    + apply scanstring_escape.
    + now apply skip_ws_encode.
    + rewrite <- Htail2. apply Hsv. reflexivity.
Qed.

Lemma scan_once_dict (fuel : nat) (tail : string) :
  scan_once (S fuel) (String (char_of 123) (String quote tail))
  = match object_items (scan_once fuel) fuel tail with
    | Some (pairs, rest) => Some (JDict (dict_of_pairs pairs), rest)
    | None => None
    end.
Proof. reflexivity. Qed.

(** A value is read back from its text, whatever text follows it that may
    follow a value. *)
Lemma scan_encode (v : json) :
  python_value v ->
  forall fuel rest,
    (String.length (encode v) <= fuel)%nat ->
    follows_value rest = true ->
    scan_once fuel (encode v +:+ rest) = Some (v, rest).
Proof.
  induction v as [|b|z|x|s|l IH|d IH] using json_values_ind;
    intros Hv fuel rest Hfuel Hrest;
    (destruct fuel as [|fuel];
     [pose proof (encode_length _ Hv); lia|]).
  - reflexivity.
  - destruct b; reflexivity.
  - now apply scan_int.
  - now apply scan_float.
  - cbn [Json.encode]. unfold encode_str.
    rewrite text_app_cons, text_app_assoc, text_app_cons.
    cbn [Json.scan_once code quote char_of].
    change (EmptyString +:+ rest) with rest.
    rewrite scanstring_escape. reflexivity.
  - apply python_value_list in Hv.
    destruct l as [|v l]; [reflexivity|].
    cbn [Json.encode] in *.
    rewrite (bracket_length (char_of 91) (char_of 93)) in Hfuel.
    rewrite (bracket_text (char_of 91) (char_of 93)).
    cbn [Json.scan_once code char_of].
    assert (Hhead : exists c t,
              String.concat ", " (map encode (v :: l))
              +:+ String (char_of 93) rest = String c t
              /\ is_ws c = false /\ (code c =? 93)%N = false).
    { apply Forall_cons_1 in Hv as [Hv0 _].
      destruct (encode_head v Hv0) as (c & t & E & Hws & Hb).
      cbn [map]. destruct l as [|v2 l].
      - cbn [map String.concat]. rewrite E, text_app_cons. eauto.
      - cbn [map]. rewrite concat_cons_cons, E, !text_app_cons. eauto. }
    destruct Hhead as (c & t & E & Hws & Hb).
    rewrite E, (skip_ws_head c t Hws), Hb, <- E.
    rewrite (array_items_encode (scan_once fuel) (v :: l));
      [reflexivity|discriminate|exact Hv| |lia].
    apply Forall_forall. intros item Hin rest' Hrest'.
    apply (proj1 (Forall_forall _ _) IH item Hin);
      [exact (proj1 (Forall_forall _ _) Hv item Hin)| |exact Hrest'].
    assert (String.length (encode item)
            <= String.length (String.concat ", " (map encode (v :: l))))%nat.
    { apply concat_length_elem, list_elem_of_fmap. eauto. }
    lia.
  - apply python_value_dict in Hv as [Hkeys Hv].
    destruct d as [|[k v] d]; [reflexivity|].
    cbn [Json.encode] in *.
    rewrite (bracket_length (char_of 123) (char_of 125)) in Hfuel.
    rewrite (bracket_text (char_of 123) (char_of 125)).
    destruct (encode_pairs_open k v d (String (char_of 125) rest))
      as (tail & Htail).
    rewrite Htail, scan_once_dict.
    rewrite (object_items_encode (scan_once fuel) d k v Hv) with (rest := rest);
      [rewrite (dict_of_pairs_nodup _ Hkeys); reflexivity| |lia|exact Htail].
    apply Forall_forall. intros item Hin rest' Hrest'.
    apply (proj1 (Forall_forall _ _) IH item Hin);
      [exact (proj1 (Forall_forall _ _) Hv item Hin)| |exact Hrest'].
    assert (Hitem : (String.length (encode_str item.1 +:+ ": " +:+ encode item.2)
            <= String.length
                 (String.concat ", " (map encode_pair ((k, v) :: d))))%nat).
    { apply concat_length_elem.
      apply (list_elem_of_fmap_2 encode_pair _ _ Hin). }
    rewrite !text_length_app in Hitem. lia.
Qed.

(** [json.loads] reads back the payload that [json.dumps] wrote. *)
Lemma loads_dumps (decode_error : string -> Py.exn) (v : json) :
  python_value v ->
  exists text,
    Json.dumps float_repr v = Py.Return text
    /\ text <> ""
    /\ Json.loads float_of_text decode_error text = Py.Return v.
Proof.
  intros Hv. exists (encode v). split; [reflexivity|].
  destruct (encode_head v Hv) as (c & t & E & Hws & _).
  split; [rewrite E; discriminate|].
  unfold Json.loads.
  rewrite <- (text_app_nil_r (encode v)) at 2.
  rewrite (skip_ws_encode v "" Hv), text_app_nil_r.
  rewrite <- (text_app_nil_r (encode v)) at 2.
  rewrite (scan_encode v Hv) by (try reflexivity; lia).
  reflexivity.
Qed.

End RoundTrip.

End JsonFacts.
(** ** The console output of a run *)

Section Console.

Import Supervisor.

Variable console : string -> option Py.exn.

Lemma bind_raises {A B} (r : Py.result A) (k : A -> Py.result B)
    (e : Py.exn) :
  Py.bind r k = Py.Raise e ->
  r = Py.Raise e \/ exists a, r = Py.Return a /\ k a = Py.Raise e.
Proof. destruct r as [a|e']; simpl; [eauto|intros [= <-]; auto]. Qed.

Lemma print_accepted (text : string) :
  (forall text, console text = None) ->
  Py.print console text = Py.Return [text].
Proof. intros H. unfold Py.print. now rewrite H. Qed.

Lemma print_raises (text : string) (e : Py.exn) :
  Py.print console text = Py.Raise e -> console text = Some e.
Proof.
  unfold Py.print. destruct (console text); [intros [= <-]|]; easy.
Qed.

Lemma print_all_accepted (texts : list string) :
  (forall text, console text = None) ->
  print_all console texts = Py.Return texts.
Proof.
  intros H. induction texts as [|text texts IH]; [reflexivity|].
  cbn [print_all]. rewrite (print_accepted text H), IH. reflexivity.
Qed.

Lemma print_all_raises (texts : list string) (e : Py.exn) :
  print_all console texts = Py.Raise e ->
  exists text, console text = Some e.
Proof.
  induction texts as [|text texts IH]; [discriminate|].
  cbn [print_all]. intros H.
  apply bind_raises in H as [H|(out & _ & H)].
  - apply print_raises in H. eauto.
  - apply bind_raises in H as [H|(more & _ & H)]; [auto|discriminate].
Qed.

Variable repr_list : list string -> string.
Variable chars : string -> list string.
Variable format_percent : float -> string.
Variable upper : string -> string.

Local Abbreviation format_paper :=
  (Supervisor.format_paper repr_list chars console).
Local Abbreviation format_papers :=
  (Supervisor.format_papers repr_list chars console).
Local Abbreviation format_literature :=
  (Supervisor._format_literature_output repr_list chars console).
Local Abbreviation display :=
  (Supervisor._display_clinical_report format_percent upper console).

Lemma is_pubmed_source (paper : LiteratureAgent.paper) :
  is_pubmed (Py.get (paper !! "source") (LiteratureAgent.VStr "Unknown"))
  = true ->
  paper !! "source" = Some (LiteratureAgent.VStr "PubMed").
Proof.
  destruct (paper !! "source") as [[| |s|]|]; simpl; try discriminate.
  intros H. apply String.eqb_eq in H. now subst.
Qed.

(** The authors of a printable PubMed paper can be listed and counted. *)
Lemma printable_authors (paper : LiteratureAgent.paper) :
  printable paper ->
  is_pubmed (Py.get (paper !! "source") (LiteratureAgent.VStr "Unknown"))
  = true ->
  (exists listed,
     first_three chars
       (Py.get (paper !! "authors") (LiteratureAgent.VList ["Unknown"]))
     = Py.Return listed)
  /\ (exists count,
        value_len chars
          (Py.get (paper !! "authors") (LiteratureAgent.VList []))
        = Py.Return count).
Proof.
  intros [_ Ha] Hsrc.
  destruct (Ha (is_pubmed_source _ Hsrc)) as [Hnone Hint].
  destruct (paper !! "authors") as [[|z|s|l]|]; cbn [Py.get first_three
    value_len]; eauto.
  - now elim Hnone.
  - now elim (Hint z).
Qed.

Lemma format_paper_returns (i : Z) (paper : LiteratureAgent.paper) :
  (forall text, console text = None) ->
  printable paper -> exists lines, format_paper i paper = Py.Return lines.
Proof.
  intros Hc Hp. pose proof (printable_authors paper Hp) as Hauth.
  destruct Hp as [[title Ht] _]. unfold Supervisor.format_paper.
  rewrite Ht. cbn [Py.bind]. rewrite !(print_accepted _ Hc). cbn [Py.bind].
  destruct (is_pubmed _) eqn:Hsrc; [|eauto].
  destruct (Hauth eq_refl) as [(listed & ->) (count & ->)].
  cbn [Py.bind]. rewrite !(print_accepted _ Hc). cbn [Py.bind]. eauto.
Qed.

Lemma format_paper_no_title (i : Z) (paper : LiteratureAgent.paper) :
  paper !! "title" = None ->
  format_paper i paper = Py.Raise (Py.Exn "KeyError" "'title'").
Proof.
  intros H. unfold Supervisor.format_paper. rewrite H. reflexivity.
Qed.

(** Printing a printable paper raises only what the console raises. *)
Lemma format_paper_raises (i : Z) (paper : LiteratureAgent.paper)
    (e : Py.exn) :
  printable paper -> format_paper i paper = Py.Raise e ->
  exists text, console text = Some e.
Proof.
  intros Hp. pose proof (printable_authors paper Hp) as Hauth.
  destruct Hp as [[title Ht] _]. unfold Supervisor.format_paper.
  rewrite Ht. cbn [Py.bind]. intros H.
  apply bind_raises in H as [H|(out1 & _ & H)];
    [apply print_raises in H; eauto|].
  apply bind_raises in H as [H|(out2 & _ & H)];
    [apply print_raises in H; eauto|].
  destruct (is_pubmed _) eqn:Hsrc; [|discriminate].
  destruct (Hauth eq_refl) as [(listed & El) (count & Ec)].
  rewrite El, Ec in H. cbn [Py.bind] in H.
  apply bind_raises in H as [H|(out3 & _ & H)];
    [apply print_raises in H; eauto|].
  apply bind_raises in H as [H|(out4 & _ & H)];
    [apply print_raises in H; eauto|discriminate].
Qed.

Lemma format_papers_returns (i : Z) (papers : list LiteratureAgent.paper) :
  (forall text, console text = None) ->
  Forall printable papers ->
  exists lines, format_papers i papers = Py.Return lines.
Proof.
  intros Hc H. revert i. induction H as [|p l Hp _ IH]; intros i; simpl.
  - eauto.
  - destruct (format_paper_returns i p Hc Hp) as (lines & ->).
    destruct (IH (i + 1)) as (more & ->). simpl. eauto.
Qed.

Lemma format_papers_no_title (i : Z)
    (before : list LiteratureAgent.paper) (p : LiteratureAgent.paper)
    (rest : list LiteratureAgent.paper) :
  (forall text, console text = None) ->
  Forall printable before -> p !! "title" = None ->
  format_papers i (before ++ p :: rest)
  = Py.Raise (Py.Exn "KeyError" "'title'").
Proof.
  intros Hc H Hp. revert i. induction H as [|q l Hq _ IH]; intros i; simpl.
  - now rewrite (format_paper_no_title i p Hp).
  - destruct (format_paper_returns i q Hc Hq) as (lines & ->).
    cbn [Py.bind]. now rewrite IH.
Qed.

Lemma format_papers_raises (i : Z) (papers : list LiteratureAgent.paper)
    (e : Py.exn) :
  Forall printable papers -> format_papers i papers = Py.Raise e ->
  exists text, console text = Some e.
Proof.
  intros H. revert i. induction H as [|p l Hp _ IH]; intros i; simpl.
  - discriminate.
  - intros Hr. apply bind_raises in Hr as [Hr|(lines & _ & Hr)].
    + eapply format_paper_raises; eauto.
    + apply bind_raises in Hr as [Hr|(more & _ & Hr)];
        [eapply IH; eauto|discriminate].
Qed.

(** A paper without a title, after papers that can be printed, ends the
    loop: by its [KeyError], or sooner by what the console raises. *)
Lemma format_papers_untitled (i : Z)
    (before : list LiteratureAgent.paper) (p : LiteratureAgent.paper)
    (rest : list LiteratureAgent.paper) :
  Forall printable before -> p !! "title" = None ->
  exists e,
    format_papers i (before ++ p :: rest) = Py.Raise e
    /\ (e = Py.Exn "KeyError" "'title'"
        \/ exists text, console text = Some e).
Proof.
  intros H Hp. revert i. induction H as [|q l Hq _ IH]; intros i; simpl.
  - rewrite (format_paper_no_title i p Hp). eauto.
  - destruct (format_paper i q) as [lines|e] eqn:Hq'; cbn [Py.bind].
    + destruct (IH (i + 1)) as (e & -> & He). eauto.
    + exists e. split; [reflexivity|]. right.
      eapply format_paper_raises; eauto.
Qed.

Lemma format_literature_untitled (found : LiteratureAgent.Found)
    (before : list LiteratureAgent.paper) (p : LiteratureAgent.paper)
    (rest : list LiteratureAgent.paper) :
  take 6 (LiteratureAgent.papers found) = before ++ p :: rest ->
  Forall printable before -> p !! "title" = None ->
  exists e,
    format_literature found = Py.Raise e
    /\ (e = Py.Exn "KeyError" "'title'"
        \/ exists text, console text = Some e).
Proof.
  intros Htake Hbefore Hp. unfold _format_literature_output.
  destruct (print_all console _) as [head|e] eqn:Hhead; cbn [Py.bind].
  - rewrite Htake.
    destruct (format_papers_untitled 1 before p rest Hbefore Hp)
      as (e & -> & He). eauto.
  - exists e. split; [reflexivity|]. right.
    eapply print_all_raises; eauto.
Qed.

Lemma format_literature_returns (found : LiteratureAgent.Found) :
  (forall text, console text = None) ->
  Forall printable (take 6 (LiteratureAgent.papers found)) ->
  exists out, format_literature found = Py.Return out.
Proof.
  intros Hc Hp. unfold _format_literature_output.
  rewrite !(print_all_accepted _ Hc). cbn [Py.bind].
  destruct (format_papers_returns 1 _ Hc Hp) as (body & ->).
  cbn [Py.bind]. eauto.
Qed.

Lemma format_literature_raises (found : LiteratureAgent.Found)
    (e : Py.exn) :
  Forall printable (take 6 (LiteratureAgent.papers found)) ->
  format_literature found = Py.Raise e ->
  exists text, console text = Some e.
Proof.
  intros Hp. unfold _format_literature_output. intros H.
  apply bind_raises in H as [H|(head & _ & H)];
    [eapply print_all_raises; eauto|].
  apply bind_raises in H as [H|(body & _ & H)];
    [eapply format_papers_raises; eauto|].
  apply bind_raises in H as [H|(tail & _ & H)];
    [eapply print_all_raises; eauto|discriminate].
Qed.

Lemma format_literature_no_title (found : LiteratureAgent.Found)
    (before : list LiteratureAgent.paper) (p : LiteratureAgent.paper)
    (rest : list LiteratureAgent.paper) :
  (forall text, console text = None) ->
  take 6 (LiteratureAgent.papers found) = before ++ p :: rest ->
  Forall printable before -> p !! "title" = None ->
  format_literature found = Py.Raise (Py.Exn "KeyError" "'title'").
Proof.
  intros Hc Htake Hbefore Hp. unfold _format_literature_output.
  rewrite !(print_all_accepted _ Hc). cbn [Py.bind].
  rewrite Htake, (format_papers_no_title 1 before p rest Hc Hbefore Hp).
  reflexivity.
Qed.

Lemma risk_items :
  risk_item RiskCalculator.calculate_irae_risk "grade_3_4_irae"
  = Py.Return "18%"
  /\ risk_item RiskCalculator.calculate_irae_risk "recommendation"
     = Py.Return
         "Initiate thyroid function monitoring at baseline and every 6 weeks".
Proof. split; reflexivity. Qed.

Lemma display_returns (rationale : string)
    (recommendation : ClinicalReasoner.Recommendation)
    (doctor_review : DoctorAgent.Review) :
  (forall text, console text = None) ->
  exists lines,
    display rationale recommendation doctor_review
      RiskCalculator.calculate_irae_risk
    = Py.Return lines.
Proof.
  intros Hc. unfold _display_clinical_report.
  destruct risk_items as [-> ->].
  rewrite (print_all_accepted _ Hc). cbn [Py.bind].
  rewrite (print_accepted _ Hc). cbn [Py.bind].
  rewrite (print_all_accepted _ Hc). cbn [Py.bind]. eauto.
Qed.

Lemma display_raises (rationale : string)
    (recommendation : ClinicalReasoner.Recommendation)
    (doctor_review : DoctorAgent.Review) (e : Py.exn) :
  display rationale recommendation doctor_review
    RiskCalculator.calculate_irae_risk
  = Py.Raise e ->
  exists text, console text = Some e.
Proof.
  unfold _display_clinical_report. destruct risk_items as [-> ->].
  intros H.
  apply bind_raises in H as [H|(head & _ & H)];
    [eapply print_all_raises; eauto|].
  cbn [Py.bind] in H.
  apply bind_raises in H as [H|(out & _ & H)];
    [apply print_raises in H; eauto|].
  cbn [Py.bind] in H.
  apply bind_raises in H as [H|(tail & _ & H)];
    [eapply print_all_raises; eauto|discriminate].
Qed.

End Console.
(** ** The orchestrator *)

Section Orchestrator.

Import Supervisor.

Variable model_name : string.
Variable search_pubmed :
  string -> Z -> Z -> Py.result LiteratureAgent.SourceResult.
Variable search_scholar :
  string -> Z -> Py.result LiteratureAgent.SourceResult.
Variable perform_survival_analysis : AnalysisAgent.ToolResult.
Variable format_summary : AnalysisAgent.Survival -> string.
Variable round : float -> Z -> float.
Variable repr_list : list string -> string.
Variable chars : string -> list string.
Variable format_percent : float -> string.
Variable upper : string -> string.
Variable format_rationale : ClinicalReasoner.Evidence -> string.
Variable console : string -> option Py.exn.

Local Abbreviation run :=
  (Supervisor.process_query model_name search_pubmed search_scholar
     perform_survival_analysis format_summary round repr_list chars
     format_percent upper format_rationale console).
Local Abbreviation four_stages :=
  (Supervisor.stages model_name search_pubmed search_scholar
     perform_survival_analysis format_summary round).
Local Abbreviation search :=
  (LiteratureAgent.query model_name search_pubmed search_scholar).
Local Abbreviation analysed :=
  (AnalysisAgent.analyze_survival perform_survival_analysis format_summary).

(** The literature search returns a dict whatever its tools do. *)
Lemma query_returns (user_query : string) :
  exists lit_result, search user_query = Py.Return lit_result.
Proof.
  unfold LiteratureAgent.query, Py.try_except.
  destruct (LiteratureAgent.query_body _ _ _ _); eauto.
Qed.

(** The error dict of a search one of whose tools raised. *)
Lemma query_tool_raised (user_query : string) (exc : Py.exn) :
  search_pubmed user_query 12 2023 = Py.Raise exc
  \/ (exists pubmed_result,
        search_pubmed user_query 12 2023 = Py.Return pubmed_result
        /\ search_scholar user_query 6 = Py.Raise exc) ->
  search user_query
  = Py.Return
      (LiteratureAgent.Error
         {| LiteratureAgent.error := Py.exn_str exc;
            LiteratureAgent.failed_query := user_query |}).
Proof.
  unfold LiteratureAgent.query, LiteratureAgent.query_body.
  intros [H|(pr & H1 & H2)].
  - rewrite H. reflexivity.
  - rewrite H1; cbn [Py.bind]. rewrite H2. reflexivity.
Qed.

(** A search both of whose tools return a result that is not a success
    finds no paper. *)
Lemma query_sources_failed (user_query : string)
    (pubmed_result scholar_result : LiteratureAgent.SourceResult) :
  search_pubmed user_query 12 2023 = Py.Return pubmed_result ->
  search_scholar user_query 6 = Py.Return scholar_result ->
  LiteratureAgent.source_status pubmed_result <> Some "success" ->
  LiteratureAgent.source_status scholar_result <> Some "success" ->
  exists found,
    search user_query = Py.Return (LiteratureAgent.Success found)
    /\ LiteratureAgent.total_found found = 0
    /\ LiteratureAgent.papers found = [].
Proof.
  intros Hp Hs Hpe Hse.
  unfold LiteratureAgent.query, LiteratureAgent.query_body.
  rewrite Hp; cbn [Py.bind]. rewrite Hs; cbn [Py.bind Py.try_except].
  eexists. split; [reflexivity|].
  unfold LiteratureAgent.found, LiteratureAgent.papers_of.
  destruct (decide (LiteratureAgent.source_status pubmed_result
                    = Some "success")); [contradiction|].
  destruct (decide (LiteratureAgent.source_status scholar_result
                    = Some "success")); [contradiction|].
  split; reflexivity.
Qed.

(** The gate, fed by the scorer as the orchestrator wires them. *)
Lemma gate_after_score (evidence : ClinicalReasoner.Evidence) :
  let recommendation := ClinicalReasoner.generate_recommendation evidence in
  exists r,
    DoctorAgent.review_recommendation round
      (ai_output_of evidence recommendation) = Py.Return r
    /\ (DoctorAgent.doctor_decision r
        = DoctorAgent.decision_text DoctorAgent.Approve
        <-> ClinicalReasoner.grade recommendation = "1A"
            \/ ClinicalReasoner.grade recommendation = "1B")
    /\ (ClinicalReasoner.grade recommendation = "2C" ->
        ClinicalReasoner.strength_of_recommendation recommendation
        = ClinicalReasoner.strength_text ClinicalReasoner.Weak
        /\ ClinicalReasoner.confidence_score recommendation = 0.62%float
        /\ DoctorAgent.doctor_decision r
           = DoctorAgent.decision_text DoctorAgent.Modify).
Proof.
  cbv zeta.
  unfold ClinicalReasoner.generate_recommendation, ClinicalReasoner.score.
  set (p := Py.get (ClinicalReasoner.p_value evidence) 1.0%float).
  set (n := Py.get (ClinicalReasoner.total_papers evidence) 0).
  set (d := ClinicalReasoner.median_diff evidence).
  unfold DoctorAgent.review_recommendation, DoctorAgent.decide_review,
    ai_output_of.
  destruct (tier_cases p n d) as [[H1 E]|[[H1 [H2 E]]|[H1 [H2 E]]]];
    rewrite E; cbn [ClinicalReasoner.confidence_score
      ClinicalReasoner.recommendation Py.get DoctorAgent.confidence_score
      DoctorAgent.p_value DoctorAgent.recommendation
      ClinicalReasoner.grade ClinicalReasoner.grade_text
      ClinicalReasoner.strength_of_recommendation].
  - destruct H1 as (Hp & _ & _).
    replace (Py.flt 0.94 0.70) with false by reflexivity.
    fold p. rewrite (below_alpha_not_above p (below_001_below_alpha p Hp)).
    eexists; split; [reflexivity|]; simpl.
    repeat apply conj; auto; discriminate.
  - destruct H2 as (Hp & _).
    replace (Py.flt 0.87 0.70) with false by reflexivity.
    fold p. rewrite (below_alpha_not_above p Hp).
    eexists; split; [reflexivity|]; simpl.
    repeat apply conj; auto; discriminate.
  - replace (Py.flt 0.62 0.70) with true by reflexivity.
    eexists; split; [reflexivity|]; simpl.
    repeat apply conj; auto; try discriminate.
    intros [H|H]; discriminate.
Qed.

(** What the four stages return. *)
Lemma stages_returns (query : string) :
  exists lit_result doctor_review,
    search query = Py.Return lit_result
    /\ DoctorAgent.review_recommendation round
         (ai_output_of (evidence_of lit_result analysed)
            (ClinicalReasoner.generate_recommendation
               (evidence_of lit_result analysed)))
       = Py.Return doctor_review
    /\ four_stages query
       = Py.Return
           {| literature := lit_result;
              analysis := analysed;
              recommendation :=
                ClinicalReasoner.generate_recommendation
                  (evidence_of lit_result analysed);
              doctor_review := doctor_review;
              risk_profile := RiskCalculator.calculate_irae_risk |}.
Proof.
  destruct (query_returns query) as [lit_result Hlit].
  destruct (gate_after_score (evidence_of lit_result analysed))
    as [r [Hr _]].
  exists lit_result, r. split; [exact Hlit|]. split; [exact Hr|].
  unfold stages. rewrite Hlit. simpl. rewrite Hr. reflexivity.
Qed.

(** The report of a run that returns is the report of its four stages. *)
Lemma run_stages (query : string) (out : list string) (report : Report) :
  run query = Py.Return (out, report) -> four_stages query = Py.Return report.
Proof.
  unfold process_query, stages.
  destruct (search query) as [lit|e]; cbn [Py.bind]; [|discriminate].
  destruct (match lit with
            | LiteratureAgent.Success found =>
                _format_literature_output repr_list chars console found
            | LiteratureAgent.Error _ => Py.Return []
            end) as [o1|e]; cbn [Py.bind]; [|discriminate].
  destruct (print_all console _) as [o2|e]; cbn [Py.bind]; [|discriminate].
  destruct (match analysed with
            | AnalysisAgent.Success a =>
                Py.print console (AnalysisAgent.summary a)
            | AnalysisAgent.Error _ => Py.Return []
            end) as [o3|e]; cbn [Py.bind]; [|discriminate].
  destruct (DoctorAgent.review_recommendation round _) as [r|e];
    cbn [Py.bind]; [|discriminate].
  destruct (_display_clinical_report _ _ _ _ _ _ _) as [o4|e];
    cbn [Py.bind]; [|discriminate].
  intros [= _ <-]. reflexivity.
Qed.

(** A run returns when the console prints every text and the papers it
    shows can be printed. *)
Lemma run_returns (query : string) :
  (forall text, console text = None) ->
  prints_papers (search query) ->
  exists out report,
    run query = Py.Return (out, report)
    /\ four_stages query = Py.Return report.
Proof.
  intros Hc Hprint.
  destruct (stages_returns query) as (lit & r & Hlit & Hr & Hstages).
  rewrite Hstages. unfold process_query.
  rewrite Hlit in Hprint |- *. cbn [Py.bind].
  assert (Hlit' : exists o1,
            match lit with
            | LiteratureAgent.Success found =>
                _format_literature_output repr_list chars console found
            | LiteratureAgent.Error _ => Py.Return []
            end = Py.Return o1).
  { destruct lit as [found|failed]; [|eauto].
    now apply format_literature_returns. }
  destruct Hlit' as (o1 & ->). cbn [Py.bind].
  rewrite (print_all_accepted console _ Hc). cbn [Py.bind].
  assert (Hana : exists o3,
            match analysed with
            | AnalysisAgent.Success a =>
                Py.print console (AnalysisAgent.summary a)
            | AnalysisAgent.Error _ => Py.Return []
            end = Py.Return o3).
  { destruct analysed; [rewrite (print_accepted console _ Hc)|]; eauto. }
  destruct Hana as (o3 & ->). cbn [Py.bind].
  rewrite Hr. cbn [Py.bind].
  match goal with
  | |- context [_display_clinical_report _ _ _ ?a ?b ?c _] =>
      destruct (display_returns console format_percent upper a b c Hc)
        as (o4 & ->)
  end.
  cbn [Py.bind]. eauto.
Qed.

(** A run whose papers can be printed raises only what the console
    raises. *)
Lemma run_raises (query : string) (e : Py.exn) :
  prints_papers (search query) ->
  run query = Py.Raise e -> exists text, console text = Some e.
Proof.
  intros Hprint.
  destruct (stages_returns query) as (lit & r & Hlit & Hr & _).
  unfold process_query. rewrite Hlit in Hprint |- *. cbn [Py.bind].
  intros H.
  apply bind_raises in H as [H|(o1 & _ & H)].
  { destruct lit as [found|failed]; [|discriminate].
    eapply format_literature_raises; eauto. }
  apply bind_raises in H as [H|(o2 & _ & H)];
    [eapply print_all_raises; eauto|].
  apply bind_raises in H as [H|(o3 & _ & H)].
  { destruct analysed; [|discriminate]. apply print_raises in H. eauto. }
  rewrite Hr in H. cbn [Py.bind] in H.
  apply bind_raises in H as [H|(o4 & _ & H)];
    [eapply display_raises; eauto|discriminate].
Qed.

(** A paper without a title among the first six ends the run. *)
Lemma run_no_title (query : string) (found : LiteratureAgent.Found)
    (before : list LiteratureAgent.paper) (p : LiteratureAgent.paper)
    (rest : list LiteratureAgent.paper) :
  (forall text, console text = None) ->
  search query = Py.Return (LiteratureAgent.Success found) ->
  take 6 (LiteratureAgent.papers found) = before ++ p :: rest ->
  Forall printable before ->
  p !! "title" = None ->
  run query = Py.Raise (Py.Exn "KeyError" "'title'").
Proof.
  intros Hc Hfound Htake Hbefore Hp. unfold process_query.
  rewrite Hfound. cbn [Py.bind].
  rewrite (format_literature_no_title console repr_list chars found before
             p rest Hc Htake Hbefore Hp).
  reflexivity.
Qed.

(** On any console such a paper ends the run, by its [KeyError] or sooner
    by what the console raises. *)
Lemma run_untitled (query : string) (found : LiteratureAgent.Found)
    (before : list LiteratureAgent.paper) (p : LiteratureAgent.paper)
    (rest : list LiteratureAgent.paper) :
  search query = Py.Return (LiteratureAgent.Success found) ->
  take 6 (LiteratureAgent.papers found) = before ++ p :: rest ->
  Forall printable before ->
  p !! "title" = None ->
  exists e,
    run query = Py.Raise e
    /\ (e = Py.Exn "KeyError" "'title'"
        \/ exists text, console text = Some e).
Proof.
  intros Hfound Htake Hbefore Hp. unfold process_query.
  rewrite Hfound. cbn [Py.bind].
  destruct (format_literature_untitled console repr_list chars found before
              p rest Htake Hbefore Hp) as (e & -> & He).
  eauto.
Qed.

(** C3, amended.  In a run of the orchestrator whose console prints every
    text and in which the papers shown, the first six found, can be
    printed, a failed stage does not abort the run: the run returns a
    report that carries the result of each stage, a recommendation and a
    review.  When a tool of the Retrieve stage raises, the literature result
    is the error dict and the scorer receives a paper count of 0, as it does
    when both tools return a result that is not a success; when the tool of
    the Analyze stage fails, the analysis result is the error dict and the
    scorer receives a p-value of 1.0 and no arm medians. *)
Theorem failed_stage_absorbed (query : string) :
  (forall text, console text = None) ->
  prints_papers
    (LiteratureAgent.query model_name search_pubmed search_scholar query) ->
  exists out report,
    Supervisor.process_query model_name search_pubmed search_scholar
      perform_survival_analysis format_summary round repr_list chars
      format_percent upper format_rationale console query
    = Py.Return (out, report)
    /\ Py.Return (literature report)
       = LiteratureAgent.query model_name search_pubmed search_scholar query
    /\ analysis report
       = AnalysisAgent.analyze_survival perform_survival_analysis
           format_summary
    /\ recommendation report
       = ClinicalReasoner.generate_recommendation
           (evidence_of (literature report) (analysis report))
    /\ Py.Return (doctor_review report)
       = DoctorAgent.review_recommendation round
           (ai_output_of (evidence_of (literature report) (analysis report))
              (recommendation report))
    /\ (forall exc,
          search_pubmed query 12 2023 = Py.Raise exc
          \/ (exists pubmed_result,
                search_pubmed query 12 2023 = Py.Return pubmed_result
                /\ search_scholar query 6 = Py.Raise exc) ->
          literature report
          = LiteratureAgent.Error
              {| LiteratureAgent.error := Py.exn_str exc;
                 LiteratureAgent.failed_query := query |})
    /\ (LiteratureAgent.status (literature report) <> "success" ->
        ClinicalReasoner.total_papers
          (evidence_of (literature report) (analysis report)) = Some 0)
    /\ (forall pubmed_result scholar_result,
          search_pubmed query 12 2023 = Py.Return pubmed_result ->
          search_scholar query 6 = Py.Return scholar_result ->
          LiteratureAgent.source_status pubmed_result <> Some "success" ->
          LiteratureAgent.source_status scholar_result <> Some "success" ->
          ClinicalReasoner.total_papers
            (evidence_of (literature report) (analysis report)) = Some 0)
    /\ (forall error,
          perform_survival_analysis = AnalysisAgent.ToolError error ->
          analysis report
          = AnalysisAgent.Error (Py.get error "Unknown analysis error"))
    /\ (AnalysisAgent.status (analysis report) <> "success" ->
        ClinicalReasoner.p_value
          (evidence_of (literature report) (analysis report))
        = Some 1.0%float
        /\ ClinicalReasoner.median_pembrolizumab
             (evidence_of (literature report) (analysis report)) = None
        /\ ClinicalReasoner.median_nivolumab
             (evidence_of (literature report) (analysis report)) = None).
Proof.
  intros Hc Hprint.
  destruct (run_returns query Hc Hprint) as (out & report & Hrun & Hst).
  exists out, report. split; [exact Hrun|].
  destruct (stages_returns query) as (lit & r & Hlit & Hr & Hstages).
  rewrite Hstages in Hst. injection Hst as <-.
  cbn [literature analysis recommendation doctor_review].
  repeat apply conj; auto.
  - intros exc Hexc. rewrite (query_tool_raised query exc Hexc) in Hlit.
    now injection Hlit as <-.
  - destruct lit; simpl; [intros H; now elim H|reflexivity].
  - intros pr sr Hp Hs Hpe Hse.
    destruct (query_sources_failed query pr sr Hp Hs Hpe Hse)
      as (found & Hfound & Htotal & _).
    rewrite Hfound in Hlit. injection Hlit as <-. simpl.
    now rewrite Htotal.
  - intros error ->. reflexivity.
  - destruct analysed; simpl; [intros H; now elim H|auto].
Qed.

(** C10.  Scorer and gate as the orchestrator wires them, the gate receiving
    the scorer's confidence and the p-value of the same evidence: for every
    evidence record the review decision is Approve if and only if the grade of
    the recommendation is 1A or 1B.  A recommendation graded 2C is Weak, has
    confidence 0.62, below 0.70, and is Modified.  The same holds of the
    report of every run that returns one. *)
Theorem approve_iff_grade_1A_or_1B (p : float) (n : Z)
    (median_a median_b : option float) :
  let evidence :=
    {| ClinicalReasoner.p_value := Some p;
       ClinicalReasoner.total_papers := Some n;
       ClinicalReasoner.median_pembrolizumab := median_a;
       ClinicalReasoner.median_nivolumab := median_b |} in
  let recommendation := ClinicalReasoner.generate_recommendation evidence in
  (exists r,
     DoctorAgent.review_recommendation round
       (ai_output_of evidence recommendation) = Py.Return r
     /\ (DoctorAgent.doctor_decision r
         = DoctorAgent.decision_text DoctorAgent.Approve
         <-> ClinicalReasoner.grade recommendation = "1A"
             \/ ClinicalReasoner.grade recommendation = "1B")
     /\ (ClinicalReasoner.grade recommendation = "2C" ->
         ClinicalReasoner.strength_of_recommendation recommendation
         = ClinicalReasoner.strength_text ClinicalReasoner.Weak
         /\ ClinicalReasoner.confidence_score recommendation = 0.62%float
         /\ Py.flt 0.62 0.70 = true
         /\ DoctorAgent.doctor_decision r
            = DoctorAgent.decision_text DoctorAgent.Modify))
  /\ (forall query out report,
        Supervisor.process_query model_name search_pubmed search_scholar
          perform_survival_analysis format_summary round repr_list chars
          format_percent upper format_rationale console query
        = Py.Return (out, report) ->
        DoctorAgent.doctor_decision (doctor_review report)
        = DoctorAgent.decision_text DoctorAgent.Approve
        <-> ClinicalReasoner.grade (Supervisor.recommendation report)
            = "1A"
            \/ ClinicalReasoner.grade (Supervisor.recommendation report)
               = "1B").
Proof.
  cbv zeta. split.
  - match goal with
    | |- context [ClinicalReasoner.generate_recommendation ?e] =>
        destruct (gate_after_score e) as (r & Hr & Hiff & Hweak)
    end.
    exists r. split; [exact Hr|]. split; [exact Hiff|].
    intros Hg. destruct (Hweak Hg) as (Hs & Hc & Hd).
    repeat apply conj; auto.
  - intros query out report Hrun. apply run_stages in Hrun.
    destruct (stages_returns query) as (lit & r & _ & Hr & Hstages).
    rewrite Hstages in Hrun. injection Hrun as <-.
    cbn [doctor_review recommendation].
    match type of Hr with
    | context [ClinicalReasoner.generate_recommendation ?e] =>
        destruct (gate_after_score e) as (r' & Hr' & Hiff & _)
    end.
    rewrite Hr in Hr'. injection Hr' as <-. exact Hiff.
Qed.

End Orchestrator.
(** ** The literature search *)

Section Literature.

Import LiteratureAgent.

Variable model_name : string.
Variable search_pubmed : string -> Z -> Z -> Py.result SourceResult.
Variable search_scholar : string -> Z -> Py.result SourceResult.

Local Abbreviation query := (LiteratureAgent.query model_name search_pubmed search_scholar).
Local Abbreviation query_body := (LiteratureAgent.query_body model_name search_pubmed search_scholar).

(** The dict built on the normal path from what the two tools returned. *)
Lemma query_body_returned (user_query : string)
    (pubmed_result scholar_result : SourceResult) :
  search_pubmed user_query 12 2023 = Py.Return pubmed_result ->
  search_scholar user_query 6 = Py.Return scholar_result ->
  query_body user_query = Py.Return (Success (found model_name user_query pubmed_result scholar_result)).
Proof.
  intros Hp Hs. unfold LiteratureAgent.query_body. rewrite Hp; simpl. rewrite Hs; simpl. reflexivity.
Qed.

Lemma query_body_cases (user_query : string) :
  (exists pubmed_result scholar_result,
      search_pubmed user_query 12 2023 = Py.Return pubmed_result
      /\ search_scholar user_query 6 = Py.Return scholar_result
      /\ query_body user_query = Py.Return (Success (found model_name user_query pubmed_result scholar_result)))
  \/ (exists exc,
        (search_pubmed user_query 12 2023 = Py.Raise exc
         \/ (exists pubmed_result, search_pubmed user_query 12 2023 = Py.Return pubmed_result
             /\ search_scholar user_query 6 = Py.Raise exc))
        /\ query_body user_query = Py.Raise exc).
Proof.
  unfold LiteratureAgent.query_body.
  destruct (search_pubmed user_query 12 2023) as [pr|e] eqn:Hp; simpl.
  - destruct (search_scholar user_query 6) as [sr|e] eqn:Hs; simpl.
    + left. exists pr, sr. auto.
    + right. exists e. split; [right; eauto|reflexivity].
  - right. exists e. auto.
Qed.

Lemma query_success_inv (user_query : string) (r : Found) :
  query user_query = Py.Return (Success r) ->
  exists pubmed_result scholar_result,
    search_pubmed user_query 12 2023 = Py.Return pubmed_result
    /\ search_scholar user_query 6 = Py.Return scholar_result
    /\ r = found model_name user_query pubmed_result scholar_result.
Proof.
  unfold LiteratureAgent.query.
  destruct (query_body_cases user_query)
    as [(pr & sr & Hp & Hs & ->)|(exc & _ & ->)]; simpl.
  - intros [= <-]. eauto.
  - discriminate.
Qed.

Lemma len_nonneg {A} (l : list A) : 0 <= len l.
Proof. unfold len. lia. Qed.

Lemma len_zero {A} (l : list A) : len l = 0 -> l = [].
Proof. unfold len. destruct l; [reflexivity|simpl; lia]. Qed.

(** The papers a source contributes, and the tag of a PubMed paper. *)
Lemma papers_of_success (r : SourceResult) :
  source_status r = Some "success" ->
  papers_of r = match source_papers r with Some l => l | None => [] end.
Proof.
  intros H. unfold papers_of.
  destruct (decide (source_status r = Some "success")); [|contradiction].
  destruct (source_papers r); reflexivity.
Qed.

Lemma papers_of_error (r : SourceResult) :
  source_status r <> Some "success" -> papers_of r = [].
Proof.
  intros H. unfold papers_of.
  destruct (decide (source_status r = Some "success")); [contradiction|].
  reflexivity.
Qed.

Lemma tag_pubmed_tagged (p : paper) :
  tag_pubmed p
  = match p !! "source" with
    | Some _ => p
    | None => <["source" := VStr "PubMed"]> p
    end.
Proof.
  unfold tag_pubmed. apply map_eq. intros k.
  rewrite lookup_union.
  destruct (decide (k = "source")) as [->|Hk].
  - rewrite lookup_singleton_eq.
    destruct (p !! "source") as [v|] eqn:E.
    + rewrite E. reflexivity.
    + rewrite lookup_insert_eq. reflexivity.
  - rewrite lookup_singleton_ne by congruence.
    destruct (p !! "source") as [v|] eqn:E.
    + destruct (p !! k); reflexivity.
    + rewrite lookup_insert_ne by congruence.
      destruct (p !! k); reflexivity.
Qed.

Lemma map_tag_pubmed (l : list paper) :
  map tag_pubmed l
  = map (fun p : paper =>
           match p !! "source" with
           | Some _ => p
           | None => <["source" := VStr "PubMed"]> p
           end) l.
Proof. apply map_ext. intros p. apply tag_pubmed_tagged. Qed.

(** The result of a search whose two tools returned, from the papers each
    source contributes. *)
Lemma found_fields (user_query : string)
    (pubmed_result scholar_result : SourceResult) :
  let r := found model_name user_query pubmed_result scholar_result in
  let pubmed_papers := papers_of pubmed_result in
  let scholar_papers := papers_of scholar_result in
  let tagged := map (fun p : paper =>
                       match p !! "source" with
                       | Some _ => p
                       | None => <["source" := VStr "PubMed"]> p
                       end) pubmed_papers in
  papers r = take 20 (tagged ++ scholar_papers)
  /\ pubmed_count r = Z.of_nat (length pubmed_papers)
  /\ scholar_count r = Z.of_nat (length scholar_papers)
  /\ total_found r = pubmed_count r + scholar_count r
  /\ Z.of_nat (length (papers r))
     = Z.min 20 (pubmed_count r + scholar_count r)
  /\ (pubmed_count r <= 20 ->
      take (Z.to_nat (pubmed_count r)) (papers r) = tagged
      /\ drop (Z.to_nat (pubmed_count r)) (papers r)
         = take (Z.to_nat (20 - pubmed_count r)) scholar_papers).
Proof.
  cbv zeta. unfold found; cbn [papers pubmed_count scholar_count total_found].
  rewrite map_tag_pubmed.
  set (pp := papers_of pubmed_result). set (sp := papers_of scholar_result).
  set (tagged := map _ pp).
  assert (Hlen : length tagged = length pp) by apply length_map.
  unfold len. repeat apply conj; try reflexivity.
  - rewrite length_app, Hlen. lia.
  - rewrite length_take, length_app, Hlen. lia.
  - intros Hcap. rewrite Nat2Z.id, <- Hlen. split.
    + rewrite take_take, Nat.min_l by (rewrite Hlen; lia).
      apply take_app_length.
    + replace 20%nat with (length tagged + (20 - length tagged))%nat
        at 1 by (rewrite Hlen; lia).
      rewrite <- take_drop_commute, drop_app_length.
      f_equal. rewrite Hlen. lia.
Qed.

(** C4.  For every successful literature search both tools returned.  Each
    source contributes the papers of its result when the status of the
    result is success, and none otherwise; each PubMed paper is tagged with
    its source, all its other fields staying as the tool returned them.  The
    returned list is the first 20 of the tagged PubMed papers, in their
    order, followed by the Scholar papers, in theirs; its length is
    min(20, pubmed_count + scholar_count); when the PubMed papers fit under
    the cap its first pubmed_count entries are exactly those papers and the
    rest are Scholar papers; pubmed_count and scholar_count are the numbers
    of papers of each source before truncation, and total_found is their
    sum. *)
Theorem papers_merged_then_capped (user_query : string) (r : Found) :
  LiteratureAgent.query model_name search_pubmed search_scholar user_query
  = Py.Return (Success r) ->
  exists pubmed_result scholar_result pubmed_papers scholar_papers,
    search_pubmed user_query 12 2023 = Py.Return pubmed_result
    /\ search_scholar user_query 6 = Py.Return scholar_result
    /\ (source_status pubmed_result = Some "success" ->
        pubmed_papers
        = match source_papers pubmed_result with Some l => l | None => [] end)
    /\ (source_status pubmed_result <> Some "success" -> pubmed_papers = [])
    /\ (source_status scholar_result = Some "success" ->
        scholar_papers
        = match source_papers scholar_result with
          | Some l => l
          | None => []
          end)
    /\ (source_status scholar_result <> Some "success" ->
        scholar_papers = [])
    /\ Z.of_nat (length (papers r))
       = Z.min 20 (pubmed_count r + scholar_count r)
    /\ papers r
       = take 20
           (map (fun p : paper =>
                   match p !! "source" with
                   | Some _ => p
                   | None => <["source" := VStr "PubMed"]> p
                   end) pubmed_papers
            ++ scholar_papers)
    /\ (pubmed_count r <= 20 ->
        take (Z.to_nat (pubmed_count r)) (papers r)
        = map (fun p : paper =>
                 match p !! "source" with
                 | Some _ => p
                 | None => <["source" := VStr "PubMed"]> p
                 end) pubmed_papers
        /\ drop (Z.to_nat (pubmed_count r)) (papers r)
           = take (Z.to_nat (20 - pubmed_count r)) scholar_papers)
    /\ (forall (i : nat) (p : paper),
          pubmed_papers !! i = Some p -> (i < 20)%nat ->
          exists entry,
            papers r !! i = Some entry
            /\ is_Some (entry !! "source")
            /\ (p !! "source" = None ->
                entry !! "source" = Some (VStr "PubMed"))
            /\ forall key value,
                 p !! key = Some value -> entry !! key = Some value)
    /\ pubmed_count r = Z.of_nat (length pubmed_papers)
    /\ scholar_count r = Z.of_nat (length scholar_papers)
    /\ total_found r = pubmed_count r + scholar_count r.
Proof.
  intros H. destruct (query_success_inv _ _ H) as (pr & sr & Hp & Hs & ->).
  exists pr, sr, (papers_of pr), (papers_of sr).
  destruct (found_fields user_query pr sr)
    as (Hpapers & Hpc & Hsc & Htotal & Hlen & Hprefix).
  split; [exact Hp|]. split; [exact Hs|].
  split; [apply papers_of_success|]. split; [apply papers_of_error|].
  split; [apply papers_of_success|]. split; [apply papers_of_error|].
  split; [exact Hlen|]. split; [exact Hpapers|]. split; [exact Hprefix|].
  split; [|auto].
  intros i p Hi Hcap. rewrite Hpapers.
  rewrite lookup_take_lt by exact Hcap.
  rewrite lookup_app_l
    by (rewrite length_map; eapply lookup_lt_Some; eauto).
  rewrite list_lookup_fmap, Hi. cbn [fmap option_fmap option_map].
  eexists. split; [reflexivity|].
  destruct (p !! "source") as [v|] eqn:E.
  - split; [rewrite E; eauto|]. split; [discriminate|auto].
  - split; [rewrite lookup_insert_eq; eauto|].
    split; [intros _; apply lookup_insert_eq|].
    intros key value Hk. rewrite lookup_insert_ne; [exact Hk|].
    intros <-. congruence.
Qed.

(** C5.  When both tools return, the search succeeds whatever their statuses.
    A source whose status is not success contributes no paper, and the
    papers that the other source returned are kept: they are the papers of
    the result, up to the cap of 20 and the PubMed papers tagged, and their
    number is the total.  When neither status is success the result has no
    paper.  The search reports status error exactly when an exception
    escapes from a tool inside the aggregation, and the error dict then
    carries the message of that exception and the original query, and no
    papers. *)
Theorem source_errors_fail_closed (user_query : string) :
  (forall pubmed_result scholar_result,
     search_pubmed user_query 12 2023 = Py.Return pubmed_result ->
     search_scholar user_query 6 = Py.Return scholar_result ->
     exists r,
       LiteratureAgent.query model_name search_pubmed search_scholar
         user_query
       = Py.Return (Success r)
       /\ status (Success r) = "success"
       /\ (source_status pubmed_result <> Some "success" ->
           source_status scholar_result = Some "success" ->
           pubmed_count r = 0
           /\ papers r
              = take 20
                  (match source_papers scholar_result with
                   | Some l => l
                   | None => []
                   end)
           /\ scholar_count r
              = Z.of_nat
                  (length
                     (match source_papers scholar_result with
                      | Some l => l
                      | None => []
                      end))
           /\ total_found r = scholar_count r)
       /\ (source_status scholar_result <> Some "success" ->
           source_status pubmed_result = Some "success" ->
           scholar_count r = 0
           /\ papers r
              = take 20
                  (map (fun p : paper =>
                          match p !! "source" with
                          | Some _ => p
                          | None => <["source" := VStr "PubMed"]> p
                          end)
                     (match source_papers pubmed_result with
                      | Some l => l
                      | None => []
                      end))
           /\ pubmed_count r
              = Z.of_nat
                  (length
                     (match source_papers pubmed_result with
                      | Some l => l
                      | None => []
                      end))
           /\ total_found r = pubmed_count r)
       /\ (source_status pubmed_result <> Some "success" ->
           source_status scholar_result <> Some "success" ->
           papers r = [] /\ pubmed_count r = 0 /\ scholar_count r = 0
           /\ total_found r = 0))
  /\ (forall f,
        LiteratureAgent.query model_name search_pubmed search_scholar
          user_query
        = Py.Return (Error f) <->
        exists exc,
          (search_pubmed user_query 12 2023 = Py.Raise exc
           \/ (exists pubmed_result,
                 search_pubmed user_query 12 2023 = Py.Return pubmed_result
                 /\ search_scholar user_query 6 = Py.Raise exc))
          /\ f = {| error := Py.exn_str exc; failed_query := user_query |})
  /\ (forall f,
        LiteratureAgent.query model_name search_pubmed search_scholar
          user_query
        = Py.Return (Error f) ->
        status (Error f) = "error"
        /\ failed_query f = user_query
        /\ get_papers (Error f) = None
        /\ get_total_found (Error f) = None).
Proof.
  repeat apply conj.
  - intros pr sr Hp Hs. eexists. split.
    + unfold LiteratureAgent.query.
      rewrite (query_body_returned _ _ _ Hp Hs). reflexivity.
    + split; [reflexivity|].
      destruct (found_fields user_query pr sr)
        as (Hpapers & Hpc & Hsc & Htotal & _ & _).
      rewrite Hpapers, Htotal, Hpc, Hsc.
      repeat apply conj.
      * intros Hpe Hss.
        rewrite (papers_of_error pr Hpe), (papers_of_success sr Hss).
        repeat apply conj; reflexivity.
      * intros Hse Hps.
        rewrite (papers_of_error sr Hse), (papers_of_success pr Hps).
        rewrite app_nil_r. repeat apply conj; try reflexivity.
        simpl. lia.
      * intros Hpe Hse.
        rewrite (papers_of_error pr Hpe), (papers_of_error sr Hse).
        repeat apply conj; reflexivity.
  - intros f. unfold LiteratureAgent.query.
    destruct (query_body_cases user_query)
      as [(pr & sr & Hp & Hs & ->)|(exc & Hcause & ->)]; simpl.
    + split; [discriminate|].
      intros (e & [H|(pr' & H1 & H2)] & _); congruence.
    + split.
      * intros [= <-]. eauto.
      * intros (e & Hcause' & ->).
        assert (e = exc) as ->; [|reflexivity].
        destruct Hcause as [H|(pr' & H1 & H2)],
          Hcause' as [H'|(pr'' & H1' & H2')]; congruence.
  - intros f. unfold LiteratureAgent.query.
    destruct (query_body_cases user_query)
      as [(pr & sr & _ & _ & ->)|(exc & _ & ->)]; simpl.
    + discriminate.
    + intros [= <-]. auto.
Qed.

Lemma append_assoc (s1 s2 s3 : string) :
  (s1 +:+ s2) +:+ s3 = s1 +:+ s2 +:+ s3.
Proof.
  induction s1 as [|c s1 IH]; [reflexivity|].
  change (String c ((s1 +:+ s2) +:+ s3) = String c (s1 +:+ s2 +:+ s3)).
  now f_equal.
Qed.

(** The summary for counts that are lengths. *)
Lemma summary_cases (pc sc : Z) :
  0 <= pc -> 0 <= sc ->
  (pc = 0 /\ sc = 0 /\ _generate_summary pc sc = no_results)
  \/ (0 < pc /\ sc = 0
      /\ _generate_summary pc sc
         = "Retrieved " +:+ (pretty pc +:+ " publications from PubMed")
           +:+ summary_tail)
  \/ (pc = 0 /\ 0 < sc
      /\ _generate_summary pc sc
         = "Retrieved " +:+ (pretty sc +:+ " from Google Scholar")
           +:+ summary_tail)
  \/ (0 < pc /\ 0 < sc
      /\ _generate_summary pc sc
         = "Retrieved " +:+ (pretty pc +:+ " publications from PubMed")
           +:+ " and " +:+ (pretty sc +:+ " from Google Scholar")
           +:+ summary_tail).
Proof.
  intros Hp Hs. unfold _generate_summary.
  destruct (Z.ltb_spec 0 pc), (Z.ltb_spec 0 sc); simpl.
  - right; right; right. repeat apply conj; auto.
    now rewrite !append_assoc.
  - right; left. repeat apply conj; auto; lia.
  - right; right; left. repeat apply conj; auto; lia.
  - left. repeat apply conj; auto; lia.
Qed.

(** C9.  In the result of every successful search the summary text is the
    fixed no-results message exactly when both source counts are zero, and
    total_found is then 0; otherwise the summary lists the count of each
    source that is not zero, the two joined by the word and when neither is
    zero. *)
Theorem summary_by_counts (user_query : string) (r : Found) :
  query user_query = Py.Return (Success r) ->
  analysis r = _generate_summary (pubmed_count r) (scholar_count r)
  /\ 0 <= pubmed_count r /\ 0 <= scholar_count r
  /\ (analysis r = no_results <-> pubmed_count r = 0 /\ scholar_count r = 0)
  /\ (pubmed_count r = 0 /\ scholar_count r = 0 -> total_found r = 0)
  /\ (0 < pubmed_count r -> scholar_count r = 0 ->
      analysis r
      = "Retrieved " +:+ pretty (pubmed_count r)
        +:+ " publications from PubMed" +:+ summary_tail)
  /\ (pubmed_count r = 0 -> 0 < scholar_count r ->
      analysis r
      = "Retrieved " +:+ pretty (scholar_count r)
        +:+ " from Google Scholar" +:+ summary_tail)
  /\ (0 < pubmed_count r -> 0 < scholar_count r ->
      analysis r
      = "Retrieved " +:+ pretty (pubmed_count r)
        +:+ " publications from PubMed" +:+ " and "
        +:+ pretty (scholar_count r) +:+ " from Google Scholar"
        +:+ summary_tail).
Proof.
  intros H. destruct (query_success_inv _ _ H) as (pr & sr & _ & _ & ->).
  unfold found; cbn [analysis pubmed_count scholar_count total_found].
  set (pc := len (papers_of pr)). set (sc := len (papers_of sr)).
  assert (Hp : 0 <= pc) by apply len_nonneg.
  assert (Hs : 0 <= sc) by apply len_nonneg.
  assert (Htotal : len (map tag_pubmed (papers_of pr) ++ papers_of sr)
                   = pc + sc).
  { unfold pc, sc, len. rewrite length_app, length_map. lia. }
  rewrite Htotal.
  split; [reflexivity|]. split; [exact Hp|]. split; [exact Hs|].
  destruct (summary_cases pc sc Hp Hs)
    as [(Hp0 & Hs0 & E)|[(Hp0 & Hs0 & E)|[(Hp0 & Hs0 & E)|(Hp0 & Hs0 & E)]]];
    rewrite E.
  all: repeat apply conj; try (intros; lia); try (intros; reflexivity).
  all: try (intros; rewrite ?append_assoc; reflexivity).
  all: try (intros Hbad; discriminate Hbad).
Qed.

End Literature.

(** ** The persistence service *)

Section Persistence.

Import MemoryService.

Variable json_dumps : json -> Py.result string.
Variable json_loads : string -> Py.result json.
Variable isoformat : datetime -> string.

(** The key of a new row is not a key of the table. *)
Lemma max_id_bound (rows : list ResearchMemory) (r : ResearchMemory) (i : Z) :
  r ∈ rows -> id r = Some i -> i <= max_id rows.
Proof.
  induction 1 as [r rows|r r' rows _ IH]; simpl; intros Hi.
  - rewrite Hi; simpl. lia.
  - specialize (IH Hi). lia.
Qed.

Lemma new_id_fresh (rows : list ResearchMemory) (r : ResearchMemory) :
  r ∈ rows -> id r <> Some (max_id rows + 1).
Proof.
  intros Hin Hid. pose proof (max_id_bound _ _ _ Hin Hid). lia.
Qed.

Lemma new_id_fresh_all (rows : list ResearchMemory) :
  Forall (fun r => id r <> Some (max_id rows + 1)) rows.
Proof. apply Forall_forall. intros r. apply new_id_fresh. Qed.

(** The three ways a write ends: the row is committed and its id read; the
    commit fails; the commit goes through and the read of the id fails. *)
Lemma write_committed (entry : ResearchMemory)
    (rows : list ResearchMemory) :
  write None None entry (idle rows)
  = (Py.Return (Some (max_id rows + 1)),
     idle (rows ++ [with_id (max_id rows + 1) entry])).
Proof.
  unfold write, try_except, bind, add, commit, entry_id, idle; simpl.
  unfold insert_row. rewrite last_snoc. reflexivity.
Qed.

Lemma write_failed (e : Py.exn) (refresh_fault : option Py.exn)
    (entry : ResearchMemory) (rows : list ResearchMemory) :
  write (Some e) refresh_fault entry (idle rows) = (Py.Raise e, idle rows).
Proof. reflexivity. Qed.

Lemma write_unread (e : Py.exn) (entry : ResearchMemory)
    (rows : list ResearchMemory) :
  write None (Some e) entry (idle rows)
  = (Py.Raise e, idle (rows ++ [with_id (max_id rows + 1) entry])).
Proof. reflexivity. Qed.

Lemma save_research_unfold commit_fault refresh_fault now sid query
    cancer_type findings s :
  save_research json_dumps commit_fault refresh_fault now sid query
    cancer_type findings s
  = match json_dumps findings with
    | Py.Return text =>
        write commit_fault refresh_fault
          (research_entry now sid query cancer_type text) s
    | Py.Raise e => (Py.Raise e, {| table := table s; pending := [] |})
    end.
Proof.
  unfold save_research, write, try_except, bind, lift.
  destruct (json_dumps findings); reflexivity.
Qed.

Lemma save_doctor_review_unfold commit_fault refresh_fault now_record
    now_entry sid decision doctor_name comment s :
  save_doctor_review json_dumps isoformat commit_fault refresh_fault
    now_record now_entry sid decision doctor_name comment s
  = match json_dumps
            (review_record isoformat now_record decision doctor_name comment)
    with
    | Py.Return text =>
        write commit_fault refresh_fault (review_entry now_entry sid text) s
    | Py.Raise e => (Py.Raise e, {| table := table s; pending := [] |})
    end.
Proof.
  unfold save_doctor_review, write, try_except, bind, lift, review_record.
  destruct (json_dumps _); reflexivity.
Qed.

(** C7, amended.  A write of the persistence service, [save_research] or
    [save_doctor_review], that cannot be serialised or cannot be committed
    is rolled back, leaving what is stored as it was, and raises the error
    again to its caller.  A write whose commit goes through appends one new
    row under a key no stored row has, the rows that were stored staying as
    they were; it then returns that key, unless the read of the key fails:
    that error is raised again to the caller as well, but the row stays
    stored, the rollback having nothing left to undo. *)
Theorem write_rolls_back_or_appends (rows : list ResearchMemory)
    (now now_record now_entry : datetime)
    (sid query cancer_type decision doctor_name comment : string)
    (findings : json) :
  (forall e refresh_fault text,
     json_dumps findings = Py.Return text ->
     save_research json_dumps (Some e) refresh_fault now sid query
       cancer_type findings (idle rows)
     = (Py.Raise e, idle rows))
  /\ (forall commit_fault refresh_fault e,
        json_dumps findings = Py.Raise e ->
        save_research json_dumps commit_fault refresh_fault now sid query
          cancer_type findings (idle rows)
        = (Py.Raise e, idle rows))
  /\ (forall text,
        json_dumps findings = Py.Return text ->
        exists i,
          Forall (fun r => id r <> Some i) rows
          /\ save_research json_dumps None None now sid query cancer_type
               findings (idle rows)
             = (Py.Return (Some i),
                idle (rows ++ [with_id i
                                 (research_entry now sid query cancer_type
                                    text)]))
          /\ forall e,
               save_research json_dumps None (Some e) now sid query
                 cancer_type findings (idle rows)
               = (Py.Raise e,
                  idle (rows ++ [with_id i
                                   (research_entry now sid query
                                      cancer_type text)])))
  /\ (forall e refresh_fault text,
        json_dumps
          (review_record isoformat now_record decision doctor_name comment)
        = Py.Return text ->
        save_doctor_review json_dumps isoformat (Some e) refresh_fault
          now_record now_entry sid decision doctor_name comment (idle rows)
        = (Py.Raise e, idle rows))
  /\ (forall commit_fault refresh_fault e,
        json_dumps
          (review_record isoformat now_record decision doctor_name comment)
        = Py.Raise e ->
        save_doctor_review json_dumps isoformat commit_fault refresh_fault
          now_record now_entry sid decision doctor_name comment (idle rows)
        = (Py.Raise e, idle rows))
  /\ (forall text,
        json_dumps
          (review_record isoformat now_record decision doctor_name comment)
        = Py.Return text ->
        exists i,
          Forall (fun r => id r <> Some i) rows
          /\ save_doctor_review json_dumps isoformat None None now_record
               now_entry sid decision doctor_name comment (idle rows)
             = (Py.Return (Some i),
                idle (rows ++ [with_id i (review_entry now_entry sid text)]))
          /\ forall e,
               save_doctor_review json_dumps isoformat None (Some e)
                 now_record now_entry sid decision doctor_name comment
                 (idle rows)
               = (Py.Raise e,
                  idle (rows
                        ++ [with_id i (review_entry now_entry sid text)]))).
Proof.
  repeat apply conj.
  - intros e refresh text H. rewrite save_research_unfold, H.
    apply write_failed.
  - intros fault refresh e H. rewrite save_research_unfold, H. reflexivity.
  - intros text H. exists (max_id rows + 1).
    split; [apply new_id_fresh_all|]. split.
    + rewrite save_research_unfold, H. apply write_committed.
    + intros e. rewrite save_research_unfold, H. apply write_unread.
  - intros e refresh text H. rewrite save_doctor_review_unfold, H.
    apply write_failed.
  - intros fault refresh e H. rewrite save_doctor_review_unfold, H.
    reflexivity.
  - intros text H. exists (max_id rows + 1).
    split; [apply new_id_fresh_all|]. split.
    + rewrite save_doctor_review_unfold, H. apply write_committed.
    + intros e. rewrite save_doctor_review_unfold, H. apply write_unread.
Qed.

(** Reading back a session id that only the last row carries. *)
Lemma first_by_session_id_last (rows : list ResearchMemory)
    (r : ResearchMemory) :
  Forall (fun old => session_id old <> session_id r) rows ->
  first_by_session_id (session_id r) (idle (rows ++ [r])) = Some r.
Proof.
  unfold first_by_session_id, idle; simpl. intros Hfresh.
  rewrite filter_app.
  replace (filter (fun x => session_id x = session_id r) rows)
    with (@nil ResearchMemory).
  - simpl. rewrite filter_cons_True by reflexivity. reflexivity.
  - symmetry. induction Hfresh as [|old rows Hold _ IH]; [reflexivity|].
    rewrite filter_cons_False by exact Hold. exact IH.
Qed.

(** A payload saved under a fresh identifier and read back, for a codec
    that reads the payload back from the text it wrote. *)
Lemma saved_then_read (rows : list ResearchMemory) (now : datetime)
    (sid query cancer_type : string) (findings : json) (text : string) :
  json_dumps findings = Py.Return text ->
  text <> "" ->
  json_loads text = Py.Return findings ->
  Forall (fun old => session_id old <> sid) rows ->
  exists i s view,
    save_research json_dumps None None now sid query cancer_type findings
      (idle rows)
    = (Py.Return (Some i), s)
    /\ get_session json_loads sid s = (Py.Return (Some view), s)
    /\ view_findings view = findings
    /\ view_id view = Some i
    /\ view_query view = query
    /\ view_cancer_type view = cancer_type
    /\ view_timestamp view = now.
Proof.
  intros Hdumps Hne Hloads Hfresh.
  set (row := with_id (max_id rows + 1)
                (research_entry now sid query cancer_type text)).
  exists (max_id rows + 1), (idle (rows ++ [row])).
  eexists. split.
  - rewrite save_research_unfold, Hdumps. apply write_committed.
  - unfold get_session.
    pose proof (first_by_session_id_last rows row Hfresh) as Hfirst.
    change (session_id row) with sid in Hfirst. rewrite Hfirst.
    cbn [row with_id research_entry MemoryService.findings truthy Py.get].
    destruct (String.eqb_spec text "") as [E|_]; [contradiction|].
    cbn [negb]. rewrite Hloads. simpl.
    repeat apply conj; reflexivity.
Qed.

End Persistence.

Section RoundTrip.

Import MemoryService.

(** [repr] of a float, [float] of a text, and the exception of the
    decoder. *)
Variable float_repr : float -> string.
Variable float_of_text : string -> float.
Variable decode_error : string -> Py.exn.

(** C8, amended.  Persistence round trip: for every structured findings
    payload, saving a session record with [save_research] under a session
    identifier that no stored row carries yet, and then reading it back by
    the same identifier with [get_session], returns a findings value equal
    to the payload that was passed: [json.loads] after [json.dumps] is the
    identity on the payload.  The payload is a Python value, so a dict holds
    each of its keys once and [float] reads a float back from its [repr]. *)
Theorem findings_round_trip (rows : list ResearchMemory) (now : datetime)
    (sid query cancer_type : string) (findings : json) :
  Json.python_value float_repr float_of_text findings ->
  Forall (fun old => session_id old <> sid) rows ->
  exists i s view,
    save_research (Json.dumps float_repr) None None now sid query
      cancer_type findings (idle rows)
    = (Py.Return (Some i), s)
    /\ get_session (Json.loads float_of_text decode_error) sid s
       = (Py.Return (Some view), s)
    /\ view_findings view = findings
    /\ view_id view = Some i
    /\ view_query view = query
    /\ view_cancer_type view = cancer_type
    /\ view_timestamp view = now.
Proof.
  intros Hvalue Hfresh.
  destruct (JsonFacts.loads_dumps float_repr float_of_text decode_error
              findings Hvalue) as (text & Hdumps & Hne & Hloads).
  exact (saved_then_read _ _ rows now sid query cancer_type findings text
           Hdumps Hne Hloads Hfresh).
Qed.

End RoundTrip.
(** ** The statements at concrete inputs *)

(** A run whose PubMed tool raises and whose analysis tool fails, on a
    console that prints every text. *)
Lemma failed_stage_absorbed_witness :
  (forall text, Examples.console_utf8 text = None)
  /\ prints_papers
       (LiteratureAgent.query "gemini-2.5-flash" Examples.pubmed_raises
          Examples.scholar_blocked "pembrolizumab melanoma")
  /\ exists out report,
       Examples.run Examples.pubmed_raises Examples.scholar_blocked
         Examples.analysis_failed Examples.console_utf8
         "pembrolizumab melanoma"
       = Py.Return (out, report)
       /\ Supervisor.literature report
          = LiteratureAgent.Error
              {| LiteratureAgent.error := "connection refused";
                 LiteratureAgent.failed_query := "pembrolizumab melanoma" |}
       /\ Supervisor.analysis report = AnalysisAgent.Error "no display"
       /\ ClinicalReasoner.total_papers
            (Supervisor.evidence_of (Supervisor.literature report)
               (Supervisor.analysis report)) = Some 0
       /\ ClinicalReasoner.p_value
            (Supervisor.evidence_of (Supervisor.literature report)
               (Supervisor.analysis report)) = Some 1.0%float
       /\ Supervisor.recommendation report
          = ClinicalReasoner.generate_recommendation
              (Supervisor.evidence_of (Supervisor.literature report)
                 (Supervisor.analysis report)).
Proof.
  assert (Hc : forall text, Examples.console_utf8 text = None)
    by reflexivity.
  assert (Hp : prints_papers
                 (LiteratureAgent.query "gemini-2.5-flash"
                    Examples.pubmed_raises Examples.scholar_blocked
                    "pembrolizumab melanoma")) by exact I.
  split; [exact Hc|]. split; [exact Hp|].
  destruct (failed_stage_absorbed "gemini-2.5-flash" Examples.pubmed_raises
              Examples.scholar_blocked Examples.analysis_failed
              Examples.summary_stub Examples.round_id Examples.repr_list
              Examples.chars Examples.format_percent Examples.upper
              Examples.rationale_stub Examples.console_utf8
              "pembrolizumab melanoma" Hc Hp)
    as (out & report & Hrun & _ & _ & Hrec & _ & Hlit & Hcount & _ & Hana
        & Hp_value).
  exists out, report. split; [exact Hrun|].
  pose proof (Hlit (Py.Exn "ConnectionError" "connection refused")
                (or_introl eq_refl)) as Hl.
  pose proof (Hana (Some "no display") eq_refl) as Ha.
  split; [exact Hl|]. split; [exact Ha|].
  split; [apply Hcount; rewrite Hl; discriminate|].
  split; [apply Hp_value; rewrite Ha; discriminate|exact Hrec].
Defined.

(** C3 as stated fails: a run does not always continue through Score and
    Review.  With the Retrieve and the Analyze stage both failed, the run is
    aborted by the first banner it prints when the console cannot encode
    the bar; and a run whose search found a paper without a title, or a
    PubMed paper whose authors are [None], is aborted by the [KeyError] or
    the [TypeError] of the console output before the Analyze stage. *)
Lemma run_aborted_by_console_output :
  LiteratureAgent.query "gemini-2.5-flash" Examples.pubmed_raises
    Examples.scholar_blocked "pembrolizumab melanoma"
  = Py.Return
      (LiteratureAgent.Error
         {| LiteratureAgent.error := "connection refused";
            LiteratureAgent.failed_query := "pembrolizumab melanoma" |})
  /\ AnalysisAgent.analyze_survival Examples.analysis_failed
       Examples.summary_stub
     = AnalysisAgent.Error "no display"
  /\ Examples.console_ascii (Supervisor.nl +:+ Supervisor.double_bar)
     = Some Examples.cannot_encode
  /\ Supervisor.process_query "gemini-2.5-flash" Examples.pubmed_raises
       Examples.scholar_blocked Examples.analysis_failed
       Examples.summary_stub Examples.round_id Examples.repr_list
       Examples.chars Examples.format_percent Examples.upper
       Examples.rationale_stub Examples.console_ascii
       "pembrolizumab melanoma"
     = Py.Raise Examples.cannot_encode
  /\ Supervisor.process_query "gemini-2.5-flash" Examples.pubmed_one
       Examples.scholar_untitled Examples.analysis_failed
       Examples.summary_stub Examples.round_id Examples.repr_list
       Examples.chars Examples.format_percent Examples.upper
       Examples.rationale_stub Examples.console_utf8
       "pembrolizumab melanoma"
     = Py.Raise (Py.Exn "KeyError" "'title'")
  /\ Supervisor.process_query "gemini-2.5-flash" Examples.pubmed_no_authors
       Examples.scholar_one Examples.analysis_failed
       Examples.summary_stub Examples.round_id Examples.repr_list
       Examples.chars Examples.format_percent Examples.upper
       Examples.rationale_stub Examples.console_utf8
       "pembrolizumab melanoma"
     = Py.Raise
         (Py.Exn "TypeError" "'NoneType' object is not subscriptable").
Proof. repeat apply conj; vm_compute; reflexivity. Qed.

(** A search whose two tools return one paper each. *)
Lemma papers_merged_then_capped_witness :
  LiteratureAgent.query "gemini-2.5-flash" Examples.pubmed_one
    Examples.scholar_one "pembrolizumab melanoma"
  = Py.Return (LiteratureAgent.Success Examples.found_two)
  /\ LiteratureAgent.papers Examples.found_two
     = [ <["source" := LiteratureAgent.VStr "PubMed"]> Examples.paper_a;
         Examples.paper_b ]
  /\ take 1 (LiteratureAgent.papers Examples.found_two)
     = [ <["source" := LiteratureAgent.VStr "PubMed"]> Examples.paper_a ]
  /\ LiteratureAgent.pubmed_count Examples.found_two = 1
  /\ LiteratureAgent.scholar_count Examples.found_two = 1
  /\ LiteratureAgent.total_found Examples.found_two = 2.
Proof.
  assert (Hq : LiteratureAgent.query "gemini-2.5-flash" Examples.pubmed_one
                 Examples.scholar_one "pembrolizumab melanoma"
               = Py.Return (LiteratureAgent.Success Examples.found_two))
    by reflexivity.
  split; [exact Hq|].
  destruct (papers_merged_then_capped "gemini-2.5-flash" Examples.pubmed_one
              Examples.scholar_one "pembrolizumab melanoma"
              Examples.found_two Hq)
    as (pr & sr & pp & sp & Hp & Hs & Hpp & _ & Hsp & _ & _ & Hpapers
        & Hprefix & _ & Hpc & Hsc & Htotal).
  injection Hp as <-. injection Hs as <-.
  specialize (Hpp eq_refl). specialize (Hsp eq_refl).
  cbn [LiteratureAgent.source_papers] in Hpp, Hsp. subst pp sp.
  split; [exact Hpapers|].
  split; [|rewrite Htotal, Hpc, Hsc; repeat split; reflexivity].
  rewrite Hpc in Hprefix. exact (proj1 (Hprefix ltac:(simpl; lia))).
Defined.

(** A search whose Scholar tool reports an error: the PubMed paper is kept
    and the search succeeds. *)
Lemma source_errors_fail_closed_witness :
  exists r,
    LiteratureAgent.query "gemini-2.5-flash" Examples.pubmed_one
      Examples.scholar_blocked "pembrolizumab melanoma"
    = Py.Return (LiteratureAgent.Success r)
    /\ LiteratureAgent.scholar_count r = 0
    /\ LiteratureAgent.papers r
       = [ <["source" := LiteratureAgent.VStr "PubMed"]> Examples.paper_a ]
    /\ LiteratureAgent.pubmed_count r = 1
    /\ LiteratureAgent.total_found r = LiteratureAgent.pubmed_count r.
Proof.
  destruct (proj1 (source_errors_fail_closed "gemini-2.5-flash"
                     Examples.pubmed_one Examples.scholar_blocked
                     "pembrolizumab melanoma")
              _ _ eq_refl eq_refl)
    as (r & Hq & _ & _ & Hkept & _).
  exists r. split; [exact Hq|].
  apply Hkept; [discriminate|reflexivity].
Defined.

Lemma summary_by_counts_witness :
  LiteratureAgent.query "gemini-2.5-flash" Examples.pubmed_one
    Examples.scholar_one "pembrolizumab melanoma"
  = Py.Return (LiteratureAgent.Success Examples.found_two)
  /\ LiteratureAgent.analysis Examples.found_two
     = LiteratureAgent._generate_summary
         (LiteratureAgent.pubmed_count Examples.found_two)
         (LiteratureAgent.scholar_count Examples.found_two)
  /\ 0 <= LiteratureAgent.pubmed_count Examples.found_two
  /\ 0 <= LiteratureAgent.scholar_count Examples.found_two
  /\ (LiteratureAgent.analysis Examples.found_two
      = LiteratureAgent.no_results
      <-> LiteratureAgent.pubmed_count Examples.found_two = 0
          /\ LiteratureAgent.scholar_count Examples.found_two = 0)
  /\ (LiteratureAgent.pubmed_count Examples.found_two = 0
      /\ LiteratureAgent.scholar_count Examples.found_two = 0 ->
      LiteratureAgent.total_found Examples.found_two = 0)
  /\ (0 < LiteratureAgent.pubmed_count Examples.found_two ->
      LiteratureAgent.scholar_count Examples.found_two = 0 ->
      LiteratureAgent.analysis Examples.found_two
      = "Retrieved "
        +:+ pretty (LiteratureAgent.pubmed_count Examples.found_two)
        +:+ " publications from PubMed" +:+ LiteratureAgent.summary_tail)
  /\ (LiteratureAgent.pubmed_count Examples.found_two = 0 ->
      0 < LiteratureAgent.scholar_count Examples.found_two ->
      LiteratureAgent.analysis Examples.found_two
      = "Retrieved "
        +:+ pretty (LiteratureAgent.scholar_count Examples.found_two)
        +:+ " from Google Scholar" +:+ LiteratureAgent.summary_tail)
  /\ (0 < LiteratureAgent.pubmed_count Examples.found_two ->
      0 < LiteratureAgent.scholar_count Examples.found_two ->
      LiteratureAgent.analysis Examples.found_two
      = "Retrieved "
        +:+ pretty (LiteratureAgent.pubmed_count Examples.found_two)
        +:+ " publications from PubMed" +:+ " and "
        +:+ pretty (LiteratureAgent.scholar_count Examples.found_two)
        +:+ " from Google Scholar" +:+ LiteratureAgent.summary_tail).
Proof.
  split; [reflexivity|].
  apply (summary_by_counts "gemini-2.5-flash" Examples.pubmed_one
           Examples.scholar_one "pembrolizumab melanoma" Examples.found_two).
  reflexivity.
Defined.

(** A write after a stored row: the codec of [Json] writes the payload,
    the row is appended under a new key, and a failed read of the key leaves
    it there. *)
Lemma write_rolls_back_or_appends_witness :
  exists i,
    Forall (fun r => MemoryService.id r <> Some i) [Examples.other_row]
    /\ MemoryService.save_research Examples.json_dumps None None 1764253920
         "melanoma_workflow_2025" "pembrolizumab AND melanoma" "melanoma"
         Examples.findings_1 (idle [Examples.other_row])
       = (Py.Return (Some i),
          idle ([Examples.other_row]
                ++ [MemoryService.with_id i
                      (research_entry 1764253920 "melanoma_workflow_2025"
                         "pembrolizumab AND melanoma" "melanoma"
                         Examples.text_1)]))
    /\ forall e,
         MemoryService.save_research Examples.json_dumps None (Some e)
           1764253920 "melanoma_workflow_2025" "pembrolizumab AND melanoma"
           "melanoma" Examples.findings_1 (idle [Examples.other_row])
         = (Py.Raise e,
            idle ([Examples.other_row]
                  ++ [MemoryService.with_id i
                        (research_entry 1764253920 "melanoma_workflow_2025"
                           "pembrolizumab AND melanoma" "melanoma"
                           Examples.text_1)])).
Proof.
  apply (proj1 (proj2 (proj2
           (write_rolls_back_or_appends Examples.json_dumps
              MoreExamples.isoformat [Examples.other_row] 1764253920
              1764253920 1764253921 "melanoma_workflow_2025"
              "pembrolizumab AND melanoma" "melanoma" "approved" "Dr. Lee"
              "" Examples.findings_1)))).
  reflexivity.
Defined.

(** C7 as stated fails when the storage operation that fails is the read of
    the new row's id after the commit: the error is raised again, but the
    row has been stored and the rollback leaves it there, so what is stored
    is not as it was. *)
Lemma failed_id_read_leaves_the_row :
  MemoryService.save_research Examples.json_dumps None
    (Some Examples.database_locked) 1764253920 "melanoma_workflow_2025"
    "pembrolizumab AND melanoma" "melanoma" Examples.findings_1
    (idle [Examples.other_row])
  = (Py.Raise Examples.database_locked,
     idle [ Examples.other_row;
            MemoryService.with_id 8
              (research_entry 1764253920 "melanoma_workflow_2025"
                 "pembrolizumab AND melanoma" "melanoma" Examples.text_1) ])
  /\ MemoryService.table
       (MemoryService.save_research Examples.json_dumps None
          (Some Examples.database_locked) 1764253920
          "melanoma_workflow_2025" "pembrolizumab AND melanoma" "melanoma"
          Examples.findings_1 (idle [Examples.other_row])).2
     <> [Examples.other_row].
Proof. split; [reflexivity|discriminate]. Qed.

(** The findings of an approved run, with two floats and a list in them,
    saved after a stored row of another session. *)
Lemma findings_round_trip_witness :
  (Json.python_value Examples.float_repr Examples.float_of_text
     Examples.findings_approved
   /\ Forall (fun old => MemoryService.session_id old
                         <> "melanoma_workflow_2025")
        [Examples.other_row])
  /\ exists i s view,
       MemoryService.save_research (Json.dumps Examples.float_repr) None
         None 1764253920 "melanoma_workflow_2025"
         "pembrolizumab AND melanoma" "melanoma" Examples.findings_approved
         (idle [Examples.other_row])
       = (Py.Return (Some i), s)
       /\ MemoryService.get_session
            (Json.loads Examples.float_of_text Examples.decode_error)
            "melanoma_workflow_2025" s
          = (Py.Return (Some view), s)
       /\ MemoryService.view_findings view = Examples.findings_approved
       /\ MemoryService.view_id view = Some i
       /\ MemoryService.view_query view = "pembrolizumab AND melanoma"
       /\ MemoryService.view_cancer_type view = "melanoma"
       /\ MemoryService.view_timestamp view = 1764253920.
Proof.
  assert (Hvalue : Json.python_value Examples.float_repr
                     Examples.float_of_text Examples.findings_approved).
  { split.
    - apply (bool_decide_unpack _). vm_compute. exact I.
    - cbn. unfold Json.float_read_back.
      repeat split; intros; reflexivity. }
  assert (Hfresh : Forall (fun old => MemoryService.session_id old
                                      <> "melanoma_workflow_2025")
                     [Examples.other_row])
    by (repeat constructor; discriminate).
  split; [auto|].
  exact (findings_round_trip Examples.float_repr Examples.float_of_text
           Examples.decode_error [Examples.other_row] 1764253920
           "melanoma_workflow_2025" "pembrolizumab AND melanoma" "melanoma"
           Examples.findings_approved Hvalue Hfresh).
Defined.

(** C8 as stated fails when the session identifier is reused, as it is by
    every run of [main.py]: after two runs have saved their findings under
    the same identifier, [get_session] returns the findings of the first
    run, not the payload saved last, although [json.loads] reads that
    payload back from its text. *)
Lemma reused_session_id_returns_first_findings :
  exists s1 s2 view,
    MemoryService.save_research Examples.json_dumps None None 1764253920
      "melanoma_workflow_2025" "pembrolizumab AND melanoma" "melanoma"
      Examples.findings_1 (idle [])
    = (Py.Return (Some 1), s1)
    /\ MemoryService.save_research Examples.json_dumps None None 1764340320
         "melanoma_workflow_2025" "pembrolizumab AND melanoma" "melanoma"
         Examples.findings_2 s1
       = (Py.Return (Some 2), s2)
    /\ Examples.json_dumps Examples.findings_2 = Py.Return Examples.text_2
    /\ Examples.json_loads Examples.text_2 = Py.Return Examples.findings_2
    /\ MemoryService.get_session Examples.json_loads
         "melanoma_workflow_2025" s2
       = (Py.Return (Some view), s2)
    /\ MemoryService.view_findings view = Examples.findings_1
    /\ MemoryService.view_findings view <> Examples.findings_2.
Proof.
  do 3 eexists.
  split; [reflexivity|]. split; [reflexivity|].
  split; [reflexivity|]. split; [reflexivity|].
  split; [reflexivity|]. split; [reflexivity|].
  discriminate.
Qed.

(** A source that reports an error contributes nothing; the other source's
    paper is kept and the search succeeds. *)
Example search_with_scholar_blocked :
  exists r,
    LiteratureAgent.query "gemini-2.5-flash" Examples.pubmed_one
      Examples.scholar_blocked "pembrolizumab melanoma"
    = Py.Return (LiteratureAgent.Success r)
    /\ LiteratureAgent.papers r
       = [LiteratureAgent.tag_pubmed Examples.paper_a]
    /\ LiteratureAgent.pubmed_count r = 1
    /\ LiteratureAgent.scholar_count r = 0
    /\ LiteratureAgent.analysis r
       = "Retrieved 1 publications from PubMed covering recent advances in the specified research area (2023-2025).".
Proof. eexists. repeat apply conj; reflexivity. Qed.

(** A paper that carries a source of its own keeps it under the tag. *)
Example tag_keeps_own_source :
  LiteratureAgent.tag_pubmed Examples.paper_b = Examples.paper_b.
Proof. reflexivity. Qed.

(** A failed commit leaves the table as it was and raises. *)
Example failed_commit_is_rolled_back :
  MemoryService.save_research Examples.json_dumps
    (Some Examples.database_locked) None 1764253920
    "melanoma_workflow_2025" "pembrolizumab AND melanoma" "melanoma"
    Examples.findings_1 (idle [Examples.other_row])
  = (Py.Raise Examples.database_locked, idle [Examples.other_row]).
Proof. reflexivity. Qed.

(** Why the handler rolls back: an entry left pending by a failed commit
    would be written by the next commit that goes through. *)
Example pending_entry_would_be_written :
  let failed :=
    MemoryService.bind
      (MemoryService.add
         (research_entry 1764253920 "melanoma_workflow_2025"
            "pembrolizumab AND melanoma" "melanoma" Examples.text_1))
      (fun _ => MemoryService.commit (Some Examples.database_locked))
      (idle []) in
  MemoryService.pending failed.2
  = [research_entry 1764253920 "melanoma_workflow_2025"
       "pembrolizumab AND melanoma" "melanoma" Examples.text_1]
  /\ MemoryService.table
       (MemoryService.write None None
          (review_entry 1764253980 "melanoma_clinical_review_2025"
             Examples.text_2) failed.2).2
     = [ MemoryService.with_id 1
           (research_entry 1764253920 "melanoma_workflow_2025"
              "pembrolizumab AND melanoma" "melanoma" Examples.text_1);
         MemoryService.with_id 2
           (review_entry 1764253980 "melanoma_clinical_review_2025"
              Examples.text_2) ].
Proof. split; reflexivity. Qed.

(** The codec on texts that [json.dumps] does not write: blanks around the
    items, an escaped character, a key that comes twice, and a text that is
    not JSON. *)
Example loads_other_texts :
  Examples.json_loads
    (" { " +:+ Examples.dquote +:+ "a" +:+ Examples.dquote
     +:+ " : [ 1 , -2 ] , " +:+ Examples.dquote +:+ "a"
     +:+ Examples.dquote +:+ ":" +:+ Examples.dquote +:+ "x\u0041"
     +:+ Examples.dquote +:+ "} ")
  = Py.Return (MemoryService.JDict [("a", MemoryService.JStr "xA")])
  /\ Examples.json_loads "[1,]" = Py.Raise (Examples.decode_error "[1,]")
  /\ Examples.json_loads "" = Py.Raise (Examples.decode_error "").
Proof. repeat apply conj; vm_compute; reflexivity. Qed.

(** ** The scorer on incomplete and on better evidence *)

Section ScorerMore.

Import ClinicalReasoner.

(** X1.  Evidence that lacks a p-value or a paper count is always graded
    2C: the defaults 1.0 and 0 pass neither tier. *)
Theorem incomplete_evidence_is_weak (evidence : Evidence) :
  p_value evidence = None \/ total_papers evidence = None ->
  generate_recommendation evidence
  = {| recommendation := recommendation_text;
       confidence_score := 0.62;
       strength_of_recommendation := "Weak recommendation";
       grade := "2C" |}.
Proof.
  unfold generate_recommendation, score, tier.
  intros [H|H]; rewrite H; cbn [Py.get].
  - replace (Py.flt 1 0.01) with false by reflexivity.
    replace (Py.flt 1 0.05) with false by reflexivity.
    reflexivity.
  - replace (10 <=? 0) with false by reflexivity.
    replace (8 <=? 0) with false by reflexivity.
    rewrite !andb_false_r. reflexivity.
Qed.

Lemma zero_minus_below_12 (x : float) :
  Py.flt x 0 = false -> Py.fge (0 - x) 12 = false.
Proof.
  unfold Py.flt, Py.fge.
  rewrite ltb_spec, FloatAxioms.leb_spec, sub_spec.
  change (Prim2SF 0) with (SpecFloat.S754_zero false).
  destruct (Prim2SF x) as [s|s| |s m e]; simpl.
  - destruct s; reflexivity.
  - destruct s; [discriminate|reflexivity].
  - reflexivity.
  - destruct s; [discriminate|reflexivity].
Qed.

Lemma or_zero_not_negative (median : option float) :
  not_negative median -> Py.flt (or_zero median) 0 = false.
Proof.
  destruct median as [v|]; simpl; [|reflexivity].
  intros H. destruct (Py.truthy v); [exact H|reflexivity].
Qed.

(** X2.  When the pembrolizumab median is absent (not reached) and the
    nivolumab median is absent or not negative, the median difference is
    below 12 and the recommendation is never graded 1A, whatever the p-value
    and the paper count. *)
Theorem unreached_median_never_1A (evidence : Evidence) :
  median_pembrolizumab evidence = None ->
  not_negative (median_nivolumab evidence) ->
  Py.fge (median_diff evidence) 12 = false
  /\ grade (generate_recommendation evidence) <> "1A"
  /\ confidence_score (generate_recommendation evidence) <> 0.94%float.
Proof.
  intros Hp Hn.
  assert (Hd : Py.fge (median_diff evidence) 12 = false).
  { unfold median_diff. rewrite Hp. cbn [or_zero].
    apply zero_minus_below_12, or_zero_not_negative, Hn. }
  split; [exact Hd|].
  unfold generate_recommendation, score, tier. rewrite Hd, andb_false_r.
  destruct (_ && _); simpl; split; try discriminate.
  all: intros H; apply (f_equal Prim2SF) in H; vm_compute in H; discriminate.
Qed.

(** X3.  Better evidence never lowers the confidence: with a p-value that is
    not larger, a paper count that is not smaller and a median difference
    that is not smaller, the confidence score is not smaller. *)
Theorem score_monotone (p p' : float) (n n' : Z) (d d' : float) :
  fle p' p -> n <= n' -> fle d d' ->
  fle (confidence_score (score p n d)) (confidence_score (score p' n' d')).
Proof.
  intros Hp Hn Hd. unfold score.
  destruct (tier_cases p n d) as [[H1 E]|[[H1 [H2 E]]|[H1 [H2 E]]]];
    rewrite E;
    destruct (tier_cases p' n' d') as [[H1' E']|[[H1' [H2' E']]|[H1' [H2' E']]]];
    rewrite E'; cbn [confidence_score]; try reflexivity; exfalso.
  - apply H1'. destruct H1 as (Ha & Hb & Hc). repeat split.
    + apply (fle_flt_trans p' p); assumption.
    + lia.
    + apply (fle_trans 12 d d'); assumption.
  - apply H1'. destruct H1 as (Ha & Hb & Hc). repeat split.
    + apply (fle_flt_trans p' p); assumption.
    + lia.
    + apply (fle_trans 12 d d'); assumption.
  - apply H2'. destruct H2 as (Ha & Hb). split.
    + apply (fle_flt_trans p' p); assumption.
    + lia.
Qed.

End ScorerMore.

(** ** The gate on incomplete and on undefined input *)

Section GateMore.

Import DoctorAgent.

Variable round : float -> Z -> float.

(** X4.  Missing keys of the dict given to the gate.  Without a p-value the
    gate never approves: it returns a Modify review.  Without a
    recommendation text it raises [KeyError] exactly when its policy would
    approve, and returns the Modify review otherwise. *)
Theorem gate_missing_keys (ai_output : AiOutput) :
  (p_value ai_output = None ->
   exists r,
     review_recommendation round ai_output = Py.Return r
     /\ doctor_decision r = "modify"
     /\ final_recommendation r = comment r)
  /\ (recommendation ai_output = None ->
      let confidence := Py.get (confidence_score ai_output) 0.87%float in
      let p := Py.get (p_value ai_output) 1.0%float in
      (Py.flt confidence 0.70 = false /\ Py.fgt p 0.05 = false ->
       review_recommendation round ai_output
       = Py.Raise (Py.Exn "KeyError" "'recommendation'"))
      /\ (Py.flt confidence 0.70 = true \/ Py.fgt p 0.05 = true ->
          exists r,
            review_recommendation round ai_output = Py.Return r
            /\ doctor_decision r = "modify"
            /\ final_recommendation r = comment r)).
Proof.
  unfold review_recommendation, decide_review, subscript_recommendation.
  split.
  - intros ->. cbn [Py.get].
    replace (Py.fgt 1 0.05) with true by reflexivity.
    destruct (Py.flt _ 0.70); eexists; simpl;
      repeat apply conj; reflexivity.
  - intros ->. cbv zeta. split.
    + intros [-> ->]. reflexivity.
    + intros H. destruct (Py.flt _ 0.70).
      * eexists; simpl; repeat apply conj; reflexivity.
      * destruct H as [H | ->]; [discriminate|].
        eexists; simpl; repeat apply conj; reflexivity.
Qed.

(** X5.  Undefined numbers.  A NaN compares false with every threshold, so
    the gate never finds a NaN confidence too low, and never finds a NaN
    p-value too large: with a NaN confidence it approves every p-value that
    is not above 0.05, and with a NaN p-value it approves every confidence
    that is not below 0.70. *)
Theorem gate_approves_nan (recommendationText : string)
    (confidence pValue : float) :
  (PrimFloat.is_nan confidence = true -> Py.fgt pValue 0.05 = false ->
   review round recommendationText confidence pValue
   = Py.Return (review_dict round confidence Approve comment_approve
                  recommendationText))
  /\ (PrimFloat.is_nan pValue = true -> Py.flt confidence 0.70 = false ->
      review round recommendationText confidence pValue
      = Py.Return (review_dict round confidence Approve comment_approve
                     recommendationText)).
Proof.
  rewrite review_unfold. split.
  - intros Hnan ->. rewrite (flt_nan_l _ _ Hnan). reflexivity.
  - intros Hnan ->. unfold Py.fgt. fold (Py.flt 0.05 pValue).
    rewrite (flt_nan_r _ _ Hnan). reflexivity.
Qed.

End GateMore.

(** In the pipeline a NaN p-value never reaches the gate with a confident
    score: the scorer grades it 2C. *)
Lemma nan_p_value_is_weak (p : float) (n : Z) (d : float) :
  PrimFloat.is_nan p = true ->
  ClinicalReasoner.grade (ClinicalReasoner.score p n d) = "2C".
Proof.
  intros H. unfold ClinicalReasoner.score, ClinicalReasoner.tier.
  rewrite !(flt_nan_l p _ H). reflexivity.
Qed.

(** ** Runs of the persistence service *)

Section ServiceRuns.

Import MemoryService ServiceRun.

Variable json_dumps : json -> Py.result string.
Variable json_loads : string -> Py.result json.
Variable isoformat : datetime -> string.

Local Abbreviation after := (ServiceRun.after json_dumps json_loads isoformat).
Local Abbreviation after_all :=
  (ServiceRun.after_all json_dumps json_loads isoformat).

(** A call on an idle session leaves an idle session whose table is the old
    one, or the old one with one more row, keyed one above the largest key. *)
Lemma after_idle (c : call) (rows : list ResearchMemory) :
  after c (idle rows) = idle rows
  \/ exists entry,
       written_session c = Some (session_id entry)
       /\ id entry = None
       /\ after c (idle rows)
          = idle (rows ++ [with_id (max_id rows + 1) entry]).
Proof.
  destruct c as [fault refresh now sid q ct fd
                |fault refresh n1 n2 sid dec doc com|sid];
    unfold ServiceRun.after.
  - rewrite save_research_unfold.
    destruct (json_dumps fd) as [text|e]; [|left; reflexivity].
    destruct fault as [e|].
    + left. rewrite write_failed. reflexivity.
    + right. exists (research_entry now sid q ct text).
      destruct refresh as [e|];
        [rewrite write_unread|rewrite write_committed]; auto.
  - rewrite save_doctor_review_unfold.
    destruct (json_dumps _) as [text|e]; [|left; reflexivity].
    destruct fault as [e|].
    + left. rewrite write_failed. reflexivity.
    + right. exists (review_entry n2 sid text).
      destruct refresh as [e|];
        [rewrite write_unread|rewrite write_committed]; auto.
  - left. unfold get_session.
    destruct (first_by_session_id sid (idle rows)); reflexivity.
Qed.

Lemma numbered_max_id (rows : list ResearchMemory) :
  numbered rows -> max_id rows = Z.of_nat (length rows).
Proof.
  induction rows as [|r rows IH] using rev_ind; intros Hn; [reflexivity|].
  assert (Hid : id r = Some (Z.of_nat (length rows) + 1)).
  { apply Hn. rewrite lookup_app_r by lia.
    now rewrite Nat.sub_diag. }
  assert (Hrows : numbered rows).
  { intros i x Hi. apply Hn. rewrite lookup_app_l; [exact Hi|].
    eapply lookup_lt_Some; eauto. }
  specialize (IH Hrows).
  unfold max_id in *. rewrite foldr_app; simpl. rewrite Hid; simpl.
  rewrite length_app; simpl.
  clear Hn Hrows Hid.
  assert (Hmono : forall (l : list ResearchMemory) a,
             0 <= a ->
             foldr (fun r m => Z.max (Py.get (id r) 0) m) a l
             = Z.max a (foldr (fun r m => Z.max (Py.get (id r) 0) m) 0 l)).
  { induction l as [|x l IHl]; intros a Ha; simpl; [lia|].
    rewrite (IHl a Ha). lia. }
  rewrite Hmono by lia. rewrite IH. lia.
Qed.

Lemma numbered_snoc (rows : list ResearchMemory) (entry : ResearchMemory) :
  numbered rows -> numbered (rows ++ [with_id (max_id rows + 1) entry]).
Proof.
  intros Hn i r Hi.
  destruct (decide (i < length rows)%nat) as [Hlt|Hge].
  - rewrite lookup_app_l in Hi by exact Hlt. apply Hn, Hi.
  - rewrite lookup_app_r in Hi by lia.
    destruct (i - length rows)%nat as [|k] eqn:Hk; simpl in Hi;
      [|destruct k; discriminate].
    injection Hi as <-. simpl. rewrite (numbered_max_id rows Hn).
    f_equal. lia.
Qed.

(** X6.  Record ids.  Whatever calls a process makes on a new store, and
    whichever of them fail, the session is left with nothing pending and the
    rows of the table are keyed 1, 2, 3, ... in the order they were
    written; so no two rows share an id, and the largest id is the number of
    rows. *)
Theorem ids_number_the_rows (calls : list call) :
  exists rows,
    after_all calls (idle []) = idle rows
    /\ numbered rows
    /\ max_id rows = Z.of_nat (length rows)
    /\ NoDup (map id rows)
    /\ (length rows <= length calls)%nat.
Proof.
  assert (Hrun : exists rows,
             after_all calls (idle []) = idle rows /\ numbered rows
             /\ (length rows <= length calls)%nat).
  { induction calls as [|c calls IH] using rev_ind.
    - exists []. repeat split; [|simpl; lia]. intros i r Hi. discriminate.
    - destruct IH as (rows & Hrows & Hn & Hlen).
      unfold ServiceRun.after_all in *. rewrite foldl_app; simpl.
      rewrite Hrows, length_app; simpl.
      destruct (after_idle c rows) as [->|(entry & _ & _ & ->)].
      + exists rows. repeat split; auto. lia.
      + eexists. split; [reflexivity|]. split; [now apply numbered_snoc|].
        rewrite length_app; simpl. lia. }
  destruct Hrun as (rows & Hrows & Hn & Hlen).
  exists rows. repeat apply conj; auto.
  - now apply numbered_max_id.
  - apply NoDup_alt. intros i j x Hi Hj.
    rewrite list_lookup_fmap in Hi, Hj.
    destruct (rows !! i) as [ri|] eqn:Ei; [|discriminate].
    destruct (rows !! j) as [rj|] eqn:Ej; [|discriminate].
    simpl in Hi, Hj. rewrite (Hn _ _ Ei) in Hi. rewrite (Hn _ _ Ej) in Hj.
    rewrite <- Hj in Hi. injection Hi as Hi. lia.
Qed.

Lemma after_all_idle (calls : list call) (rows : list ResearchMemory) :
  exists more,
    after_all calls (idle rows) = idle (rows ++ more)
    /\ (length more <= length calls)%nat
    /\ Forall (fun r => exists c, c ∈ calls
                 /\ written_session c = Some (session_id r)) more.
Proof.
  induction calls as [|c calls IH] using rev_ind.
  - exists []. rewrite app_nil_r. repeat split; auto.
  - destruct IH as (more & Hrun & Hlen & Hby).
    unfold ServiceRun.after_all in *. rewrite foldl_app; simpl.
    rewrite Hrun, length_app; simpl.
    assert (Hby' : Forall (fun r => exists c0, c0 ∈ calls ++ [c]
                      /\ written_session c0 = Some (session_id r)) more).
    { eapply Forall_impl; [exact Hby|]. intros r (c0 & Hin & Hw).
      exists c0. split; [|exact Hw]. apply elem_of_app. now left. }
    destruct (after_idle c (rows ++ more)) as [->|(entry & Hw & _ & ->)].
    + exists more. repeat split; auto. lia.
    + exists (more ++ [with_id (max_id (rows ++ more) + 1) entry]).
      rewrite app_assoc. split; [reflexivity|]. split.
      * rewrite length_app; simpl. lia.
      * apply Forall_app. split; [exact Hby'|].
        constructor; [|constructor]. exists c. split.
        -- apply elem_of_app. right. now constructor.
        -- exact Hw.
Qed.

(** X7.  Append-only.  Whatever calls follow, the rows that were stored
    stay where they were, unchanged: the table after the calls is the old
    table followed by new rows, at most one for each call and each written
    by one of the calls under the session identifier it was given. *)
Theorem stored_rows_stay (calls : list call) (rows : list ResearchMemory) :
  exists more,
    table (after_all calls (idle rows)) = rows ++ more
    /\ pending (after_all calls (idle rows)) = []
    /\ (forall (i : nat) r,
          rows !! i = Some r ->
          table (after_all calls (idle rows)) !! i = Some r)
    /\ (length more <= length calls)%nat
    /\ Forall (fun r => exists c, c ∈ calls
                 /\ written_session c = Some (session_id r)) more.
Proof.
  destruct (after_all_idle calls rows) as (more & -> & Hlen & Hby).
  exists more. repeat apply conj; auto.
  intros i r Hi. simpl. rewrite lookup_app_l; [exact Hi|].
  eapply lookup_lt_Some; eauto.
Qed.

(** What [get_session] returns is read off the first row of the session. *)
Lemma get_session_of_first (sid : string) (s : Session) :
  (get_session json_loads sid s).2 = s
  /\ (get_session json_loads sid s).1
     = match first_by_session_id sid s with
       | Some entry =>
           v <- (if truthy (findings entry)
                 then json_loads (Py.get (findings entry) "")
                 else Py.Return (JDict [])) ;;
           Py.Return (Some
             {| view_id := id entry;
                view_query := query entry;
                view_cancer_type := cancer_type entry;
                view_findings := v;
                view_timestamp := timestamp entry |})
       | None => Py.Return None
       end.
Proof.
  unfold get_session. destruct (first_by_session_id sid s); auto.
Qed.

Lemma first_by_session_id_app (sid : string)
    (rows more : list ResearchMemory) (r : ResearchMemory) :
  first_by_session_id sid (idle rows) = Some r ->
  first_by_session_id sid (idle (rows ++ more)) = Some r.
Proof.
  unfold first_by_session_id, idle; simpl. rewrite filter_app.
  destruct (filter _ rows); [discriminate|]. auto.
Qed.

(** X8.  The first write wins.  Once [get_session] has returned a session
    for an identifier, it returns that same session after any further calls,
    also after findings were saved again under the identifier. *)
Theorem first_write_wins (calls : list call) (rows : list ResearchMemory)
    (sid : string) (view : SessionView) :
  (get_session json_loads sid (idle rows)).1 = Py.Return (Some view) ->
  (get_session json_loads sid (after_all calls (idle rows))).1
  = Py.Return (Some view).
Proof.
  destruct (get_session_of_first sid (idle rows)) as [_ ->].
  destruct (first_by_session_id sid (idle rows)) as [entry|] eqn:Hfirst;
    [|discriminate].
  intros Hview.
  destruct (after_all_idle calls rows) as (more & -> & _).
  destruct (get_session_of_first sid (idle (rows ++ more))) as [_ ->].
  rewrite (first_by_session_id_app sid rows more entry Hfirst).
  exact Hview.
Qed.

(** X9.  Edges of [get_session].  It never changes the session.  For an
    identifier no row carries it returns [None].  For a row whose findings
    are null or the empty text it returns an empty dict without decoding.
    When the stored text cannot be decoded it raises the decoder's
    exception. *)
Theorem get_session_edges (sid : string) (s : Session) :
  (get_session json_loads sid s).2 = s
  /\ (Forall (fun r => session_id r <> sid) (table s) ->
      (get_session json_loads sid s).1 = Py.Return None)
  /\ (forall entry,
        first_by_session_id sid s = Some entry ->
        findings entry = None \/ findings entry = Some "" ->
        (get_session json_loads sid s).1
        = Py.Return (Some
            {| view_id := id entry;
               view_query := query entry;
               view_cancer_type := cancer_type entry;
               view_findings := JDict [];
               view_timestamp := timestamp entry |}))
  /\ (forall entry text e,
        first_by_session_id sid s = Some entry ->
        findings entry = Some text -> text <> "" ->
        json_loads text = Py.Raise e ->
        (get_session json_loads sid s).1 = Py.Raise e).
Proof.
  destruct (get_session_of_first sid s) as [Hs ->].
  split; [exact Hs|]. repeat apply conj.
  - intros Hnone. unfold first_by_session_id.
    replace (filter (fun r => session_id r = sid) (table s))
      with (@nil ResearchMemory); [reflexivity|].
    symmetry. induction Hnone as [|r rows Hr _ IH]; [reflexivity|].
    rewrite filter_cons_False by exact Hr. exact IH.
  - intros entry -> [H|H]; rewrite H; reflexivity.
  - intros entry text e -> Hf Hne Hloads. rewrite Hf; simpl.
    destruct (String.eqb_spec text "") as [E|_]; [contradiction|].
    simpl. rewrite Hloads. reflexivity.
Qed.

(** X10.  Round trip of a physician review.  A review saved with
    [save_doctor_review] under an identifier no stored row carries yet is
    returned by [get_session] as the dict of decision, doctor, comment and
    timestamp, under the fixed query and domain of reviews, provided the
    codec reads that dict back from the text it wrote. *)
Theorem review_round_trip (rows : list ResearchMemory)
    (now_record now_entry : datetime)
    (sid decision doctor_name comment text : string) :
  json_dumps (review_record isoformat now_record decision doctor_name comment)
  = Py.Return text ->
  text <> "" ->
  json_loads text
  = Py.Return (review_record isoformat now_record decision doctor_name
                 comment) ->
  Forall (fun old => session_id old <> sid) rows ->
  exists s,
    save_doctor_review json_dumps isoformat None None now_record now_entry
      sid decision doctor_name comment (idle rows)
    = (Py.Return (Some (max_id rows + 1)), s)
    /\ get_session json_loads sid s
       = (Py.Return (Some
            {| view_id := Some (max_id rows + 1);
               view_query := "Physician Review";
               view_cancer_type := "clinical_decision";
               view_findings :=
                 JDict [ ("decision", JStr decision);
                         ("doctor", JStr doctor_name);
                         ("comment", JStr comment);
                         ("timestamp", JStr (isoformat now_record)) ];
               view_timestamp := now_entry |}), s).
Proof.
  intros Hdumps Hne Hloads Hfresh.
  set (row := with_id (max_id rows + 1) (review_entry now_entry sid text)).
  exists (idle (rows ++ [row])). split.
  - rewrite save_doctor_review_unfold, Hdumps. apply write_committed.
  - unfold get_session.
    pose proof (first_by_session_id_last rows row Hfresh) as Hfirst.
    change (session_id row) with sid in Hfirst. rewrite Hfirst.
    cbn [row with_id review_entry research_entry MemoryService.findings
         truthy Py.get].
    destruct (String.eqb_spec text "") as [E|_]; [contradiction|].
    cbn [negb]. rewrite Hloads. reflexivity.
Qed.

(** X11.  A write under one session identifier does not change what
    [get_session] returns for another. *)
Theorem other_sessions_untouched (c : call) (rows : list ResearchMemory)
    (sid : string) :
  written_session c <> Some sid ->
  (get_session json_loads sid (after c (idle rows))).1
  = (get_session json_loads sid (idle rows)).1.
Proof.
  intros Hother.
  destruct (get_session_of_first sid (after c (idle rows))) as [_ ->].
  destruct (get_session_of_first sid (idle rows)) as [_ ->].
  destruct (after_idle c rows) as [->|(entry & Hw & _ & ->)];
    [reflexivity|].
  replace (first_by_session_id sid
             (idle (rows ++ [with_id (max_id rows + 1) entry])))
    with (first_by_session_id sid (idle rows)); [reflexivity|].
  unfold first_by_session_id, idle; simpl. rewrite filter_app.
  rewrite (filter_cons_False _ _ []); [now rewrite app_nil_r|].
  simpl. intros E. apply Hother. rewrite Hw, E. reflexivity.
Qed.

End ServiceRuns.

(** ** The PubMed tool *)

Section Pubmed.

Import PubmedTool.

Variable year_of_text : string -> Py.result Z.
Variable pubmed_query : string -> Z -> Py.result (list Article).

Local Abbreviation parse_article := (PubmedTool.parse_article year_of_text).
Local Abbreviation parse_articles :=
  (PubmedTool.parse_articles year_of_text).
Local Abbreviation search_pubmed :=
  (PubmedTool.search_pubmed year_of_text pubmed_query).

Lemma author_names_length (l : list Author) (names : list string) :
  author_names l = Py.Return names -> (length names <= length l)%nat.
Proof.
  revert names. induction l as [|a l IH]; simpl; intros names.
  - intros [= <-]. simpl. lia.
  - destruct (author_name a) as [name|e]; simpl; [|discriminate].
    destruct (author_names l) as [ns|e]; simpl; [|discriminate].
    specialize (IH ns eq_refl).
    intros [= <-]. destruct name; simpl; lia.
Qed.

Lemma or_text_nonempty (x : option string) (default : string) :
  default <> "" -> or_text x default <> "".
Proof.
  intros Hd. unfold or_text. destruct x as [t|]; [|exact Hd].
  destruct (String.eqb_spec t ""); [exact Hd|assumption].
Qed.

(** The loop with the papers found so far. *)
Lemma parse_articles_acc (articles : list Article)
    (acc : list LiteratureAgent.paper) :
  foldl (fun papers article =>
           match parse_article article with
           | Py.Return paper => papers ++ [paper]
           | Py.Raise _ => papers
           end) acc articles
  = acc ++ parse_articles articles.
Proof.
  unfold PubmedTool.parse_articles. revert acc.
  induction articles as [|a l IH]; intros acc; simpl.
  - now rewrite app_nil_r.
  - destruct (parse_article a) as [p|e].
    + rewrite (IH (acc ++ [p])), (IH [p]).
      now rewrite <- app_assoc.
    + apply IH.
Qed.

Lemma parse_articles_cons (a : Article) (l : list Article) :
  parse_articles (a :: l)
  = match parse_article a with
    | Py.Return paper => paper :: parse_articles l
    | Py.Raise _ => parse_articles l
    end.
Proof.
  unfold PubmedTool.parse_articles at 1. simpl.
  rewrite parse_articles_acc. destruct (parse_article a); reflexivity.
Qed.

Lemma parse_articles_app (l1 l2 : list Article) :
  parse_articles (l1 ++ l2) = parse_articles l1 ++ parse_articles l2.
Proof.
  induction l1 as [|a l1 IH]; [reflexivity|].
  simpl. rewrite !parse_articles_cons, IH.
  destruct (parse_article a); reflexivity.
Qed.

Lemma parse_articles_elem (l : list Article) (p : LiteratureAgent.paper) :
  p ∈ parse_articles l ->
  exists a, a ∈ l /\ parse_article a = Py.Return p.
Proof.
  induction l as [|a l IH]; [intros H; inversion H|].
  rewrite parse_articles_cons.
  destruct (parse_article a) as [q|e] eqn:Ha.
  - intros H. apply elem_of_cons in H as [->|H].
    + exists a. split; [left|exact Ha].
    + destruct (IH H) as (b & Hb & Hp). exists b. split; [now right|exact Hp].
  - intros H. destruct (IH H) as (b & Hb & Hp).
    exists b. split; [now right|exact Hp].
Qed.

Lemma parse_articles_length (l : list Article) :
  (length (parse_articles l) <= length l)%nat.
Proof.
  induction l as [|a l IH]; [simpl; lia|].
  rewrite parse_articles_cons. destruct (parse_article a); simpl; lia.
Qed.

(** The shape of a parsed paper. *)
Lemma parse_article_shape (a : Article) (p : LiteratureAgent.paper) :
  parse_article a = Py.Return p ->
  dom p = pubmed_keys
  /\ (exists title, p !! "title" = Some (LiteratureAgent.VStr title)
                    /\ title <> "")
  /\ (exists names, p !! "authors" = Some (LiteratureAgent.VList names)
                    /\ (1 <= length names <= 5)%nat)
  /\ (p !! "year" = Some LiteratureAgent.VNone
      \/ exists y, p !! "year" = Some (LiteratureAgent.VInt y)).
Proof.
  unfold PubmedTool.parse_article.
  destruct (publication_date a) as [d|e]; cbn [Py.bind]; [|discriminate].
  set (year := if date_truthy d then _ else _).
  assert (Hyear : forall v, year = Py.Return v ->
            v = LiteratureAgent.VNone \/ exists y, v = LiteratureAgent.VInt y).
  { subst year. intros v.
    destruct (date_truthy d); [|intros [= <-]; auto].
    destruct d as [[y s|s]|]; simpl.
    - intros [= <-]; eauto.
    - destruct (year_of_text s); simpl; [|discriminate].
      intros [= <-]; eauto.
    - intros [= <-]; auto. }
  destruct year as [v|e]; cbn [Py.bind]; [|discriminate].
  specialize (Hyear v eq_refl).
  set (names := match authors a with Some (x :: l) => _ | _ => _ end).
  assert (Hnames : forall ns, names = Py.Return ns -> (length ns <= 5)%nat).
  { subst names. intros ns.
    destruct (authors a) as [[|x l]|]; try (intros [= <-]; simpl; lia).
    intros H.
    pose proof (author_names_length (take 5 (x :: l)) ns H) as H'.
    rewrite length_take in H'. lia. }
  destruct names as [ns|e]; cbn [Py.bind]; [|discriminate].
  specialize (Hnames ns eq_refl).
  destruct (PubmedTool.title a) as [t|e]; cbn [Py.bind]; [|discriminate].
  destruct (PubmedTool.abstract a) as [ab|e]; cbn [Py.bind]; [|discriminate].
  destruct (PubmedTool.pubmed_id a) as [pm|e]; cbn [Py.bind]; [|discriminate].
  destruct (PubmedTool.journal a) as [j|e]; cbn [Py.bind]; [|discriminate].
  intros [= <-]. repeat apply conj.
  - rewrite !dom_insert_L, dom_empty_L. unfold pubmed_keys. set_solver.
  - eexists. split; [reflexivity|]. now apply or_text_nonempty.
  - eexists. split; [reflexivity|]. destruct ns; simpl in *; lia.
  - destruct Hyear as [->|[y ->]]; [left|right; exists y]; reflexivity.
Qed.

Lemma pubmed_returns (query : string) (max_results min_year : Z) :
  exists r, search_pubmed query max_results min_year = Py.Return r.
Proof.
  unfold PubmedTool.search_pubmed, Py.try_except.
  destruct (PubmedTool.search_body _ _ _ _ _); eauto.
Qed.

Lemma pubmed_result_elem (query : string) (max_results min_year : Z)
    (r : Result) (p : LiteratureAgent.paper) :
  search_pubmed query max_results min_year = Py.Return r ->
  p ∈ papers r ->
  exists a, parse_article a = Py.Return p.
Proof.
  unfold PubmedTool.search_pubmed, PubmedTool.search_body, Py.try_except.
  destruct (pubmed_query _ max_results) as [articles|e]; simpl;
    intros [= <-]; simpl; intros Hin; [|inversion Hin].
  destruct (parse_articles_elem _ _ Hin) as (a & _ & Ha). eauto.
Qed.

Lemma parsed_paper_tag (a : Article) (p : LiteratureAgent.paper) :
  parse_article a = Py.Return p ->
  p !! "source" = None
  /\ LiteratureAgent.tag_pubmed p !! "source"
     = Some (LiteratureAgent.VStr "PubMed").
Proof.
  intros Ha. destruct (parse_article_shape a p Ha) as (Hdom & _).
  assert (Hsrc : p !! "source" = None).
  { apply not_elem_of_dom. rewrite Hdom.
    apply (bool_decide_unpack _). reflexivity. }
  split; [exact Hsrc|]. unfold LiteratureAgent.tag_pubmed.
  rewrite lookup_union_r by exact Hsrc. apply lookup_singleton_eq.
Qed.

(** X15.  Papers of the PubMed tool.  Every paper the tool returns has
    exactly the seven keys title, authors, abstract, pmid,
    publication_date, year and journal; its title is a text that is not
    empty, its authors are a list of one to five names, its year is an
    integer or [None].  It has no source key of its own, so the literature
    agent tags it with the source PubMed. *)
Theorem pubmed_paper_shape (query : string) (max_results min_year : Z)
    (r : Result) (p : LiteratureAgent.paper) :
  search_pubmed query max_results min_year = Py.Return r ->
  p ∈ papers r ->
  dom p = pubmed_keys
  /\ (exists title, p !! "title" = Some (LiteratureAgent.VStr title)
                    /\ title <> "")
  /\ (exists names, p !! "authors" = Some (LiteratureAgent.VList names)
                    /\ (1 <= length names <= 5)%nat)
  /\ (p !! "year" = Some LiteratureAgent.VNone
      \/ exists y, p !! "year" = Some (LiteratureAgent.VInt y))
  /\ p !! "source" = None
  /\ LiteratureAgent.tag_pubmed p !! "source"
     = Some (LiteratureAgent.VStr "PubMed").
Proof.
  intros Hr Hin.
  destruct (pubmed_result_elem _ _ _ _ _ Hr Hin) as (a & Ha).
  destruct (parse_article_shape a p Ha) as (Hdom & Ht & Hn & Hy).
  destruct (parsed_paper_tag a p Ha) as (Hsrc & Htag).
  repeat apply conj; assumption.
Qed.

(** X16.  Failing closed, article by article.  The tool never raises.  It
    reports success whenever the client returns its articles, also when
    articles cannot be parsed: such an article is skipped and the others are
    kept in their order, so the count is at most the number of articles.
    When the client raises, the tool reports an error with the message of
    the exception, no papers and a count of 0. *)
Theorem pubmed_skips_bad_articles (query : string)
    (max_results min_year : Z) :
  exists r,
    search_pubmed query max_results min_year = Py.Return r
    /\ total_found r = LiteratureAgent.len (papers r)
    /\ query_echo r = query
    /\ (forall articles,
          pubmed_query (query +:+ " AND " +:+ pretty min_year
                        +:+ ":2025[dp]") max_results
          = Py.Return articles ->
          status r = "success"
          /\ papers r = parse_articles articles
          /\ (length (papers r) <= length articles)%nat
          /\ (forall before bad after e,
                articles = before ++ bad :: after ->
                parse_article bad = Py.Raise e ->
                papers r = parse_articles before ++ parse_articles after))
    /\ (forall e,
          pubmed_query (query +:+ " AND " +:+ pretty min_year
                        +:+ ":2025[dp]") max_results
          = Py.Raise e ->
          status r = "error"
          /\ papers r = []
          /\ total_found r = 0
          /\ error_message r
             = Some ("PubMed search failed: " +:+ Py.exn_str e)).
Proof.
  unfold PubmedTool.search_pubmed, PubmedTool.search_body, Py.try_except.
  destruct (pubmed_query _ max_results) as [articles|e]; simpl;
    eexists; (split; [reflexivity|]); simpl; repeat apply conj;
    try reflexivity; try discriminate.
  - intros l [= <-]. repeat apply conj; try reflexivity.
    + apply parse_articles_length.
    + intros before bad after e -> Hbad.
      rewrite parse_articles_app, parse_articles_cons, Hbad. reflexivity.
  - intros e' [= <-]. repeat apply conj; reflexivity.
Qed.

Lemma parsed_paper_printable (a : Article) (p : LiteratureAgent.paper) :
  parse_article a = Py.Return p ->
  printable (LiteratureAgent.tag_pubmed p).
Proof.
  intros Ha.
  destruct (parse_article_shape a p Ha)
    as (_ & (title & Ht & _) & (names & Hn & _) & _).
  unfold printable, LiteratureAgent.tag_pubmed. split.
  - exists (LiteratureAgent.VStr title). now apply lookup_union_Some_l.
  - intros _. rewrite (lookup_union_Some_l _ _ _ _ Hn).
    split; [discriminate|intros z; discriminate].
Qed.

End Pubmed.

(** ** The Scholar tool *)

Section Scholar.

Import ScholarTool.

Variable strip : string -> string.
Variable isdigit : string -> bool.
Variable int_of : string -> Py.result Z.
Variable http_get : string -> Py.result Response.

Local Abbreviation find_year := (ScholarTool.find_year strip isdigit int_of).
Local Abbreviation parse_item := (ScholarTool.parse_item strip isdigit int_of).
Local Abbreviation parse_items :=
  (ScholarTool.parse_items strip isdigit int_of).
Local Abbreviation search_scholar :=
  (ScholarTool.search_scholar strip isdigit int_of http_get).

Lemma slice_to_length {A} (n : Z) (l : list A) :
  0 <= n -> Z.of_nat (length (slice_to n l)) <= n.
Proof.
  intros Hn. unfold slice_to.
  destruct (Z.leb_spec 0 n); [|lia]. rewrite length_take. lia.
Qed.

Lemma slice_to_sublist {A} (n : Z) (l : list A) (x : A) :
  x ∈ slice_to n l -> x ∈ l.
Proof.
  unfold slice_to. destruct (0 <=? n); intros H;
    apply elem_of_take in H as (i & Hi & _);
    eapply list_elem_of_lookup_2; eauto.
Qed.

Lemma find_year_accepted (parts : list string) (year : string) :
  find_year parts = Py.Return year -> accepted_year isdigit int_of year.
Proof.
  induction parts as [|part rest IH]; simpl.
  - intros [= <-]. now left.
  - destruct (isdigit (strip part)) eqn:Hd; [|exact IH].
    destruct (int_of (strip part)) as [n|e] eqn:Hn; simpl; [|discriminate].
    destruct ((2023 <=? n) && (n <=? 2025)) eqn:Hr; [|exact IH].
    intros [= <-]. right. split; [exact Hd|]. exists n. split; [exact Hn|].
    apply andb_true_iff in Hr as [H1 H2]. lia.
Qed.

Lemma parse_items_elem (items : list Item)
    (papers : list LiteratureAgent.paper) (p : LiteratureAgent.paper) :
  parse_items items = Py.Return papers -> p ∈ papers ->
  exists item, item ∈ items /\ parse_item item = Py.Return (Some p).
Proof.
  revert papers. induction items as [|item rest IH]; simpl; intros papers.
  - intros [= <-] H. inversion H.
  - destruct (parse_item item) as [parsed|e] eqn:Hitem; simpl;
      [|discriminate].
    destruct (parse_items rest) as [ps|e]; simpl; [|discriminate].
    intros [= <-] Hin.
    destruct parsed as [q|].
    + apply elem_of_cons in Hin as [->|Hin].
      * exists item. split; [left|exact Hitem].
      * destruct (IH ps eq_refl Hin) as (it & Hit & Hp).
        exists it. split; [now right|exact Hp].
    + destruct (IH ps eq_refl Hin) as (it & Hit & Hp).
      exists it. split; [now right|exact Hp].
Qed.

Lemma parse_items_length (items : list Item)
    (papers : list LiteratureAgent.paper) :
  parse_items items = Py.Return papers ->
  (length papers <= length items)%nat.
Proof.
  revert papers. induction items as [|item rest IH]; simpl; intros papers.
  - intros [= <-]. simpl. lia.
  - destruct (parse_item item) as [parsed|e]; simpl; [|discriminate].
    destruct (parse_items rest) as [ps|e]; simpl; [|discriminate].
    specialize (IH ps eq_refl). intros [= <-].
    destruct parsed; simpl; lia.
Qed.

Lemma scholar_returns (query : string) (max_results : Z) :
  exists r, search_scholar query max_results = Py.Return r.
Proof.
  unfold ScholarTool.search_scholar, Py.try_except.
  destruct (ScholarTool.search_body _ _ _ _ _ _); eauto.
Qed.

(** The papers of a result come from the loop over the selected blocks. *)
Lemma scholar_result_cases (query : string) (max_results : Z) (r : Result) :
  search_scholar query max_results = Py.Return r ->
  (papers r = [] /\ status r = "error" /\ total_found r = None)
  \/ (exists response items,
        http_get query = Py.Return response
        /\ status_code response = 200
        /\ select_items response = Py.Return items
        /\ parse_items (slice_to max_results items) = Py.Return (papers r)
        /\ status r = "success"
        /\ total_found r = Some (LiteratureAgent.len (papers r))).
Proof.
  unfold ScholarTool.search_scholar, ScholarTool.search_body, Py.try_except.
  destruct (http_get query) as [response|e]; cbn [Py.bind];
    [|intros [= <-]; left; auto].
  destruct (Z.eqb_spec (status_code response) 200) as [Hcode|Hcode];
    cbn [negb]; [|intros [= <-]; left; auto].
  destruct (select_items response) as [items|e] eqn:Hitems; cbn [Py.bind];
    [|intros [= <-]; left; auto].
  destruct (parse_items (slice_to max_results items)) as [ps|e] eqn:Hps;
    cbn [Py.bind]; [|intros [= <-]; left; auto].
  intros [= <-]. right. exists response, items.
  repeat apply conj; auto.
Qed.

Lemma parsed_item_source (item : Item) (p : LiteratureAgent.paper) :
  parse_item item = Py.Return (Some p) ->
  p !! "source" = Some (LiteratureAgent.VStr "Google Scholar").
Proof.
  unfold ScholarTool.parse_item.
  destruct (title_tag item) as [tag|]; [|discriminate].
  destruct (find_year _) as [year|e]; cbn [Py.bind]; [|discriminate].
  intros [= <-]. reflexivity.
Qed.

Lemma scholar_result_elem (query : string) (max_results : Z) (r : Result)
    (p : LiteratureAgent.paper) :
  search_scholar query max_results = Py.Return r ->
  p ∈ papers r ->
  exists item, parse_item item = Py.Return (Some p).
Proof.
  intros Hr Hin.
  destruct (scholar_result_cases _ _ _ Hr)
    as [(Hnil & _)|(resp & items & _ & _ & _ & Hps & _)].
  - rewrite Hnil in Hin. inversion Hin.
  - destruct (parse_items_elem _ _ _ Hps Hin) as (item & _ & Hitem). eauto.
Qed.

Lemma scholar_count_bound (query : string) (max_results : Z) (r : Result) :
  search_scholar query max_results = Py.Return r ->
  0 <= max_results -> LiteratureAgent.len (papers r) <= max_results.
Proof.
  intros Hr Hn.
  destruct (scholar_result_cases _ _ _ Hr)
    as [(Hnil & _)|(resp & items & _ & _ & _ & Hps & _)].
  - rewrite Hnil. unfold LiteratureAgent.len. simpl. lia.
  - pose proof (parse_items_length _ _ Hps) as Hlen.
    pose proof (slice_to_length max_results items Hn).
    unfold LiteratureAgent.len. lia.
Qed.

(** X17.  Papers of the Scholar tool.  Every paper the tool returns has
    exactly the keys title, link, snippet, year, source and info; its source
    is Google Scholar; its year is the text 2024 or a text that reads as an
    integer from 2023 to 2025.  With a limit that is not negative the tool
    returns at most that many papers. *)
Theorem scholar_paper_shape (query : string) (max_results : Z)
    (r : Result) :
  search_scholar query max_results = Py.Return r ->
  (forall p, p ∈ papers r ->
     dom p = scholar_keys
     /\ p !! "source" = Some (LiteratureAgent.VStr "Google Scholar")
     /\ exists year, p !! "year" = Some (LiteratureAgent.VStr year)
                     /\ accepted_year isdigit int_of year)
  /\ (0 <= max_results -> LiteratureAgent.len (papers r) <= max_results)
  /\ (status r = "success" ->
      total_found r = Some (LiteratureAgent.len (papers r))).
Proof.
  intros Hr. repeat apply conj.
  - intros p Hin.
    destruct (scholar_result_elem _ _ _ _ Hr Hin) as (item & Hitem).
    split; [|split; [exact (parsed_item_source _ _ Hitem)|]];
      revert Hitem; unfold ScholarTool.parse_item;
      destruct (title_tag item) as [tag|]; try discriminate;
      destruct (find_year _) as [year|e] eqn:Hy; cbn [Py.bind];
      try discriminate; intros [= <-].
    + rewrite !dom_insert_L, dom_empty_L. unfold scholar_keys. set_solver.
    + exists year. split; [reflexivity|].
      eapply find_year_accepted; eauto.
  - apply (scholar_count_bound _ _ _ Hr).
  - destruct (scholar_result_cases _ _ _ Hr)
      as [(_ & -> & _)|(resp & items & _ & _ & _ & _ & _ & Ht)];
      [discriminate|]. intros _. exact Ht.
Qed.

(** A block that raises makes the loop raise. *)
Lemma parse_items_raises (items : list Item) (item : Item) (e : Py.exn) :
  item ∈ items -> parse_item item = Py.Raise e ->
  exists e', parse_items items = Py.Raise e'.
Proof.
  induction items as [|x rest IH]; [intros H; inversion H|].
  intros Hin Hraise. simpl.
  destruct (parse_item x) as [parsed|e0] eqn:Hx; cbn [Py.bind]; [|eauto].
  apply elem_of_cons in Hin as [->|Hin]; [congruence|].
  destruct (IH Hin Hraise) as (e' & ->). simpl. eauto.
Qed.

(** X18.  Failing as a whole.  The Scholar tool never raises.  A response
    whose status code is not 200 gives an error dict with the message HTTP
    and the code; an exception of the request gives an error dict with the
    text of the exception.  Unlike the PubMed tool it does not skip a result
    it cannot parse: when one of the selected blocks raises, the whole
    search is an error.  Every error dict has no papers. *)
Theorem scholar_fails_as_a_whole (query : string) (max_results : Z) :
  exists r,
    search_scholar query max_results = Py.Return r
    /\ (status r = "success" \/ status r = "error")
    /\ (status r = "error" -> papers r = [] /\ total_found r = None)
    /\ (forall response,
          http_get query = Py.Return response ->
          status_code response <> 200 ->
          status r = "error"
          /\ message r = Some ("HTTP " +:+ pretty (status_code response))
          /\ error r = None)
    /\ (forall e,
          http_get query = Py.Raise e ->
          status r = "error" /\ error r = Some (Py.exn_str e)
          /\ message r = None)
    /\ (forall response items item e,
          http_get query = Py.Return response ->
          status_code response = 200 ->
          select_items response = Py.Return items ->
          item ∈ slice_to max_results items ->
          parse_item item = Py.Raise e ->
          status r = "error" /\ papers r = []
          /\ exists e', error r = Some (Py.exn_str e')).
Proof.
  destruct (scholar_returns query max_results) as (r & Hr).
  exists r. split; [exact Hr|].
  pose proof (scholar_result_cases _ _ _ Hr) as Hcases.
  revert Hr.
  unfold ScholarTool.search_scholar, ScholarTool.search_body, Py.try_except.
  intros Hr. repeat apply conj.
  - destruct Hcases as [(_ & -> & _)|(? & ? & _ & _ & _ & _ & -> & _)]; auto.
  - destruct Hcases as [(Hnil & _ & Ht)|(? & ? & _ & _ & _ & _ & -> & _)];
      [auto|discriminate].
  - intros response Hget Hcode. rewrite Hget in Hr. cbn [Py.bind] in Hr.
    destruct (Z.eqb_spec (status_code response) 200); [contradiction|].
    cbn [negb] in Hr. injection Hr as <-. auto.
  - intros e Hget. rewrite Hget in Hr. cbn [Py.bind] in Hr.
    injection Hr as <-. auto.
  - intros response items item e Hget Hcode Hitems Hin Hraise.
    rewrite Hget in Hr. cbn [Py.bind] in Hr.
    rewrite Hcode, Hitems in Hr. cbn [Py.bind negb Z.eqb Pos.eqb] in Hr.
    destruct (parse_items_raises _ _ _ Hin Hraise) as (e' & He').
    rewrite He' in Hr. cbn [Py.bind] in Hr. injection Hr as <-.
    simpl. eauto.
Qed.

Lemma parsed_item_printable (item : Item) (p : LiteratureAgent.paper) :
  parse_item item = Py.Return (Some p) -> printable p.
Proof.
  intros Hitem. pose proof (parsed_item_source _ _ Hitem) as Hsrc.
  revert Hitem. unfold ScholarTool.parse_item.
  destruct (title_tag item) as [tag|]; [|discriminate].
  destruct (find_year _) as [year|e]; cbn [Py.bind]; [|discriminate].
  intros [= <-]. split.
  - eexists. reflexivity.
  - rewrite Hsrc. discriminate.
Qed.

End Scholar.

(** ** The literature agent with the tools of the repository *)

Section WiredAgent.

Variable year_of_text : string -> Py.result Z.
Variable pubmed_query : string -> Z -> Py.result (list PubmedTool.Article).
Variable strip : string -> string.
Variable isdigit : string -> bool.
Variable int_of : string -> Py.result Z.
Variable http_get : string -> Py.result ScholarTool.Response.

Local Abbreviation wired_query :=
  (Wired.query year_of_text pubmed_query strip isdigit int_of http_get).
Local Abbreviation wired_pubmed :=
  (Wired.search_pubmed year_of_text pubmed_query).
Local Abbreviation wired_scholar :=
  (Wired.search_scholar strip isdigit int_of http_get).

Lemma papers_of_subset (r : LiteratureAgent.SourceResult)
    (l : list LiteratureAgent.paper) (p : LiteratureAgent.paper) :
  LiteratureAgent.source_papers r = Some l ->
  p ∈ LiteratureAgent.papers_of r -> p ∈ l.
Proof.
  unfold LiteratureAgent.papers_of. intros ->.
  destruct (decide _); simpl; [auto|intros H; inversion H].
Qed.

Lemma papers_of_length (r : LiteratureAgent.SourceResult)
    (l : list LiteratureAgent.paper) :
  LiteratureAgent.source_papers r = Some l ->
  (length (LiteratureAgent.papers_of r) <= length l)%nat.
Proof.
  unfold LiteratureAgent.papers_of. intros ->.
  destruct (decide _); simpl; lia.
Qed.

Lemma wired_query_found (model_name user_query : string) :
  exists r1 r2,
    PubmedTool.search_pubmed year_of_text pubmed_query user_query 12 2023
    = Py.Return r1
    /\ ScholarTool.search_scholar strip isdigit int_of http_get user_query 6
       = Py.Return r2
    /\ wired_query model_name user_query
       = Py.Return (LiteratureAgent.Success
           (LiteratureAgent.found model_name user_query
              (PubmedTool.as_source r1) (ScholarTool.as_source r2))).
Proof.
  destruct (pubmed_returns year_of_text pubmed_query user_query 12 2023)
    as (r1 & Hr1).
  destruct (scholar_returns strip isdigit int_of http_get user_query 6)
    as (r2 & Hr2).
  assert (Hp : wired_pubmed user_query 12 2023
               = Py.Return (PubmedTool.as_source r1)).
  { unfold Wired.search_pubmed. now rewrite Hr1. }
  assert (Hs : wired_scholar user_query 6
               = Py.Return (ScholarTool.as_source r2)).
  { unfold Wired.search_scholar. now rewrite Hr2. }
  exists r1, r2. split; [exact Hr1|]. split; [exact Hr2|].
  unfold Wired.query, LiteratureAgent.query.
  rewrite (query_body_returned model_name wired_pubmed wired_scholar
             user_query _ _ Hp Hs). reflexivity.
Qed.

(** Where the papers of the merged list come from. *)
Lemma wired_paper_origin (r1 : PubmedTool.Result) (r2 : ScholarTool.Result)
    (n : nat) (p : LiteratureAgent.paper) :
  p ∈ take n
        (map LiteratureAgent.tag_pubmed
           (LiteratureAgent.papers_of (PubmedTool.as_source r1))
         ++ LiteratureAgent.papers_of (ScholarTool.as_source r2)) ->
  (exists q, q ∈ PubmedTool.papers r1 /\ p = LiteratureAgent.tag_pubmed q)
  \/ p ∈ ScholarTool.papers r2.
Proof.
  intros H. apply elem_of_take in H as (i & Hi & _).
  apply list_elem_of_lookup_2 in Hi.
  apply elem_of_app in Hi as [Hi|Hi].
  - left. apply list_elem_of_fmap in Hi as (q & -> & Hq).
    exists q. split; [|reflexivity].
    now apply (papers_of_subset (PubmedTool.as_source r1)).
  - right. now apply (papers_of_subset (ScholarTool.as_source r2)).
Qed.

(** X19.  With the two tools of the repository the literature search never
    takes its error path: it always returns the success dict.  Every paper
    of the result carries a source: the first pubmed_count papers are tagged
    PubMed and those after them Google Scholar.  At most 6 papers come from
    Google Scholar. *)
Theorem wired_query_succeeds_and_tags (model_name user_query : string) :
  exists f,
    Wired.query year_of_text pubmed_query strip isdigit int_of http_get
      model_name user_query
    = Py.Return (LiteratureAgent.Success f)
    /\ 0 <= LiteratureAgent.scholar_count f <= 6
    /\ (forall (i : nat) p,
          LiteratureAgent.papers f !! i = Some p ->
          (Z.of_nat i < LiteratureAgent.pubmed_count f ->
           p !! "source" = Some (LiteratureAgent.VStr "PubMed"))
          /\ (LiteratureAgent.pubmed_count f <= Z.of_nat i ->
              p !! "source" = Some (LiteratureAgent.VStr "Google Scholar"))).
Proof.
  destruct (wired_query_found model_name user_query)
    as (r1 & r2 & Hr1 & Hr2 & Hfound).
  eexists. split; [exact Hfound|].
  unfold LiteratureAgent.found;
    cbn [LiteratureAgent.papers LiteratureAgent.pubmed_count
         LiteratureAgent.scholar_count].
  set (pp := LiteratureAgent.papers_of (PubmedTool.as_source r1)).
  set (sp := LiteratureAgent.papers_of (ScholarTool.as_source r2)).
  assert (Hpp : forall p, p ∈ pp ->
            LiteratureAgent.tag_pubmed p !! "source"
            = Some (LiteratureAgent.VStr "PubMed")).
  { intros p Hin.
    apply (papers_of_subset _ (PubmedTool.papers r1)) in Hin;
      [|reflexivity].
    destruct (pubmed_result_elem _ _ _ _ _ _ _ Hr1 Hin) as (a & Ha).
    apply (parsed_paper_tag _ _ _ Ha). }
  assert (Hsp : forall p, p ∈ sp ->
            p !! "source" = Some (LiteratureAgent.VStr "Google Scholar")).
  { intros p Hin.
    apply (papers_of_subset _ (ScholarTool.papers r2)) in Hin;
      [|reflexivity].
    destruct (scholar_result_elem _ _ _ _ _ _ _ _ Hr2 Hin) as (item & Hi).
    apply (parsed_item_source _ _ _ _ _ Hi). }
  split.
  - pose proof (papers_of_length (ScholarTool.as_source r2)
                  (ScholarTool.papers r2) eq_refl) as Hlen.
    pose proof (scholar_count_bound _ _ _ _ _ _ _ Hr2) as Hb.
    unfold LiteratureAgent.len in *. fold sp in Hlen. lia.
  - intros i p Hi. apply lookup_take_Some in Hi as [Hi _].
    unfold LiteratureAgent.len.
    apply lookup_app_Some in Hi as [Hi|[Hge Hi]].
    + pose proof (lookup_lt_Some _ _ _ Hi) as Hlt.
      rewrite length_map in Hlt.
      split; [intros _|lia].
      rewrite list_lookup_fmap in Hi.
      destruct (pp !! i) as [q|] eqn:Hq; [|discriminate].
      injection Hi as <-. apply Hpp. eapply list_elem_of_lookup_2; eauto.
    + rewrite length_map in Hge, Hi.
      split; [lia|intros _].
      apply Hsp. eapply list_elem_of_lookup_2; eauto.
Qed.

End WiredAgent.

(** ** The console output of a run and its report *)

Section ConsoleRun.

Variable model_name : string.
Variable search_pubmed :
  string -> Z -> Z -> Py.result LiteratureAgent.SourceResult.
Variable search_scholar :
  string -> Z -> Py.result LiteratureAgent.SourceResult.
Variable perform_survival_analysis : AnalysisAgent.ToolResult.
Variable format_summary : AnalysisAgent.Survival -> string.
Variable round : float -> Z -> float.
Variable repr_list : list string -> string.
Variable chars : string -> list string.
Variable format_percent : float -> string.
Variable upper : string -> string.
Variable format_rationale : ClinicalReasoner.Evidence -> string.
Variable console : string -> option Py.exn.

Local Abbreviation console_run :=
  (Supervisor.process_query model_name search_pubmed search_scholar
     perform_survival_analysis format_summary round repr_list chars
     format_percent upper format_rationale console).
Local Abbreviation pure_run :=
  (Supervisor.stages model_name search_pubmed search_scholar
     perform_survival_analysis format_summary round).
Local Abbreviation search :=
  (LiteratureAgent.query model_name search_pubmed search_scholar).

(** X20.  The console and the report.  Whenever a run returns, it returns
    the report of its four stages.  On a console that prints every text it
    returns whenever the search failed or the first six papers of the search
    can be printed; and a paper without a title among the first six, the
    papers before it being printable, then makes the run raise [KeyError]:
    this, not a failed stage, is what can abort a run.  On any console such
    a paper makes the run raise, the [KeyError] or sooner what the console
    raised on a text. *)
Theorem console_run_returns_the_report (query : string) :
  (forall out report,
     console_run query = Py.Return (out, report) ->
     pure_run query = Py.Return report)
  /\ ((forall text, console text = None) ->
      forall lit,
        search query = Py.Return lit ->
        match lit with
        | LiteratureAgent.Success found =>
            Forall printable (take 6 (LiteratureAgent.papers found))
        | LiteratureAgent.Error _ => True
        end ->
        exists out report,
          console_run query = Py.Return (out, report)
          /\ pure_run query = Py.Return report)
  /\ ((forall text, console text = None) ->
      forall found before p rest,
        search query = Py.Return (LiteratureAgent.Success found) ->
        take 6 (LiteratureAgent.papers found) = before ++ p :: rest ->
        Forall printable before ->
        p !! "title" = None ->
        console_run query = Py.Raise (Py.Exn "KeyError" "'title'"))
  /\ (forall found before p rest,
        search query = Py.Return (LiteratureAgent.Success found) ->
        take 6 (LiteratureAgent.papers found) = before ++ p :: rest ->
        Forall printable before ->
        p !! "title" = None ->
        exists e,
          console_run query = Py.Raise e
          /\ (e = Py.Exn "KeyError" "'title'"
              \/ exists text, console text = Some e)).
Proof.
  repeat apply conj.
  - apply run_stages.
  - intros Hc lit Hlit Hprint. apply (run_returns _ _ _ _ _ _ _ _ _ _ _ _ _ Hc).
    unfold prints_papers. rewrite Hlit. destruct lit; [exact Hprint|exact I].
  - intros Hc found before p rest. now apply run_no_title.
  - intros found before p rest. apply run_untitled.
Qed.

End ConsoleRun.

(** ** The console output of a run with the tools of the repository *)

Section WiredConsole.

Variable year_of_text : string -> Py.result Z.
Variable pubmed_query : string -> Z -> Py.result (list PubmedTool.Article).
Variable strip : string -> string.
Variable isdigit : string -> bool.
Variable int_of : string -> Py.result Z.
Variable http_get : string -> Py.result ScholarTool.Response.
Variable repr_list : list string -> string.
Variable chars : string -> list string.
Variable format_percent : float -> string.
Variable upper : string -> string.
Variable model_name : string.
Variable perform_survival_analysis : AnalysisAgent.ToolResult.
Variable format_summary : AnalysisAgent.Survival -> string.
Variable round : float -> Z -> float.
Variable format_rationale : ClinicalReasoner.Evidence -> string.
Variable console : string -> option Py.exn.

Local Abbreviation wired_pubmed :=
  (Wired.search_pubmed year_of_text pubmed_query).
Local Abbreviation wired_scholar :=
  (Wired.search_scholar strip isdigit int_of http_get).

(** Every paper that the tools of the repository return can be printed. *)
Lemma wired_papers_printable (query : string) :
  exists found,
    LiteratureAgent.query model_name wired_pubmed wired_scholar query
    = Py.Return (LiteratureAgent.Success found)
    /\ Forall printable (take 6 (LiteratureAgent.papers found)).
Proof.
  destruct (wired_query_found year_of_text pubmed_query strip isdigit int_of
              http_get model_name query)
    as (r1 & r2 & Hr1 & Hr2 & Hfound).
  unfold Wired.query in Hfound.
  eexists. split; [exact Hfound|].
  apply Forall_forall. intros p Hin.
  unfold LiteratureAgent.found in Hin;
    cbn [LiteratureAgent.papers] in Hin.
  apply elem_of_take in Hin as (i & Hi & _).
  apply list_elem_of_lookup_2 in Hi.
  destruct (wired_paper_origin _ _ _ _ Hi) as [(q & Hq & ->)|Hp].
  - destruct (pubmed_result_elem _ _ _ _ _ _ _ Hr1 Hq) as (a & Ha).
    apply (parsed_paper_printable _ _ _ Ha).
  - destruct (scholar_result_elem _ _ _ _ _ _ _ _ Hr2 Hp) as (item & Hi').
    apply (parsed_item_printable _ _ _ _ _ Hi').
Qed.

(** X21.  With the tools of the repository a run raises only what the
    console raises: every paper the tools return has a title, and every
    paper tagged PubMed has a list of authors, so each of the first six can
    be printed.  On a console that prints every text the run returns its
    report, whichever of its stages fail, and the literature result of that
    report is a success; and whenever the run raises, the exception is one
    that the console raised on a text. *)
Theorem wired_run_raises_only_console_errors (query : string) :
  ((forall text, console text = None) ->
   exists out report,
     Supervisor.process_query model_name wired_pubmed wired_scholar
       perform_survival_analysis format_summary round repr_list chars
       format_percent upper format_rationale console query
     = Py.Return (out, report)
     /\ LiteratureAgent.status (Supervisor.literature report) = "success")
  /\ (forall e,
        Supervisor.process_query model_name wired_pubmed wired_scholar
          perform_survival_analysis format_summary round repr_list chars
          format_percent upper format_rationale console query
        = Py.Raise e ->
        exists text, console text = Some e).
Proof.
  destruct (wired_papers_printable query) as (found & Hfound & Hprint).
  assert (Hpapers : prints_papers
                      (LiteratureAgent.query model_name wired_pubmed
                         wired_scholar query)).
  { unfold prints_papers. rewrite Hfound. exact Hprint. }
  split.
  - intros Hc.
    destruct (run_returns model_name wired_pubmed wired_scholar
                perform_survival_analysis format_summary round repr_list
                chars format_percent upper format_rationale console query
                Hc Hpapers) as (out & report & Hrun & Hrep).
    exists out, report. split; [exact Hrun|].
    revert Hrep. unfold Supervisor.stages. rewrite Hfound.
    cbn [Py.bind].
    destruct (DoctorAgent.review_recommendation round _); cbn [Py.bind];
      [|discriminate].
    intros [= <-]. reflexivity.
  - intros e. now apply run_raises.
Qed.

End WiredConsole.

(** ** The command-line run *)

Section MainRun.

Import MemoryService.

Variable api_key : option string.
Variable mentions_placeholder : string -> bool.
Variable search_pubmed :
  string -> Z -> Z -> Py.result LiteratureAgent.SourceResult.
Variable search_scholar :
  string -> Z -> Py.result LiteratureAgent.SourceResult.
Variable perform_survival_analysis : AnalysisAgent.ToolResult.
Variable format_summary : AnalysisAgent.Survival -> string.
Variable round : float -> Z -> float.
Variable json_dumps : json -> Py.result string.
Variable isoformat : datetime -> string.
Variable repr_list : list string -> string.
Variable chars : string -> list string.
Variable format_percent : float -> string.
Variable upper : string -> string.
Variable format_rationale : ClinicalReasoner.Evidence -> string.
Variable console : string -> option Py.exn.
Variable now_record now_entry now_session : datetime.

Local Abbreviation main approval_fault approval_refresh session_fault
  session_refresh :=
  (Main.main api_key mentions_placeholder search_pubmed search_scholar
     perform_survival_analysis format_summary round json_dumps isoformat
     repr_list chars format_percent upper format_rationale console
     approval_fault approval_refresh session_fault session_refresh
     now_record now_entry now_session).
Local Abbreviation main_body approval_fault approval_refresh session_fault
  session_refresh :=
  (Main.main_body search_pubmed search_scholar
     perform_survival_analysis format_summary round json_dumps isoformat
     repr_list chars format_percent upper format_rationale console
     approval_fault approval_refresh session_fault session_refresh
     now_record now_entry now_session).
Local Abbreviation run_supervisor :=
  (Main.run_supervisor search_pubmed search_scholar
     perform_survival_analysis format_summary round repr_list chars
     format_percent upper format_rationale console).
Local Abbreviation search :=
  (LiteratureAgent.query "gemini-2.5-flash" search_pubmed search_scholar
     Main.query).
Local Abbreviation stages :=
  (Supervisor.stages "gemini-2.5-flash" search_pubmed search_scholar
     perform_survival_analysis format_summary round Main.query).
Local Abbreviation process_query :=
  (Supervisor.process_query "gemini-2.5-flash" search_pubmed search_scholar
     perform_survival_analysis format_summary round repr_list chars
     format_percent upper format_rationale console Main.query).
Local Abbreviation not_configured :=
  (Main.not_configured api_key mentions_placeholder).
Local Abbreviation say := (Main.say console).

Lemma configured_init :
  not_configured = false -> Main.supervisor_init api_key = Py.Return tt.
Proof.
  unfold Main.not_configured, Main.supervisor_init.
  destruct api_key as [key|]; [|discriminate].
  destruct (Main.str_truthy (Some key)); [reflexivity|discriminate].
Qed.

(** A text said on the console leaves the session as it was, and raises
    only what the console raises. *)
Lemma say_cases (text : string) (s : Session) :
  (console text = None /\ say text s = (Py.Return tt, s))
  \/ (exists e, console text = Some e /\ say text s = (Py.Raise e, s)).
Proof.
  unfold Main.say, lift, Py.print.
  destruct (console text) as [e|]; [right|left]; eauto.
Qed.

Lemma bind_say_accepted {A} (text : string) (k : unit -> M A) (s : Session) :
  (forall text, console text = None) ->
  bind (say text) k s = k tt s.
Proof.
  intros Hc. unfold bind.
  destruct (say_cases text s) as [[_ ->]|(e & He & _)]; [reflexivity|].
  rewrite Hc in He. discriminate.
Qed.


Lemma bind_say_session {A} (text : string) (k : unit -> M A) (s : Session) :
  (k tt s).2 = s -> (bind (say text) k s).2 = s.
Proof.
  unfold bind.
  destruct (say_cases text s) as [[_ ->]|(e' & He & ->)]; auto.
Qed.

Lemma say_accepted (text : string) (s : Session) :
  (forall text, console text = None) -> say text s = (Py.Return tt, s).
Proof.
  intros Hc. destruct (say_cases text s) as [[_ H]|(e & He & _)]; [exact H|].
  rewrite Hc in He. discriminate.
Qed.

Lemma guarded_accepted (body : M unit) (s : Session) :
  (forall text, console text = None) ->
  Main.guarded console body s
  = match body s with
    | (Py.Return _, s') => (Py.Return Main.Archived, s')
    | (Py.Raise e, s') => (Py.Return (Main.Failed e), s')
    end.
Proof.
  intros Hc. unfold Main.guarded, bind, try_except, ret.
  destruct (body s) as [[[]|e] s'];
    repeat (rewrite (say_accepted _ _ Hc); cbv beta iota); reflexivity.
Qed.


Lemma guarded_session (body : M unit) (s : Session) (e : Py.exn) :
  body s = (Py.Raise e, s) -> (Main.guarded console body s).2 = s.
Proof.
  intros H. unfold Main.guarded, bind, try_except, ret. rewrite H.
  destruct (say_cases ("Error: " +:+ Py.exn_str e) s)
    as [[_ ->]|(e1 & He1 & ->)]; [|reflexivity].
  destruct (say_cases
              (Supervisor.nl
               +:+ "Clinical decision support process completed."
               +:+ Supervisor.nl) s) as [[_ ->]|(e2 & He2 & ->)];
    reflexivity.
Qed.

(** [main] from the key check on, with the key accepted. *)
Lemma main_unfold
    (approval_fault approval_refresh session_fault session_refresh
       : option Py.exn) :
  not_configured = false ->
  main approval_fault approval_refresh session_fault session_refresh
  = bind (say Main.bar_78) (fun _ =>
    bind (say Main.banner) (fun _ =>
    bind (say Main.bar_78) (fun _ =>
    bind
      (say (Supervisor.nl +:+ "Initiating clinical evidence review: "
            +:+ Main.query +:+ Supervisor.nl))
      (fun _ =>
         Main.guarded console
           (main_body approval_fault approval_refresh session_fault
              session_refresh))))).
Proof.
  intros Hk. unfold Main.main. rewrite Hk, (configured_init Hk).
  reflexivity.
Qed.

(** [main] with a key, on a console that prints every text: it ends where
    the body of its [try] ends, or on the error that the body raised. *)
Lemma main_configured
    (approval_fault approval_refresh session_fault session_refresh
       : option Py.exn) (s : Session) :
  (forall text, console text = None) ->
  not_configured = false ->
  main approval_fault approval_refresh session_fault session_refresh s
  = match main_body approval_fault approval_refresh session_fault
            session_refresh s with
    | (Py.Return _, s') => (Py.Return Main.Archived, s')
    | (Py.Raise e, s') => (Py.Return (Main.Failed e), s')
    end.
Proof.
  intros Hc Hk. rewrite (main_unfold _ _ _ _ Hk).
  rewrite !(bind_say_accepted _ _ _ Hc).
  now apply guarded_accepted.
Qed.


Lemma max_id_app_one (rows : list ResearchMemory) (r : ResearchMemory) :
  max_id (rows ++ [r]) = Z.max (max_id rows) (Py.get (id r) 0).
Proof.
  induction rows as [|x rows IH]; simpl; [lia|].
  fold (max_id (rows ++ [r])). fold (max_id rows). rewrite IH. lia.
Qed.

Lemma max_id_snoc (rows : list ResearchMemory) (entry : ResearchMemory) :
  max_id (rows ++ [with_id (max_id rows + 1) entry]) = max_id rows + 1.
Proof. rewrite max_id_app_one. simpl. lia. Qed.

(** Two keys given one after the other are different and new. *)
Lemma two_new_ids (rows : list ResearchMemory) :
  max_id rows + 1 <> max_id rows + 2
  /\ Forall (fun r => id r <> Some (max_id rows + 1)
                      /\ id r <> Some (max_id rows + 2)) rows.
Proof.
  split; [lia|]. apply Forall_forall. intros r Hin.
  split; intros Hid; pose proof (max_id_bound _ _ _ Hin Hid); lia.
Qed.

(** The report of the run that [main] makes. *)
Lemma run_report :
  exists report,
    stages = Py.Return report
    /\ DoctorAgent.doctor_name (Supervisor.doctor_review report)
       = DoctorAgent.reviewer_name
    /\ (DoctorAgent.doctor_decision (Supervisor.doctor_review report)
        = "approve"
        <-> ClinicalReasoner.grade (Supervisor.recommendation report) = "1A"
            \/ ClinicalReasoner.grade (Supervisor.recommendation report)
               = "1B")
    /\ (DoctorAgent.doctor_decision (Supervisor.doctor_review report)
        = "approve"
        \/ DoctorAgent.doctor_decision (Supervisor.doctor_review report)
           = "modify").
Proof.
  destruct (stages_returns "gemini-2.5-flash" search_pubmed
              search_scholar perform_survival_analysis format_summary round
              Main.query) as (lit & r & _ & Hr & Hrun).
  eexists. split; [exact Hrun|].
  cbn [Supervisor.doctor_review Supervisor.recommendation].
  match type of Hr with
  | context [ClinicalReasoner.generate_recommendation ?e] =>
      destruct (gate_after_score round e) as (r' & Hr' & Hiff & _)
  end.
  rewrite Hr in Hr'. injection Hr' as <-.
  split; [|split; [exact Hiff|]].
  - revert Hr. unfold DoctorAgent.review_recommendation.
    destruct (DoctorAgent.decide_review _ _) as [d c].
    destruct (if String.eqb _ _ then _ else _); simpl; [|discriminate].
    intros [= <-]. reflexivity.
  - revert Hr. unfold DoctorAgent.review_recommendation.
    destruct (DoctorAgent.decide_review _ _) as [d c].
    destruct (if String.eqb _ _ then _ else _); simpl; [|discriminate].
    intros [= <-]. destruct d; simpl; auto.
Qed.

(** The run of the supervisor inside [main]: on a console that prints every
    text and with papers that can be printed it returns its report. *)
Lemma run_supervisor_report :
  (forall text, console text = None) ->
  prints_papers search ->
  exists out report,
    run_supervisor = Py.Return report
    /\ process_query = Py.Return (out, report)
    /\ DoctorAgent.doctor_name (Supervisor.doctor_review report)
       = DoctorAgent.reviewer_name
    /\ (DoctorAgent.doctor_decision (Supervisor.doctor_review report)
        = "approve"
        <-> ClinicalReasoner.grade (Supervisor.recommendation report) = "1A"
            \/ ClinicalReasoner.grade (Supervisor.recommendation report)
               = "1B")
    /\ (DoctorAgent.doctor_decision (Supervisor.doctor_review report)
        = "approve"
        \/ DoctorAgent.doctor_decision (Supervisor.doctor_review report)
           = "modify").
Proof.
  intros Hc Hprint.
  destruct (run_returns "gemini-2.5-flash" search_pubmed search_scholar
              perform_survival_analysis format_summary round repr_list chars
              format_percent upper format_rationale console Main.query Hc
              Hprint)
    as (out & report & Hcon & Hpure).
  destruct run_report as (report' & Hrun & Hrest).
  rewrite Hpure in Hrun. injection Hrun as <-.
  exists out, report. split; [|split; [exact Hcon|exact Hrest]].
  unfold Main.run_supervisor. rewrite Hcon. reflexivity.
Qed.

Lemma log_approval_idle (fault refresh : option Py.exn) (doctor : string)
    (rows : list ResearchMemory) :
  ApprovalWorkflow.log_doctor_approval json_dumps isoformat fault refresh
    now_record now_entry "melanoma_clinical_review_2025" "approved" doctor
    (idle rows)
  = match json_dumps (approval_record isoformat now_record doctor) with
    | Py.Return text =>
        match fault, refresh with
        | None, None =>
            (Py.Return tt,
             idle (rows ++ [with_id (max_id rows + 1)
                              (approval_row now_entry text)]))
        | None, Some e =>
            (Py.Raise e,
             idle (rows ++ [with_id (max_id rows + 1)
                              (approval_row now_entry text)]))
        | Some e, _ => (Py.Raise e, idle rows)
        end
    | Py.Raise e => (Py.Raise e, idle rows)
    end.
Proof.
  unfold ApprovalWorkflow.log_doctor_approval, bind.
  rewrite save_doctor_review_unfold.
  fold (approval_record isoformat now_record doctor).
  destruct (json_dumps _) as [text|e]; [|reflexivity].
  destruct fault as [e|]; [rewrite write_failed; reflexivity|].
  destruct refresh as [e|].
  - rewrite write_unread. reflexivity.
  - rewrite write_committed. reflexivity.
Qed.

Lemma save_session_idle (fault refresh : option Py.exn) (payload : json)
    (rows : list ResearchMemory) :
  save_research json_dumps fault refresh now_session
    "melanoma_workflow_2025" Main.query "melanoma" payload (idle rows)
  = match json_dumps payload with
    | Py.Return text =>
        match fault, refresh with
        | None, None =>
            (Py.Return (Some (max_id rows + 1)),
             idle (rows ++ [with_id (max_id rows + 1)
                              (session_row now_session text)]))
        | None, Some e =>
            (Py.Raise e,
             idle (rows ++ [with_id (max_id rows + 1)
                              (session_row now_session text)]))
        | Some e, _ => (Py.Raise e, idle rows)
        end
    | Py.Raise e => (Py.Raise e, idle rows)
    end.
Proof.
  rewrite save_research_unfold.
  destruct (json_dumps _) as [text|e]; [|reflexivity].
  destruct fault as [e|]; [rewrite write_failed; reflexivity|].
  destruct refresh as [e|].
  - rewrite write_unread. reflexivity.
  - rewrite write_committed. reflexivity.
Qed.

(** The body of the [try] after the run has returned its report. *)
Lemma main_body_report
    (approval_fault approval_refresh session_fault session_refresh
       : option Py.exn) (report : Supervisor.Report) (s : Session) :
  run_supervisor = Py.Return report ->
  main_body approval_fault approval_refresh session_fault session_refresh s
  = bind
      (if String.eqb
            (DoctorAgent.doctor_decision (Supervisor.doctor_review report))
            "approve"
       then ApprovalWorkflow.log_doctor_approval json_dumps isoformat
              approval_fault approval_refresh now_record now_entry
              "melanoma_clinical_review_2025" "approved"
              (DoctorAgent.doctor_name (Supervisor.doctor_review report))
       else ret tt)
      (fun _ =>
         bind
           (save_research json_dumps session_fault session_refresh
              now_session "melanoma_workflow_2025" Main.query "melanoma"
              (Main.findings_of report))
           (fun _ => ret tt)) s.
Proof.
  intros H. unfold Main.main_body. unfold bind at 1. unfold lift.
  rewrite H. reflexivity.
Qed.

(** X13.  What a configured run archives.  On a console that prints every
    text, when the papers found can be printed, the codec writes the
    payloads, both commits go through and both ids are read, [main] ends
    after both writes and the table holds the old rows followed by the rows
    of this run, each under a key that no old row has: the approval row and
    then the session row, under different keys, when the recommendation is
    graded 1A or 1B, and the session row alone when it is graded 2C.  An
    approval is logged exactly when the grade is 1A or 1B. *)
Theorem main_archives (rows : list ResearchMemory)
    (text_approval text_findings : string) :
  not_configured = false ->
  (forall text, console text = None) ->
  json_dumps
    (approval_record isoformat now_record DoctorAgent.reviewer_name)
  = Py.Return text_approval ->
  (forall out report,
     process_query = Py.Return (out, report) ->
     json_dumps (Main.findings_of report) = Py.Return text_findings) ->
  prints_papers search ->
  exists out report,
    process_query = Py.Return (out, report)
    /\ (ClinicalReasoner.grade (Supervisor.recommendation report) = "1A"
        \/ ClinicalReasoner.grade (Supervisor.recommendation report) = "1B"
        ->
        exists i j,
          i <> j
          /\ Forall (fun r => id r <> Some i /\ id r <> Some j) rows
          /\ main None None None None (idle rows)
             = (Py.Return Main.Archived,
                idle (rows
                      ++ [with_id i (approval_row now_entry text_approval);
                          with_id j
                            (session_row now_session text_findings)])))
    /\ (~ (ClinicalReasoner.grade (Supervisor.recommendation report) = "1A"
           \/ ClinicalReasoner.grade (Supervisor.recommendation report)
              = "1B") ->
        exists i,
          Forall (fun r => id r <> Some i) rows
          /\ main None None None None (idle rows)
             = (Py.Return Main.Archived,
                idle (rows
                      ++ [with_id i
                            (session_row now_session text_findings)]))).
Proof.
  intros Hk Hc Hda Hdf Hprint.
  destruct (run_supervisor_report Hc Hprint)
    as (out & report & Hsup & Hrun & Hname & Hiff & Hdec).
  exists out, report. split; [exact Hrun|].
  specialize (Hdf out report Hrun).
  rewrite (main_configured _ _ _ _ _ Hc Hk),
    (main_body_report _ _ _ _ report _ Hsup).
  split; intros Hg.
  - apply Hiff in Hg. rewrite Hg.
    replace (String.eqb "approve" "approve") with true by reflexivity.
    exists (max_id rows + 1), (max_id rows + 2).
    destruct (two_new_ids rows) as [Hne Hnew].
    split; [exact Hne|]. split; [exact Hnew|].
    unfold bind at 1. rewrite log_approval_idle, Hname, Hda.
    unfold bind at 1. rewrite save_session_idle, Hdf, max_id_snoc,
      <- app_assoc.
    replace (max_id rows + 1 + 1) with (max_id rows + 2) by lia.
    reflexivity.
  - assert (Hm : DoctorAgent.doctor_decision
                   (Supervisor.doctor_review report) = "modify").
    { destruct Hdec as [H|H]; [|exact H]. apply Hiff in H. contradiction. }
    rewrite Hm.
    replace (String.eqb "modify" "approve") with false by reflexivity.
    exists (max_id rows + 1). split; [apply new_id_fresh_all|].
    unfold bind at 1. unfold ret at 1.
    unfold bind at 1. rewrite save_session_idle, Hdf. reflexivity.
Qed.

(** X14.  The two writes of a run are not atomic together, for a run on a
    console that prints every text, whose papers can be printed and whose
    payloads the codec writes.  In an approved run: when the approval cannot
    be committed, [main] ends on the error with nothing written, the session
    write never tried; when the approval is committed and the read of its id
    fails, or the session then cannot be committed, [main] ends on the error
    with the approval row in the table and no session row; when the session
    is committed and the read of its id fails, [main] ends on the error with
    both rows in the table.  In a modified run a session that cannot be
    committed leaves the table as it was, and a failed read of its id leaves
    the session row in it.  Every such failure is caught and ends the run
    normally. *)
Theorem main_partial_persistence (rows : list ResearchMemory) (e : Py.exn)
    (other_commit other_refresh : option Py.exn)
    (text_approval text_findings : string) :
  not_configured = false ->
  (forall text, console text = None) ->
  json_dumps
    (approval_record isoformat now_record DoctorAgent.reviewer_name)
  = Py.Return text_approval ->
  (forall out report,
     process_query = Py.Return (out, report) ->
     json_dumps (Main.findings_of report) = Py.Return text_findings) ->
  prints_papers search ->
  exists out report,
    process_query = Py.Return (out, report)
    /\ (DoctorAgent.doctor_decision (Supervisor.doctor_review report)
        = "approve" ->
        main (Some e) other_refresh other_commit other_refresh (idle rows)
        = (Py.Return (Main.Failed e), idle rows)
        /\ exists i j,
             i <> j
             /\ Forall (fun r => id r <> Some i /\ id r <> Some j) rows
             /\ main None (Some e) other_commit other_refresh (idle rows)
                = (Py.Return (Main.Failed e),
                   idle (rows
                         ++ [with_id i
                               (approval_row now_entry text_approval)]))
             /\ main None None (Some e) other_refresh (idle rows)
                = (Py.Return (Main.Failed e),
                   idle (rows
                         ++ [with_id i
                               (approval_row now_entry text_approval)]))
             /\ main None None None (Some e) (idle rows)
                = (Py.Return (Main.Failed e),
                   idle (rows
                         ++ [with_id i
                               (approval_row now_entry text_approval);
                             with_id j
                               (session_row now_session text_findings)])))
    /\ (DoctorAgent.doctor_decision (Supervisor.doctor_review report)
        = "modify" ->
        main other_commit other_refresh (Some e) other_refresh (idle rows)
        = (Py.Return (Main.Failed e), idle rows)
        /\ exists i,
             Forall (fun r => id r <> Some i) rows
             /\ main other_commit other_refresh None (Some e) (idle rows)
                = (Py.Return (Main.Failed e),
                   idle (rows
                         ++ [with_id i
                               (session_row now_session text_findings)]))).
Proof.
  intros Hk Hc Hda Hdf Hprint.
  destruct (run_supervisor_report Hc Hprint)
    as (out & report & Hsup & Hrun & Hname & _ & _).
  exists out, report. split; [exact Hrun|].
  specialize (Hdf out report Hrun).
  rewrite !(main_configured _ _ _ _ _ Hc Hk),
    !(main_body_report _ _ _ _ report _ Hsup).
  split; intros Hg; rewrite Hg.
  - replace (String.eqb "approve" "approve") with true by reflexivity.
    split.
    + unfold bind at 1. rewrite log_approval_idle, Hname, Hda. reflexivity.
    + exists (max_id rows + 1), (max_id rows + 2).
      destruct (two_new_ids rows) as [Hne Hnew].
      split; [exact Hne|]. split; [exact Hnew|].
      repeat apply conj.
      * unfold bind at 1. rewrite log_approval_idle, Hname, Hda.
        reflexivity.
      * unfold bind at 1. rewrite log_approval_idle, Hname, Hda.
        unfold bind at 1. rewrite save_session_idle, Hdf. reflexivity.
      * unfold bind at 1. rewrite log_approval_idle, Hname, Hda.
        unfold bind at 1. rewrite save_session_idle, Hdf, max_id_snoc,
          <- app_assoc.
        replace (max_id rows + 1 + 1) with (max_id rows + 2) by lia.
        reflexivity.
  - replace (String.eqb "modify" "approve") with false by reflexivity.
    split.
    + unfold bind at 1. unfold ret at 1.
      unfold bind at 1. rewrite save_session_idle, Hdf. reflexivity.
    + exists (max_id rows + 1). split; [apply new_id_fresh_all|].
      unfold bind at 1. unfold ret at 1.
      unfold bind at 1. rewrite save_session_idle, Hdf. reflexivity.
Qed.

(** X22.  A paper that cannot be printed costs the whole run.  When the
    search finds a paper without a title among its first six, the papers
    before it being printable, a configured [main] archives nothing: no
    approval is logged and the store is left as it was, whatever the
    evidence was and whatever the console does.  On a console that prints
    every text it ends on the [KeyError] of the console output. *)
Theorem unprintable_paper_archives_nothing
    (approval_fault approval_refresh session_fault session_refresh
       : option Py.exn) (s : Session)
    (found : LiteratureAgent.Found)
    (before : list LiteratureAgent.paper) (p : LiteratureAgent.paper)
    (rest : list LiteratureAgent.paper) :
  not_configured = false ->
  search = Py.Return (LiteratureAgent.Success found) ->
  take 6 (LiteratureAgent.papers found) = before ++ p :: rest ->
  Forall printable before ->
  p !! "title" = None ->
  (main approval_fault approval_refresh session_fault session_refresh s).2
  = s
  /\ ((forall text, console text = None) ->
      main approval_fault approval_refresh session_fault session_refresh s
      = (Py.Return (Main.Failed (Py.Exn "KeyError" "'title'")), s)).
Proof.
  intros Hk Hfound Htake Hbefore Hp. split.
  - destruct (run_untitled "gemini-2.5-flash" search_pubmed search_scholar
                perform_survival_analysis format_summary round repr_list
                chars format_percent upper format_rationale console
                Main.query found before p rest Hfound Htake Hbefore Hp)
      as (e & Hrun & _).
    rewrite (main_unfold _ _ _ _ Hk).
    repeat apply bind_say_session.
    apply (guarded_session _ _ e).
    unfold Main.main_body. unfold bind at 1. unfold lift.
    unfold Main.run_supervisor. rewrite Hrun. reflexivity.
  - intros Hc. rewrite (main_configured _ _ _ _ _ Hc Hk).
    unfold Main.main_body. unfold bind at 1. unfold lift.
    unfold Main.run_supervisor.
    rewrite (run_no_title "gemini-2.5-flash" search_pubmed search_scholar
               perform_survival_analysis format_summary round repr_list
               chars format_percent upper format_rationale console
               Main.query found before p rest Hc Hfound Htake Hbefore Hp).
    reflexivity.
Qed.

End MainRun.

(** ** The further statements at concrete inputs *)

Lemma incomplete_evidence_is_weak_witness :
  ClinicalReasoner.p_value MoreExamples.evidence_without_p_value = None
  /\ ClinicalReasoner.generate_recommendation
       MoreExamples.evidence_without_p_value
     = {| ClinicalReasoner.recommendation :=
            ClinicalReasoner.recommendation_text;
          ClinicalReasoner.confidence_score := 0.62;
          ClinicalReasoner.strength_of_recommendation :=
            "Weak recommendation";
          ClinicalReasoner.grade := "2C" |}.
Proof.
  split; [reflexivity|].
  apply (incomplete_evidence_is_weak MoreExamples.evidence_without_p_value).
  left. reflexivity.
Defined.

Lemma unreached_median_never_1A_witness :
  (ClinicalReasoner.median_pembrolizumab MoreExamples.evidence_unreached
   = None
   /\ not_negative
        (ClinicalReasoner.median_nivolumab MoreExamples.evidence_unreached))
  /\ Py.fge (ClinicalReasoner.median_diff MoreExamples.evidence_unreached) 12
     = false
  /\ ClinicalReasoner.grade
       (ClinicalReasoner.generate_recommendation
          MoreExamples.evidence_unreached)
     <> "1A"
  /\ ClinicalReasoner.confidence_score
       (ClinicalReasoner.generate_recommendation
          MoreExamples.evidence_unreached)
     <> 0.94%float.
Proof.
  assert (Hp : ClinicalReasoner.median_pembrolizumab
                 MoreExamples.evidence_unreached = None) by reflexivity.
  assert (Hn : not_negative
                 (ClinicalReasoner.median_nivolumab
                    MoreExamples.evidence_unreached)) by reflexivity.
  split; [split; [exact Hp|exact Hn]|].
  exact (unreached_median_never_1A MoreExamples.evidence_unreached Hp Hn).
Defined.

Lemma score_monotone_witness :
  (fle 0.003 0.03 /\ 9 <= 14 /\ fle 5 14)
  /\ fle (ClinicalReasoner.confidence_score
            (ClinicalReasoner.score 0.03 9 5))
         (ClinicalReasoner.confidence_score
            (ClinicalReasoner.score 0.003 14 14)).
Proof.
  assert (Hp : fle 0.003 0.03) by reflexivity.
  assert (Hn : 9 <= 14) by lia.
  assert (Hd : fle 5 14) by reflexivity.
  split; [repeat apply conj; assumption|].
  exact (score_monotone 0.03 0.003 9 14 5 14 Hp Hn Hd).
Defined.

Lemma first_write_wins_witness :
  (MemoryService.get_session Examples.loads "lung_workflow_2025"
     (idle [Examples.other_row])).1
  = Py.Return (Some MoreExamples.other_view)
  /\ (MemoryService.get_session Examples.loads "lung_workflow_2025"
        (ServiceRun.after_all Examples.dumps Examples.loads
           MoreExamples.isoformat
           [MoreExamples.save_again; MoreExamples.save_review]
           (idle [Examples.other_row]))).1
     = Py.Return (Some MoreExamples.other_view).
Proof.
  assert (H : (MemoryService.get_session Examples.loads "lung_workflow_2025"
                 (idle [Examples.other_row])).1
              = Py.Return (Some MoreExamples.other_view)) by reflexivity.
  split; [exact H|].
  exact (first_write_wins Examples.dumps Examples.loads
           MoreExamples.isoformat
           [MoreExamples.save_again; MoreExamples.save_review]
           [Examples.other_row] "lung_workflow_2025"
           MoreExamples.other_view H).
Defined.

Lemma review_round_trip_witness :
  (MoreExamples.dumps MoreExamples.review_1
   = Py.Return MoreExamples.review_text_1
   /\ MoreExamples.review_text_1 <> ""
   /\ MoreExamples.loads MoreExamples.review_text_1
      = Py.Return MoreExamples.review_1
   /\ Forall (fun old => MemoryService.session_id old
                         <> "melanoma_clinical_review_2025")
        [Examples.other_row])
  /\ exists s,
       MemoryService.save_doctor_review MoreExamples.dumps
         MoreExamples.isoformat None None 1764253920 1764253921
         "melanoma_clinical_review_2025" "modified" "Dr. Lee" "Reduce dose"
         (idle [Examples.other_row])
       = (Py.Return (Some 8), s)
       /\ MemoryService.get_session MoreExamples.loads
            "melanoma_clinical_review_2025" s
          = (Py.Return (Some
               {| MemoryService.view_id := Some 8;
                  MemoryService.view_query := "Physician Review";
                  MemoryService.view_cancer_type := "clinical_decision";
                  MemoryService.view_findings := MoreExamples.review_1;
                  MemoryService.view_timestamp := 1764253921 |}), s).
Proof.
  assert (Hdumps : MoreExamples.dumps MoreExamples.review_1
                   = Py.Return MoreExamples.review_text_1) by reflexivity.
  assert (Hne : MoreExamples.review_text_1 <> "") by discriminate.
  assert (Hloads : MoreExamples.loads MoreExamples.review_text_1
                   = Py.Return MoreExamples.review_1) by reflexivity.
  assert (Hfresh : Forall (fun old => MemoryService.session_id old
                                      <> "melanoma_clinical_review_2025")
                     [Examples.other_row]).
  { repeat constructor. discriminate. }
  split; [repeat apply conj; assumption|].
  exact (review_round_trip MoreExamples.dumps MoreExamples.loads
           MoreExamples.isoformat [Examples.other_row] 1764253920
           1764253921 "melanoma_clinical_review_2025" "modified" "Dr. Lee"
           "Reduce dose" MoreExamples.review_text_1 Hdumps Hne Hloads
           Hfresh).
Defined.

Lemma other_sessions_untouched_witness :
  ServiceRun.written_session MoreExamples.save_review
  <> Some "lung_workflow_2025"
  /\ (MemoryService.get_session Examples.loads "lung_workflow_2025"
        (ServiceRun.after MoreExamples.dumps Examples.loads
           MoreExamples.isoformat MoreExamples.save_review
           (idle [Examples.other_row]))).1
     = (MemoryService.get_session Examples.loads "lung_workflow_2025"
          (idle [Examples.other_row])).1.
Proof.
  assert (H : ServiceRun.written_session MoreExamples.save_review
              <> Some "lung_workflow_2025") by discriminate.
  split; [exact H|].
  exact (other_sessions_untouched MoreExamples.dumps Examples.loads
           MoreExamples.isoformat MoreExamples.save_review
           [Examples.other_row] "lung_workflow_2025" H).
Defined.

Lemma approved_papers_printable : prints_papers MoreExamples.search_approved.
Proof.
  assert (H : exists found,
            MoreExamples.search_approved
            = Py.Return (LiteratureAgent.Success found)
            /\ take 6 (LiteratureAgent.papers found)
               = replicate 6
                   (<["source" := LiteratureAgent.VStr "PubMed"]>
                      Examples.paper_a))
    by (eexists; split; reflexivity).
  destruct H as (found & Hq & Htake).
  unfold prints_papers. rewrite Hq, Htake. cbn [replicate].
  repeat apply Forall_cons_2; try apply Forall_nil_2.
  all: split; [eexists; reflexivity|].
  all: intros _; split; [|intros z]; intros H; vm_compute in H;
    discriminate.
Defined.

(** The run of [main] that is approved, after a stored row. *)
Lemma main_archives_witness :
  exists out report,
    MoreExamples.run_approved = Py.Return (out, report)
    /\ ClinicalReasoner.grade (Supervisor.recommendation report) = "1B"
    /\ DoctorAgent.doctor_decision (Supervisor.doctor_review report)
       = "approve"
    /\ exists i j,
         i <> j
         /\ Forall (fun r => MemoryService.id r <> Some i
                             /\ MemoryService.id r <> Some j)
              [Examples.other_row]
         /\ MoreExamples.main_approved None None None None
              (idle [Examples.other_row])
            = (Py.Return Main.Archived,
               idle ([Examples.other_row]
                     ++ [MemoryService.with_id i
                           (approval_row 1764253921
                              MoreExamples.approval_text);
                         MemoryService.with_id j
                           (session_row 1764253922
                              MoreExamples.findings_text_approved)])).
Proof.
  destruct (main_archives (Some "AIzaSyExampleKey")
              MoreExamples.no_placeholder MoreExamples.pubmed_eight
              Examples.scholar_one MoreExamples.analysis_significant
              Examples.summary_stub Examples.round_id Examples.json_dumps
              MoreExamples.isoformat Examples.repr_list Examples.chars
              Examples.format_percent Examples.upper Examples.rationale_stub
              Examples.console_utf8 1764253920 1764253921 1764253922
              [Examples.other_row] MoreExamples.approval_text
              MoreExamples.findings_text_approved)
    as (out & report & Hrun & Happroved & _).
  - reflexivity.
  - reflexivity.
  - reflexivity.
  - intros out report H. vm_compute in H. injection H as _ <-. reflexivity.
  - exact approved_papers_printable.
  - exists out, report. split; [exact Hrun|].
    assert (Hg : ClinicalReasoner.grade (Supervisor.recommendation report)
                 = "1B").
    { pose proof Hrun as H. vm_compute in H. injection H as _ <-.
      reflexivity. }
    split; [exact Hg|]. split.
    + pose proof Hrun as H. vm_compute in H. injection H as _ <-.
      reflexivity.
    + apply Happroved. right. exact Hg.
Defined.

(** The approved run when the storage fails at each of its four steps. *)
Lemma main_partial_persistence_witness :
  exists out report,
    MoreExamples.run_approved = Py.Return (out, report)
    /\ DoctorAgent.doctor_decision (Supervisor.doctor_review report)
       = "approve"
    /\ MoreExamples.main_approved (Some Examples.database_locked) None
         None None (idle [Examples.other_row])
       = (Py.Return (Main.Failed Examples.database_locked),
          idle [Examples.other_row])
    /\ exists i j,
         i <> j
         /\ Forall (fun r => MemoryService.id r <> Some i
                             /\ MemoryService.id r <> Some j)
              [Examples.other_row]
         /\ MoreExamples.main_approved None
              (Some Examples.database_locked) None None
              (idle [Examples.other_row])
            = (Py.Return (Main.Failed Examples.database_locked),
               idle ([Examples.other_row]
                     ++ [MemoryService.with_id i
                           (approval_row 1764253921
                              MoreExamples.approval_text)]))
         /\ MoreExamples.main_approved None None
              (Some Examples.database_locked) None
              (idle [Examples.other_row])
            = (Py.Return (Main.Failed Examples.database_locked),
               idle ([Examples.other_row]
                     ++ [MemoryService.with_id i
                           (approval_row 1764253921
                              MoreExamples.approval_text)]))
         /\ MoreExamples.main_approved None None None
              (Some Examples.database_locked)
              (idle [Examples.other_row])
            = (Py.Return (Main.Failed Examples.database_locked),
               idle ([Examples.other_row]
                     ++ [MemoryService.with_id i
                           (approval_row 1764253921
                              MoreExamples.approval_text);
                         MemoryService.with_id j
                           (session_row 1764253922
                              MoreExamples.findings_text_approved)])).
Proof.
  destruct (main_partial_persistence (Some "AIzaSyExampleKey")
              MoreExamples.no_placeholder MoreExamples.pubmed_eight
              Examples.scholar_one MoreExamples.analysis_significant
              Examples.summary_stub Examples.round_id Examples.json_dumps
              MoreExamples.isoformat Examples.repr_list Examples.chars
              Examples.format_percent Examples.upper Examples.rationale_stub
              Examples.console_utf8 1764253920 1764253921 1764253922
              [Examples.other_row] Examples.database_locked None None
              MoreExamples.approval_text
              MoreExamples.findings_text_approved)
    as (out & report & Hrun & Happroved & _).
  - reflexivity.
  - reflexivity.
  - reflexivity.
  - intros out report H. vm_compute in H. injection H as _ <-. reflexivity.
  - exact approved_papers_printable.
  - exists out, report. split; [exact Hrun|].
    assert (Hd : DoctorAgent.doctor_decision
                   (Supervisor.doctor_review report) = "approve").
    { pose proof Hrun as H. vm_compute in H. injection H as _ <-.
      reflexivity. }
    split; [exact Hd|]. exact (Happroved Hd).
Defined.

Lemma pubmed_paper_shape_witness :
  (PubmedTool.search_pubmed MoreExamples.year_of_text
     MoreExamples.pubmed_client "pembrolizumab melanoma" 12 2023
   = Py.Return MoreExamples.pubmed_result_1
   /\ MoreExamples.pubmed_paper_1
      ∈ PubmedTool.papers MoreExamples.pubmed_result_1)
  /\ dom MoreExamples.pubmed_paper_1 = pubmed_keys
  /\ (exists title,
        MoreExamples.pubmed_paper_1 !! "title"
        = Some (LiteratureAgent.VStr title) /\ title <> "")
  /\ (exists names,
        MoreExamples.pubmed_paper_1 !! "authors"
        = Some (LiteratureAgent.VList names)
        /\ (1 <= length names <= 5)%nat)
  /\ (MoreExamples.pubmed_paper_1 !! "year" = Some LiteratureAgent.VNone
      \/ exists y,
           MoreExamples.pubmed_paper_1 !! "year"
           = Some (LiteratureAgent.VInt y))
  /\ MoreExamples.pubmed_paper_1 !! "source" = None
  /\ LiteratureAgent.tag_pubmed MoreExamples.pubmed_paper_1 !! "source"
     = Some (LiteratureAgent.VStr "PubMed").
Proof.
  assert (Hr : PubmedTool.search_pubmed MoreExamples.year_of_text
                 MoreExamples.pubmed_client "pembrolizumab melanoma" 12 2023
               = Py.Return MoreExamples.pubmed_result_1) by reflexivity.
  assert (Hin : MoreExamples.pubmed_paper_1
                ∈ PubmedTool.papers MoreExamples.pubmed_result_1).
  { simpl. constructor. }
  split; [split; [exact Hr|exact Hin]|].
  exact (pubmed_paper_shape MoreExamples.year_of_text
           MoreExamples.pubmed_client "pembrolizumab melanoma" 12 2023
           MoreExamples.pubmed_result_1 MoreExamples.pubmed_paper_1 Hr Hin).
Defined.

Lemma scholar_paper_shape_witness :
  ScholarTool.search_scholar MoreExamples.strip MoreExamples.isdigit
    MoreExamples.int_of MoreExamples.http_one "pembrolizumab melanoma" 6
  = Py.Return MoreExamples.scholar_result_1
  /\ (forall p, p ∈ ScholarTool.papers MoreExamples.scholar_result_1 ->
        dom p = scholar_keys
        /\ p !! "source" = Some (LiteratureAgent.VStr "Google Scholar")
        /\ exists year,
             p !! "year" = Some (LiteratureAgent.VStr year)
             /\ accepted_year MoreExamples.isdigit MoreExamples.int_of year)
  /\ (0 <= 6 ->
      LiteratureAgent.len (ScholarTool.papers MoreExamples.scholar_result_1)
      <= 6)
  /\ (ScholarTool.status MoreExamples.scholar_result_1 = "success" ->
      ScholarTool.total_found MoreExamples.scholar_result_1
      = Some (LiteratureAgent.len
                (ScholarTool.papers MoreExamples.scholar_result_1))).
Proof.
  assert (Hr : ScholarTool.search_scholar MoreExamples.strip
                 MoreExamples.isdigit MoreExamples.int_of
                 MoreExamples.http_one "pembrolizumab melanoma" 6
               = Py.Return MoreExamples.scholar_result_1) by reflexivity.
  split; [exact Hr|].
  exact (scholar_paper_shape MoreExamples.strip MoreExamples.isdigit
           MoreExamples.int_of MoreExamples.http_one
           "pembrolizumab melanoma" 6 MoreExamples.scholar_result_1 Hr).
Defined.

Lemma unprintable_paper_archives_nothing_witness :
  (LiteratureAgent.query "gemini-2.5-flash" Examples.pubmed_one
     Examples.scholar_untitled Main.query
   = Py.Return (LiteratureAgent.Success MoreExamples.found_untitled)
   /\ Examples.paper_untitled !! "title" = None)
  /\ MoreExamples.main_untitled None None None None
       (idle [Examples.other_row])
     = (Py.Return (Main.Failed (Py.Exn "KeyError" "'title'")),
        idle [Examples.other_row]).
Proof.
  assert (Hfound : LiteratureAgent.query "gemini-2.5-flash"
                     Examples.pubmed_one Examples.scholar_untitled
                     Main.query
                   = Py.Return
                       (LiteratureAgent.Success MoreExamples.found_untitled))
    by reflexivity.
  assert (Hp : Examples.paper_untitled !! "title" = None)
    by reflexivity.
  split; [split; [exact Hfound|exact Hp]|].
  refine (proj2
            (unprintable_paper_archives_nothing (Some "AIzaSyExampleKey")
           MoreExamples.no_placeholder Examples.pubmed_one
           Examples.scholar_untitled Examples.analysis_failed
           Examples.summary_stub Examples.round_id Examples.json_dumps
           MoreExamples.isoformat Examples.repr_list Examples.chars
           Examples.format_percent Examples.upper
           Examples.rationale_stub Examples.console_utf8
           1764253920 1764253921 1764253922
           None None None None (idle [Examples.other_row])
           MoreExamples.found_untitled
           [LiteratureAgent.tag_pubmed Examples.paper_a]
           Examples.paper_untitled [] _ Hfound _ _ Hp) _).
  - reflexivity.
  - reflexivity.
  - apply Forall_cons_2; [|apply Forall_nil_2].
    split; [eexists; reflexivity|].
    intros _; split; [|intros z]; intros H; vm_compute in H; discriminate.
  - reflexivity.
Defined.

(** [main] on a console that has only the ASCII characters: the first line
    of the banner ends it, with or without a key. *)
Example main_stops_at_the_banner :
  MoreExamples.main_with Examples.pubmed_one Examples.scholar_one
    Examples.analysis_failed Examples.console_ascii None None None None
    (idle [Examples.other_row])
  = (Py.Raise Examples.cannot_encode, idle [Examples.other_row])
  /\ Main.main None MoreExamples.no_placeholder Examples.pubmed_one
       Examples.scholar_one Examples.analysis_failed Examples.summary_stub
       Examples.round_id Examples.json_dumps MoreExamples.isoformat
       Examples.repr_list Examples.chars Examples.format_percent
       Examples.upper Examples.rationale_stub Examples.console_ascii None
       None None None 1764253920 1764253921 1764253922
       (idle [Examples.other_row])
     = (Py.Raise Examples.cannot_encode, idle [Examples.other_row]).
Proof. split; vm_compute; reflexivity. Qed.

(** The run that is modified archives its session row alone. *)
Example modified_run_archives_the_session :
  MoreExamples.main None None None None (idle [Examples.other_row])
  = (Py.Return Main.Archived,
     idle [ Examples.other_row;
            MemoryService.with_id 8
              (session_row 1764253922 MoreExamples.findings_text) ]).
Proof. vm_compute. reflexivity. Qed.
